(** * creature-plans-parser: the Plan Collector and the Frequency Analyzer

    A shallow embedding of [parsecreature.py] (class [CreaturePlanParser])
    and [chunkanalyzer.py] (class [ContentAnalyzer]).

    Conventions of the embedding.
    - A Python [str] is a Rocq [string]; a character is a code point
      below 256.
    - A value read by [json.load] is a [json]; a Python [dict] is an
      association list in insertion order with distinct keys.
    - Code that prints, mutates locals and raises runs in the monad [M]:
      the state survives a raised exception, as the locals of a Python
      frame do when control reaches an [except] clause.
    - Every exception of the model is a subclass of [Exception].
    - [print] raises when the console does not take the line. A console
      is a [Console.t]; [AnyConsole] holds the Collector on any console,
      and [CreaturePlanParser] the same methods on the console that
      takes every line. *)

From Stdlib Require Import String Ascii List ZArith Bool Lia Permutation.
From Stdlib Require Import Sorting.Sorted.
From Stdlib Require Import Floats.PrimFloat.
Import ListNotations.

Set Warnings "-register-all".

Local Open Scope string_scope.
Local Open Scope Z_scope.

(* ================================================================== *)
(** * Python strings *)
(* ================================================================== *)

Module PyStr.

(** [str.isspace] on code points below 256. *)
Definition is_space (c : ascii) : bool :=
  let n := N_of_ascii c in
  ((9 <=? n) && (n <=? 13))%N || ((28 <=? n) && (n <=? 32))%N
  || (n =? 133)%N || (n =? 160)%N.

Fixpoint lstrip (s : string) : string :=
  match s with
  | String c t => if is_space c then lstrip t else s
  | EmptyString => EmptyString
  end.

Fixpoint rstrip (s : string) : string :=
  match s with
  | String c t =>
      match rstrip t with
      | EmptyString => if is_space c then EmptyString else String c EmptyString
      | t' => String c t'
      end
  | EmptyString => EmptyString
  end.

(** [s.strip()] *)
Definition strip (s : string) : string := rstrip (lstrip s).

(** [needle in hay] for two strings. *)
Fixpoint contains (needle hay : string) : bool :=
  String.prefix needle hay ||
  match hay with
  | String _ t => contains needle t
  | EmptyString => false
  end.

(** [s.endswith(suf)] *)
Definition endswith (suf s : string) : bool :=
  let n := String.length s in
  let k := String.length suf in
  (k <=? n)%nat && String.eqb (String.substring (n - k) k s) suf.

(** [s.split(sep)] for a separator of one character. *)
Fixpoint split (sep : ascii) (s : string) : list string :=
  match s with
  | EmptyString => [EmptyString]
  | String c t =>
      if Ascii.eqb c sep then EmptyString :: split sep t
      else match split sep t with
           | p :: ps => String c p :: ps
           | [] => [String c EmptyString]
           end
  end.

(** [s.replace(c, "")] for one character [c]. *)
Fixpoint remove_char (c : ascii) (s : string) : string :=
  match s with
  | EmptyString => EmptyString
  | String d t => if Ascii.eqb d c then remove_char c t else String d (remove_char c t)
  end.

(** [s[:n]] *)
Fixpoint take (n : nat) (s : string) : string :=
  match n, s with
  | S k, String c t => String c (take k t)
  | _, _ => EmptyString
  end.

Definition is_digit (c : ascii) : bool :=
  let n := N_of_ascii c in ((48 <=? n) && (n <=? 57))%N.

Definition digit_val (c : ascii) : Z := Z.of_N (N_of_ascii c) - 48.

Definition digit_char (d : Z) : ascii := ascii_of_N (Z.to_N (48 + d)).

(** Decimal digits of a natural number, most significant first; [fuel]
    bounds the number of digits. *)
Fixpoint digits_fuel (fuel : nat) (n : Z) (acc : string) : string :=
  match fuel with
  | O => acc
  | S k =>
      let acc' := String (digit_char (n mod 10)) acc in
      if n / 10 =? 0 then acc' else digits_fuel k (n / 10) acc'
  end.

(** [str(n)] for an integer. *)
Definition of_Z (n : Z) : string :=
  if n <? 0 then String "-" (digits_fuel (S (Z.to_nat (Z.log2 (- n)))) (- n) EmptyString)
  else digits_fuel (S (Z.to_nat (Z.log2 n))) n EmptyString.

Fixpoint zeros (k : nat) : string :=
  match k with O => EmptyString | S k' => String "0" (zeros k') end.

(** ["%0<w>d" % n] for [0 <= n]. *)
Definition pad (w : nat) (n : Z) : string :=
  let d := of_Z n in zeros (w - String.length d) ++ d.

Definition newline : string := String (ascii_of_nat 10) EmptyString.

End PyStr.

(* ================================================================== *)
(** * Exceptions, JSON values and the monad of effects *)
(* ================================================================== *)

(** The exceptions the two programs can meet. [OSError] stands for the
    failures of [open] and [iterdir]; a [json.JSONDecodeError] is a
    [ValueError]. *)
Inductive exn : Type :=
| ValueError (msg : string)
| KeyError (key_repr : string)
| TypeError (msg : string)
| AttributeError (msg : string)
| OSError (msg : string).

(** [str(e)] *)
Definition exn_str (e : exn) : string :=
  match e with
  | ValueError m | TypeError m | AttributeError m | OSError m => m
  | KeyError k => k
  end.

Inductive json : Type :=
| JNull
| JBool (b : bool)
| JInt (n : Z)
| JFloat (x : float)
| JStr (s : string)
| JList (items : list json)
| JDict (entries : list (string * json)).

(** [type(v).__name__] *)
Definition type_name (v : json) : string :=
  match v with
  | JNull => "NoneType"
  | JBool _ => "bool"
  | JInt _ => "int"
  | JFloat _ => "float"
  | JStr _ => "str"
  | JList _ => "list"
  | JDict _ => "dict"
  end.

Definition result (A : Type) : Type := (exn + A)%type.

(** A computation over a state [S] that may raise. *)
Definition M (S A : Type) : Type := S -> S * result A.

Definition ret {S A} (x : A) : M S A := fun s => (s, inr x).

Definition bind {S A B} (m : M S A) (f : A -> M S B) : M S B :=
  fun s =>
    match m s with
    | (s', inl e) => (s', inl e)
    | (s', inr x) => f x s'
    end.

Definition raise {S A} (e : exn) : M S A := fun s => (s, inl e).

(** A value or an exception computed without effect. *)
Definition lift {S A} (r : result A) : M S A := fun s => (s, r).

(** [try: m  except Exception as e: h e] *)
Definition try_except {S A} (m : M S A) (h : exn -> M S A) : M S A :=
  fun s =>
    match m s with
    | (s', inl e) => h e s'
    | (s', inr x) => (s', inr x)
    end.

Definition get {S} : M S S := fun s => (s, inr s).
Definition modify {S} (f : S -> S) : M S unit := fun s => (f s, inr tt).

Declare Scope py_scope.
Delimit Scope py_scope with py.
Notation "x <- m ;; k" := (bind m (fun x => k))
  (at level 61, m at next level, right associativity) : py_scope.
Notation "m ;; k" := (bind m (fun _ => k))
  (at level 61, right associativity) : py_scope.
Local Open Scope py_scope.

(** [for x in l: body x] *)
Fixpoint for_each {S A} (l : list A) (body : A -> M S unit) : M S unit :=
  match l with
  | [] => ret tt
  | x :: t => body x ;; for_each t body
  end.

(** A loop that threads an accumulator through its body. *)
Fixpoint fold_m {S A B} (body : A -> B -> M S B) (l : list A) (acc : B) : M S B :=
  match l with
  | [] => ret acc
  | x :: t => acc' <- body x acc ;; fold_m body t acc'
  end.

(** The same bind on plain results, for code without state. *)
Definition rbind {A B} (r : result A) (f : A -> result B) : result B :=
  match r with
  | inl e => inl e
  | inr x => f x
  end.

Notation "x <~ r ;; k" := (rbind r (fun x => k))
  (at level 61, r at next level, right associativity) : py_scope.

Fixpoint rfold {A B} (body : A -> B -> result B) (l : list A) (acc : B) : result B :=
  match l with
  | [] => inr acc
  | x :: t => acc' <~ body x acc ;; rfold body t acc'
  end.

(** [[f x for x in l]], stopping at the first exception. *)
Fixpoint rmap {A B} (f : A -> result B) (l : list A) : result (list B) :=
  match l with
  | [] => inr []
  | x :: t => y <~ f x ;; ys <~ rmap f t ;; inr (y :: ys)
  end.

(** [l.append(x)] *)
Definition list_append {A} (l : list A) (x : A) : list A := (l ++ [x])%list.

(** The console, as [print] meets it. *)
Module Console.

(** What the console does with a line, after the lines it has taken: it
    takes the line, or the write raises ([UnicodeEncodeError] for a
    character its encoding lacks, [OSError] for a closed or full
    device). *)
Definition t : Type := list string -> string -> result unit.

(** [print(line)]: the state is the list of the lines taken. A line
    that is refused leaves it as it is. *)
Definition print (dev : t) (line : string) : M (list string) unit :=
  fun out =>
    match dev out line with
    | inr _ => (list_append out line, inr tt)
    | inl e => (out, inl e)
    end.

(** The console that takes every line. *)
Definition accepting : t := fun _ _ => inr tt.

End Console.

(** [print(line)] on the console that takes every line. *)
Definition print (line : string) : M (list string) unit :=
  Console.print Console.accepting line.

(* ================================================================== *)
(** * [list.sort] and [sorted] *)
(* ================================================================== *)

(** Python sorts stably and compares keys with [<] only. The result of a
    stable sort is fixed by the list and the order of the keys, so
    insertion from the right stands for it. *)
Section Sort.
Context {A K : Type} (ltb : K -> K -> bool) (key : A -> K).

Fixpoint insert_by (x : A) (l : list A) : list A :=
  match l with
  | [] => [x]
  | y :: t => if ltb (key y) (key x) then y :: insert_by x t else x :: l
  end.

Fixpoint sort_by (l : list A) : list A :=
  match l with
  | [] => []
  | x :: t => insert_by x (sort_by t)
  end.

End Sort.

(* ================================================================== *)
(** * Python dictionaries and the operations on JSON values *)
(* ================================================================== *)

Module Dict.

Section Ops.
Context {V : Type}.

(** [d.get(k)] *)
Fixpoint lookup (k : string) (d : list (string * V)) : option V :=
  match d with
  | [] => None
  | (k', v) :: t => if String.eqb k k' then Some v else lookup k t
  end.

(** [d[k] = v]: an existing key keeps its place, a new one goes last. *)
Fixpoint set (k : string) (v : V) (d : list (string * V)) : list (string * V) :=
  match d with
  | [] => [(k, v)]
  | (k', v') :: t =>
      if String.eqb k k' then (k', v) :: t else (k', v') :: set k v t
  end.

(** [dict(pairs)] *)
Definition of_pairs (l : list (string * V)) : list (string * V) :=
  fold_left (fun d kv => set (fst kv) (snd kv) d) l [].

Definition keys (d : list (string * V)) : list string := map fst d.

(** [d.values()] *)
Definition values (d : list (string * V)) : list V := map snd d.

End Ops.

End Dict.

(** The messages of the exceptions are those of CPython 3.11. *)
Module Py.

Definition quote (s : string) : string := "'" ++ s ++ "'".

Definition hex_digit (n : N) : ascii :=
  if (n <? 10)%N then ascii_of_N (48 + n) else ascii_of_N (87 + n).

Definition printable (c : ascii) : bool :=
  let n := N_of_ascii c in
  ((32 <=? n) && (n <=? 126))%N || ((161 <=? n) && negb (n =? 173))%N.

Definition repr_char (q : ascii) (c : ascii) : string :=
  let n := N_of_ascii c in
  if Ascii.eqb c q || Ascii.eqb c "\" then String "\" (String c EmptyString)
  else if (n =? 9)%N then "\t"
  else if (n =? 10)%N then "\n"
  else if (n =? 13)%N then "\r"
  else if printable c then String c EmptyString
  else String "\" (String "x" (String (hex_digit (n / 16)) (String (hex_digit (n mod 16)) EmptyString))).

Fixpoint repr_body (q : ascii) (s : string) : string :=
  match s with
  | EmptyString => EmptyString
  | String c t => repr_char q c ++ repr_body q t
  end.

Definition double_quote : ascii := ascii_of_nat 34.

(** [repr(s)] for a string. *)
Definition repr (s : string) : string :=
  let q : ascii :=
    if PyStr.contains "'" s && negb (PyStr.contains (String double_quote EmptyString) s)
    then double_quote else "'"%char in
  String q (repr_body q s ++ String q EmptyString).

(** [obj[key]] for a string [key]. *)
Definition getitem (obj : json) (key : string) : result json :=
  match obj with
  | JDict d =>
      match Dict.lookup key d with
      | Some v => inr v
      | None => inl (KeyError (repr key))
      end
  | JList _ => inl (TypeError "list indices must be integers or slices, not str")
  | JStr _ => inl (TypeError "string indices must be integers, not 'str'")
  | v => inl (TypeError (quote (type_name v) ++ " object is not subscriptable"))
  end.

Definition no_attribute (v : json) (attr : string) : exn :=
  AttributeError (quote (type_name v) ++ " object has no attribute " ++ quote attr).

(** [obj.get(key, default)] *)
Definition get (obj : json) (key : string) (default : json) : result json :=
  match obj with
  | JDict d =>
      match Dict.lookup key d with
      | Some v => inr v
      | None => inr default
      end
  | v => inl (no_attribute v "get")
  end.

(** [obj.strip()] *)
Definition strip (obj : json) : result string :=
  match obj with
  | JStr s => inr (PyStr.strip s)
  | v => inl (no_attribute v "strip")
  end.

Fixpoint chars (s : string) : list json :=
  match s with
  | EmptyString => []
  | String c t => JStr (String c EmptyString) :: chars t
  end.

(** The elements visited by [for x in obj]. *)
Definition iter (obj : json) : result (list json) :=
  match obj with
  | JList l => inr l
  | JDict d => inr (map (fun kv => JStr (fst kv)) d)
  | JStr s => inr (chars s)
  | v => inl (TypeError (quote (type_name v) ++ " object is not iterable"))
  end.

(** [obj.values()] *)
Definition values (obj : json) : result (list json) :=
  match obj with
  | JDict d => inr (Dict.values d)
  | v => inl (no_attribute v "values")
  end.

(** [needle in obj] for a string [needle]. *)
Definition contains (needle : string) (obj : json) : result bool :=
  match obj with
  | JStr s => inr (PyStr.contains needle s)
  | JList l =>
      inr (existsb (fun v => match v with JStr s => String.eqb needle s | _ => false end) l)
  | JDict d => inr (existsb (fun kv => String.eqb needle (fst kv)) d)
  | v => inl (TypeError ("argument of type " ++ quote (type_name v) ++ " is not iterable"))
  end.

(** [obj.split(sep)] for a separator of one character. *)
Definition split (obj : json) (sep : ascii) : result (list string) :=
  match obj with
  | JStr s => inr (PyStr.split sep s)
  | v => inl (no_attribute v "split")
  end.

Definition int_space (c : ascii) : bool :=
  let n := N_of_ascii c in
  ((9 <=? n) && (n <=? 13))%N || (n =? 32)%N || (n =? 133)%N || (n =? 160)%N.

Fixpoint skip_spaces (s : string) : string :=
  match s with
  | String c t => if int_space c then skip_spaces t else s
  | EmptyString => EmptyString
  end.

(** The digits of an integer literal after its first digit: single
    underscores may separate digits. Returns the value and what follows. *)
Fixpoint int_digits (acc : Z) (s : string) : option (Z * string) :=
  match s with
  | String c t =>
      if PyStr.is_digit c then int_digits (10 * acc + PyStr.digit_val c) t
      else if Ascii.eqb c "_" then
        match t with
        | String d t' =>
            if PyStr.is_digit d then int_digits (10 * acc + PyStr.digit_val d) t'
            else None
        | EmptyString => None
        end
      else Some (acc, s)
  | EmptyString => Some (acc, s)
  end.

Definition int_unsigned (s : string) : option Z :=
  match s with
  | String c t =>
      if PyStr.is_digit c then
        match int_digits (PyStr.digit_val c) t with
        | Some (v, rest) =>
            match skip_spaces rest with
            | EmptyString => Some v
            | _ => None
            end
        | None => None
        end
      else None
  | EmptyString => None
  end.

(** [int(s)] for a string, base 10. The message of the error holds the
    first 200 characters of the [repr] of the string. The limit on the
    number of digits (4300 by default) is beyond the length of a file
    name. *)
Definition int (s : string) : result Z :=
  let bad := inl (ValueError ("invalid literal for int() with base 10: "
                              ++ PyStr.take 200 (repr s))) in
  match skip_spaces s with
  | String "+" t =>
      match int_unsigned t with Some v => inr v | None => bad end
  | String "-" t =>
      match int_unsigned t with Some v => inr (- v) | None => bad end
  | t =>
      match int_unsigned t with Some v => inr v | None => bad end
  end.

End Py.

(* ================================================================== *)
(** * [datetime] and [datetime.strptime] *)
(* ================================================================== *)

Module Datetime.

(** A naive [datetime]. Two values compare as their field tuples do. *)
Record t : Type := make {
  year : Z; month : Z; day : Z;
  hour : Z; minute : Z; second : Z; microsecond : Z
}.

Definition fields (d : t) : list Z :=
  [year d; month d; day d; hour d; minute d; second d; microsecond d].

Fixpoint lex_ltb (a b : list Z) : bool :=
  match a, b with
  | x :: a', y :: b' => (x <? y) || ((x =? y) && lex_ltb a' b')
  | [], _ :: _ => true
  | _, [] => false
  end.

(** [a < b] *)
Definition ltb (a b : t) : bool := lex_ltb (fields a) (fields b).

Definition eqb (a b : t) : bool :=
  (year a =? year b) && (month a =? month b) && (day a =? day b) &&
  (hour a =? hour b) && (minute a =? minute b) && (second a =? second b) &&
  (microsecond a =? microsecond b).

Definition is_leap (y : Z) : bool :=
  (y mod 4 =? 0) && (negb (y mod 100 =? 0) || (y mod 400 =? 0)).

Definition days_in_month (y m : Z) : Z :=
  if m =? 2 then (if is_leap y then 29 else 28)
  else if (m =? 4) || (m =? 6) || (m =? 9) || (m =? 11) then 30
  else 31.

(** [d.isoformat(sep)]; [str(d)] is [isoformat " "]. The fraction is
    written only when it is not zero. *)
Definition isoformat (sep : string) (d : t) : string :=
  PyStr.pad 4 (year d) ++ "-" ++ PyStr.pad 2 (month d) ++ "-" ++ PyStr.pad 2 (day d)
  ++ sep ++ PyStr.pad 2 (hour d) ++ ":" ++ PyStr.pad 2 (minute d) ++ ":" ++ PyStr.pad 2 (second d)
  ++ (if microsecond d =? 0 then "" else "." ++ PyStr.pad 6 (microsecond d)).

Definition to_str (d : t) : string := isoformat " " d.

(** ** The regular expression of the format

    [strptime] turns the format into a regular expression and takes its
    first match, found by backtracking over the alternatives of every
    directive in the order they are written, case ignored. *)

Definition cls : Type := ascii -> bool.

Definition range (lo hi : ascii) : cls :=
  fun c => (N_of_ascii lo <=? N_of_ascii c)%N && (N_of_ascii c <=? N_of_ascii hi)%N.
Definition digit : cls := range "0" "9".
Definition chr (a : ascii) : cls := Ascii.eqb a.
Definition chr2 (a b : ascii) : cls := fun c => Ascii.eqb a c || Ascii.eqb b c.

Inductive item : Type :=
| Lit (c : cls)
| Field (alternatives : list (list cls)).

Fixpoint match_pat (p : list cls) (s : string) : option (string * string) :=
  match p with
  | [] => Some (EmptyString, s)
  | c :: p' =>
      match s with
      | String a rest =>
          if c a then
            match match_pat p' rest with
            | Some (m, r) => Some (String a m, r)
            | None => None
            end
          else None
      | EmptyString => None
      end
  end.

Fixpoint first_some {A B} (f : A -> option B) (l : list A) : option B :=
  match l with
  | [] => None
  | x :: t => match f x with Some y => Some y | None => first_some f t end
  end.

(** The first match of a sequence of items at the start of [s]: the text
    of every field and what is left of [s]. *)
Fixpoint match_seq (fmt : list item) (s : string) : option (list string * string) :=
  match fmt with
  | [] => Some ([], s)
  | Lit c :: fmt' =>
      match s with
      | String a rest => if c a then match_seq fmt' rest else None
      | EmptyString => None
      end
  | Field alts :: fmt' =>
      first_some
        (fun p =>
           match match_pat p s with
           | Some (m, r) =>
               match match_seq fmt' r with
               | Some (ms, r') => Some (m :: ms, r')
               | None => None
               end
           | None => None
           end)
        alts
  end.

Definition dir_Y : item := Field [[digit; digit; digit; digit]].
Definition dir_m : item :=
  Field [[chr "1"; range "0" "2"]; [chr "0"; range "1" "9"]; [range "1" "9"]].
Definition dir_d : item :=
  Field [[chr "3"; range "0" "1"]; [range "1" "2"; digit]; [chr "0"; range "1" "9"];
         [range "1" "9"]; [chr " "; range "1" "9"]].
Definition dir_H : item :=
  Field [[chr "2"; range "0" "3"]; [range "0" "1"; digit]; [digit]].
Definition dir_M : item := Field [[range "0" "5"; digit]; [digit]].
Definition dir_S : item :=
  Field [[chr "6"; range "0" "1"]; [range "0" "5"; digit]; [digit]].
Definition dir_f : item :=
  Field [repeat digit 6; repeat digit 5; repeat digit 4;
         repeat digit 3; repeat digit 2; repeat digit 1].

Definition format_text : string := "%Y-%m-%dT%H:%M:%S.%fZ".

(** The expression of ["%Y-%m-%dT%H:%M:%S.%fZ"]. *)
Definition format : list item :=
  [dir_Y; Lit (chr "-"); dir_m; Lit (chr "-"); dir_d; Lit (chr2 "T" "t");
   dir_H; Lit (chr ":"); dir_M; Lit (chr ":"); dir_S; Lit (chr ".");
   dir_f; Lit (chr2 "Z" "z")].

Definition make_checked (y m d H Mi S us : Z) : result t :=
  if y <? 1 then inl (ValueError ("year " ++ PyStr.of_Z y ++ " is out of range"))
  else if days_in_month y m <? d then inl (ValueError "day is out of range for month")
  else if 59 <? S then inl (ValueError "second must be in 0..59")
  else inr (make y m d H Mi S us).

(** [datetime.strptime(s, "%Y-%m-%dT%H:%M:%S.%fZ")] *)
Definition strptime (s : string) : result t :=
  match match_seq format s with
  | Some ([tY; tm; td; tH; tM; tS; tf], rest) =>
      match rest with
      | EmptyString =>
          rbind (Py.int tY) (fun y =>
          rbind (Py.int tm) (fun m =>
          rbind (Py.int td) (fun d =>
          rbind (Py.int tH) (fun H =>
          rbind (Py.int tM) (fun Mi =>
          rbind (Py.int tS) (fun S =>
          rbind (Py.int (tf ++ PyStr.zeros (6 - String.length tf))) (fun us =>
          make_checked y m d H Mi S us)))))))
      | _ => inl (ValueError ("unconverted data remains: " ++ rest))
      end
  | _ =>
      inl (ValueError ("time data " ++ Py.repr s ++ " does not match format "
                       ++ Py.repr format_text))
  end.

End Datetime.

(* ================================================================== *)
(** * The file system seen by the Collector *)
(* ================================================================== *)

(** An absolute path: its components, innermost first. *)
Definition Path : Type := list string.

Definition path_child (p : Path) (name : string) : Path := name :: p.

(** [p.name] *)
Definition path_name (p : Path) : string :=
  match p with
  | n :: _ => n
  | [] => EmptyString
  end.

(** [p.parent] *)
Definition path_parent (p : Path) : Path :=
  match p with
  | _ :: q => q
  | [] => []
  end.

(** [str(p)] *)
Fixpoint path_str (p : Path) : string :=
  match p with
  | [] => "/"
  | [n] => "/" ++ n
  | n :: q => path_str q ++ "/" ++ n
  end.

(** A child of a plan folder, with what [open] and [json.load] make of
    it: the value read, or the exception raised. *)
Record entry : Type := {
  entry_name : string;
  entry_load : result json
}.

(** A child of the input root. [folder_scan] is what scanning it for a
    glob yields, in the order of the system: its children, or the
    exception the scan lets through. *)
Record folder : Type := {
  folder_name : string;
  folder_is_dir : bool;
  folder_scan : result (list entry)
}.

(** The input root. [root_scan] is what [iterdir] and the [is_dir] test
    of the children yield: the children in the order of the system, or
    the exception either of them raises. *)
Record tree : Type := {
  plans_directory : Path;
  root_scan : result (list folder)
}.

(** [dir_path.glob('*.json')] *)
Definition glob_json (d : folder) : result (list entry) :=
  es <~ folder_scan d ;;
  inr (filter (fun e => PyStr.endswith ".json" (entry_name e)) es).

(* ================================================================== *)
(** * parsecreature.py: [CreaturePlanParser] *)
(* ================================================================== *)

Module CreaturePlanParser.

Record ThoughtData : Type := {
  timestamp : Datetime.t;
  content : string;
  real_time_factors : json;
  relevance_score : json;
  confidence_score : json
}.

Definition exploring : string := "Exploring system dynamics and adaptation patterns".

Definition excluded_content : list string := [exploring; "plan_"].

Definition should_exclude_content (content : string) : bool :=
  existsb (fun excluded => PyStr.contains excluded content) excluded_content.

Definition parse_timestamp (timestamp_str : json) : result Datetime.t :=
  has_dot <~ Py.contains "." timestamp_str ;;
  timestamp_str' <~
    (if has_dot : bool then
       parts <~ Py.split timestamp_str "." ;;
       match parts with
       | [main_part; fractional] =>
           let fractional := PyStr.take 6 (PyStr.remove_char "Z" fractional) in
           inr (JStr (main_part ++ "." ++ fractional ++ "Z"))
       | _ :: _ :: _ :: _ => inl (ValueError "too many values to unpack (expected 2)")
       | _ =>
           inl (ValueError ("not enough values to unpack (expected 2, got "
                            ++ PyStr.of_Z (Z.of_nat (List.length parts)) ++ ")"))
       end
     else inr timestamp_str) ;;
  match timestamp_str' with
  | JStr s => Datetime.strptime s
  | JNull => inl (TypeError "strptime() argument 1 must be str, not None")
  | v => inl (TypeError ("strptime() argument 1 must be str, not " ++ type_name v))
  end.

(** The body of the inner [try]: the constructor call of [ThoughtData],
    its arguments evaluated in the order they are written. *)
Definition thought_data (thought : json) : result ThoughtData :=
  ts <~ Py.getitem thought "timestamp" ;;
  t <~ parse_timestamp ts ;;
  c <~ Py.getitem thought "content" ;;
  c <~ Py.strip c ;;
  f <~ Py.getitem thought "real_time_factors" ;;
  r <~ Py.getitem thought "relevance_score" ;;
  cs <~ Py.getitem thought "confidence_score" ;;
  inr {| timestamp := t; content := c; real_time_factors := f;
         relevance_score := r; confidence_score := cs |}.

(** One turn of the loop over the thoughts of a file. *)
Definition process_thought (plan_path : Path) (thought : json)
    (thoughts : list ThoughtData) : M (list string) (list ThoughtData) :=
  c <- lift (c <~ Py.getitem thought "content" ;; Py.strip c) ;;
  if should_exclude_content c then ret thoughts
  else
    try_except
      (thought_data <- lift (thought_data thought) ;;
       ret (list_append thoughts thought_data))
      (fun e =>
         print ("Error processing thought in " ++ path_name plan_path ++ ": " ++ exn_str e) ;;
         ret thoughts).

(** The dictionary written for one thought of a Plan Document. *)
Definition thought_dict (t : ThoughtData) : json :=
  JDict [("timestamp", JStr (Datetime.to_str (timestamp t)));
         ("content", JStr (content t));
         ("real_time_factors", real_time_factors t);
         ("relevance_score", relevance_score t);
         ("confidence_score", confidence_score t)].

Definition plan_document (plan_id : json) (plan_path : Path) (thoughts : list ThoughtData) : json :=
  JDict [("plan_id", plan_id);
         ("folder", JStr (path_name (path_parent plan_path)));
         ("file_name", JStr (path_name plan_path));
         ("thoughts", JList (map thought_dict thoughts))].

(** [parse_single_plan(plan_path)]; [loaded] is what [open] and
    [json.load] give for the path. The result is the Plan Document, or
    [None]. *)
Definition parse_single_plan (plan_path : Path) (loaded : result json)
    : M (list string) (option json) :=
  try_except
    (plan_data <- lift loaded ;;
     items <- lift (ths <~ Py.get plan_data "thoughts" (JList []) ;; Py.iter ths) ;;
     thoughts <- fold_m (process_thought plan_path) items [] ;;
     let thoughts := sort_by Datetime.ltb timestamp thoughts in
     match thoughts with
     | _ :: _ =>
         plan_id <- lift (Py.get plan_data "id" JNull) ;;
         ret (Some (plan_document plan_id plan_path thoughts))
     | [] => ret None
     end)
    (fun e =>
       print ("Error processing file " ++ path_str plan_path ++ ": " ++ exn_str e) ;;
       ret None).

Definition condense_thought (thought : json) (condensed : list json) : result (list json) :=
  c <~ Py.getitem thought "content" ;;
  c <~ Py.strip c ;;
  if negb (String.eqb c exploring) then
    c <~ Py.getitem thought "content" ;;
    c <~ Py.strip c ;;
    r <~ Py.getitem thought "real_time_factors" ;;
    inr (list_append condensed (JDict [("c", JStr c); ("r", r)]))
  else inr condensed.

Definition condense_plan (plan_data : json) (condensed : list json) : result (list json) :=
  ths <~ Py.getitem plan_data "thoughts" ;;
  ths <~ Py.iter ths ;;
  rfold condense_thought ths condensed.

Definition condense_dir (dir_plans : json) (condensed : list json) : result (list json) :=
  plans <~ Py.values dir_plans ;;
  rfold condense_plan plans condensed.

Definition create_condensed_output (all_plans : json) : result (list json) :=
  plans <~ Py.getitem all_plans "plans" ;;
  dirs <~ Py.values plans ;;
  rfold condense_dir dirs [].

(** The locals of [parse_all_plans] and the console. *)
Record frame : Type := {
  console : list string;
  all_plans : list (string * list (string * json));
  errors : list string;
  dir_plans : list (string * json)
}.

Definition empty_frame : frame :=
  {| console := []; all_plans := []; errors := []; dir_plans := [] |}.

Definition set_console (c : list string) (s : frame) : frame :=
  {| console := c; all_plans := all_plans s; errors := errors s; dir_plans := dir_plans s |}.
Definition set_all_plans (p : list (string * list (string * json))) (s : frame) : frame :=
  {| console := console s; all_plans := p; errors := errors s; dir_plans := dir_plans s |}.
Definition set_errors (e : list string) (s : frame) : frame :=
  {| console := console s; all_plans := all_plans s; errors := e; dir_plans := dir_plans s |}.
Definition set_dir_plans (d : list (string * json)) (s : frame) : frame :=
  {| console := console s; all_plans := all_plans s; errors := errors s; dir_plans := d |}.

(** A computation on the console, run inside a frame. *)
Definition on_console {A} (m : M (list string) A) : M frame A :=
  fun s => let (c, r) := m (console s) in (set_console c s, r).

Definition echo (line : string) : M frame unit := on_console (print line).

Definition len {A} (l : list A) : Z := Z.of_nat (List.length l).

(** The body of the [try] in the loop over the files of a folder. *)
Definition process_file_try (file_path : Path) (loaded : result json) : M frame unit :=
  echo ("Processing file: " ++ path_name file_path) ;;
  plan_data <- on_console (parse_single_plan file_path loaded) ;;
  match plan_data with
  | Some doc =>
      modify (fun s => set_dir_plans (Dict.set (path_name file_path) doc (dir_plans s)) s)
  | None => ret tt
  end.

(** One turn of the loop over the files of a folder. *)
Definition process_file (dir_path : Path) (file : entry) : M frame unit :=
  let file_path := path_child dir_path (entry_name file) in
  try_except
    (process_file_try file_path (entry_load file))
    (fun e =>
       let error_msg := "Error processing " ++ path_str file_path ++ ": " ++ exn_str e in
       echo error_msg ;;
       modify (fun s => set_errors (list_append (errors s) error_msg) s)).

(** One turn of the loop over the directories. *)
Definition process_directory (root : Path) (d : folder) : M frame unit :=
  let dir_path := path_child root (folder_name d) in
  echo (PyStr.newline ++ "Processing directory: " ++ path_name dir_path) ;;
  modify (set_dir_plans []) ;;
  json_files <- lift (glob_json d) ;;
  echo ("Found " ++ PyStr.of_Z (len json_files) ++ " JSON files") ;;
  for_each json_files (process_file dir_path) ;;
  s <- get ;;
  match dir_plans s with
  | _ :: _ => modify (set_all_plans (Dict.set (path_name dir_path) (dir_plans s) (all_plans s)))
  | [] => ret tt
  end.

(** [directories.sort(key=lambda x: int(x.name))]: the keys are computed
    first, one per element in list order. *)
Definition sort_directories (root : Path) (directories : list folder) : result (list folder) :=
  keys <~ rmap (fun d => Py.int (path_name (path_child root (folder_name d)))) directories ;;
  inr (map snd (sort_by Z.ltb fst (combine keys directories))).

Definition results_of (root : Path) (now : Datetime.t) (s : frame) : json :=
  JDict [("plans", JDict (map (fun kv => (fst kv, JDict (snd kv))) (all_plans s)));
         ("metadata",
          JDict [("total_directories", JInt (len (all_plans s)));
                 ("total_plans",
                  JInt (fold_left Z.add (map (fun plans => len plans) (Dict.values (all_plans s))) 0));
                 ("base_directory", JStr (path_str root));
                 ("processed_at", JStr (Datetime.isoformat "T" now))]);
         ("errors", JList (map JStr (errors s)))].

(** [parse_all_plans()]; [now] is the reading of the clock. The result
    is the Full Aggregate and the Short Aggregate. *)
Definition parse_all_plans (fs : tree) (now : Datetime.t) : M frame (json * list json) :=
  let root := plans_directory fs in
  modify (set_all_plans []) ;;
  modify (set_errors []) ;;
  try_except
    (scan <- lift (root_scan fs) ;;
     let directories := filter folder_is_dir scan in
     directories <- lift (sort_directories root directories) ;;
     echo ("Found " ++ PyStr.of_Z (len directories) ++ " directories") ;;
     for_each directories (process_directory root))
    (fun e => modify (fun s => set_errors (list_append (errors s) ("Directory error: " ++ exn_str e)) s)) ;;
  s <- get ;;
  let results := results_of root now s in
  condensed_results <- lift (create_condensed_output results) ;;
  ret (results, condensed_results).

(** A run of the Collector from a fresh frame. *)
Definition run (fs : tree) (now : Datetime.t) : frame * result (json * list json) :=
  parse_all_plans fs now empty_frame.

End CreaturePlanParser.

(* ================================================================== *)
(** * parsecreature.py on any console

    The methods of [CreaturePlanParser] that print, with the console as
    a parameter: every [print] of the source can raise here. The other
    methods do not print and are those of [CreaturePlanParser]. *)
(* ================================================================== *)

Module AnyConsole.

Import CreaturePlanParser.

Section Methods.

Variable dev : Console.t.

(** One turn of the loop over the thoughts of a file. *)
Definition process_thought (plan_path : Path) (thought : json)
    (thoughts : list ThoughtData) : M (list string) (list ThoughtData) :=
  c <- lift (c <~ Py.getitem thought "content" ;; Py.strip c) ;;
  if should_exclude_content c then ret thoughts
  else
    try_except
      (thought_data <- lift (thought_data thought) ;;
       ret (list_append thoughts thought_data))
      (fun e =>
         Console.print dev
           ("Error processing thought in " ++ path_name plan_path ++ ": " ++ exn_str e) ;;
         ret thoughts).

(** [parse_single_plan(plan_path)]; [loaded] is what [open] and
    [json.load] give for the file. *)
Definition parse_single_plan (plan_path : Path) (loaded : result json)
    : M (list string) (option json) :=
  try_except
    (plan_data <- lift loaded ;;
     items <- lift (ths <~ Py.get plan_data "thoughts" (JList []) ;; Py.iter ths) ;;
     thoughts <- fold_m (process_thought plan_path) items [] ;;
     let thoughts := sort_by Datetime.ltb timestamp thoughts in
     match thoughts with
     | _ :: _ =>
         plan_id <- lift (Py.get plan_data "id" JNull) ;;
         ret (Some (plan_document plan_id plan_path thoughts))
     | [] => ret None
     end)
    (fun e =>
       Console.print dev
         ("Error processing file " ++ path_str plan_path ++ ": " ++ exn_str e) ;;
       ret None).

Definition echo (line : string) : M frame unit := on_console (Console.print dev line).

(** The body of the [try] in the loop over the files of a folder. *)
Definition process_file_try (file_path : Path) (loaded : result json) : M frame unit :=
  echo ("Processing file: " ++ path_name file_path) ;;
  plan_data <- on_console (parse_single_plan file_path loaded) ;;
  match plan_data with
  | Some doc =>
      modify (fun s => set_dir_plans (Dict.set (path_name file_path) doc (dir_plans s)) s)
  | None => ret tt
  end.

(** One turn of the loop over the files of a folder. *)
Definition process_file (dir_path : Path) (file : entry) : M frame unit :=
  let file_path := path_child dir_path (entry_name file) in
  try_except
    (process_file_try file_path (entry_load file))
    (fun e =>
       let error_msg := "Error processing " ++ path_str file_path ++ ": " ++ exn_str e in
       echo error_msg ;;
       modify (fun s => set_errors (list_append (errors s) error_msg) s)).

(** One turn of the loop over the directories. *)
Definition process_directory (root : Path) (d : folder) : M frame unit :=
  let dir_path := path_child root (folder_name d) in
  echo (PyStr.newline ++ "Processing directory: " ++ path_name dir_path) ;;
  modify (set_dir_plans []) ;;
  json_files <- lift (glob_json d) ;;
  echo ("Found " ++ PyStr.of_Z (len json_files) ++ " JSON files") ;;
  for_each json_files (process_file dir_path) ;;
  s <- get ;;
  match dir_plans s with
  | _ :: _ => modify (set_all_plans (Dict.set (path_name dir_path) (dir_plans s) (all_plans s)))
  | [] => ret tt
  end.

(** [parse_all_plans()]; [now] is the reading of the clock. *)
Definition parse_all_plans (fs : tree) (now : Datetime.t) : M frame (json * list json) :=
  let root := plans_directory fs in
  modify (set_all_plans []) ;;
  modify (set_errors []) ;;
  try_except
    (scan <- lift (root_scan fs) ;;
     let directories := filter folder_is_dir scan in
     directories <- lift (sort_directories root directories) ;;
     echo ("Found " ++ PyStr.of_Z (len directories) ++ " directories") ;;
     for_each directories (process_directory root))
    (fun e => modify (fun s => set_errors (list_append (errors s) ("Directory error: " ++ exn_str e)) s)) ;;
  s <- get ;;
  let results := results_of root now s in
  condensed_results <- lift (create_condensed_output results) ;;
  ret (results, condensed_results).

(** A run of the Collector from a fresh frame. *)
Definition run (fs : tree) (now : Datetime.t) : frame * result (json * list json) :=
  parse_all_plans fs now empty_frame.

End Methods.

End AnyConsole.

(* ================================================================== *)
(** * chunkanalyzer.py: [ContentAnalyzer] *)
(* ================================================================== *)

Module ContentAnalyzer.

(** The two counters of the object, and the console. A [Counter] is a
    dictionary whose missing keys read as zero. *)
Record state : Type := {
  console : list string;
  content_counter : list (string * Z);
  factor_counter : list (string * Z)
}.

Definition init : state :=
  {| console := []; content_counter := []; factor_counter := [] |}.

(** [counter[k] += 1] *)
Definition incr (k : string) (counter : list (string * Z)) : list (string * Z) :=
  let old := match Dict.lookup k counter with Some n => n | None => 0 end in
  Dict.set k (old + 1) counter.

Definition count_content (k : string) : M state unit :=
  modify (fun s => {| console := console s;
                      content_counter := incr k (content_counter s);
                      factor_counter := factor_counter s |}).

Definition count_factor (k : string) : M state unit :=
  modify (fun s => {| console := console s;
                      content_counter := content_counter s;
                      factor_counter := incr k (factor_counter s) |}).

(** [print(line)] on the console that takes every line. *)
Definition echo (line : string) : M state unit :=
  modify (fun s => {| console := list_append (console s) line;
                      content_counter := content_counter s;
                      factor_counter := factor_counter s |}).

(** [analyze_file()]; [loaded] is what [open] and [json.load] give for
    the input file. *)
Definition analyze_file (loaded : result json) : M state unit :=
  echo "Reading and analyzing file..." ;;
  data <- lift loaded ;;
  thoughts <- lift (Py.iter data) ;;
  for_each thoughts (fun thought =>
    c <- lift (c <~ Py.getitem thought "c" ;; Py.strip c) ;;
    count_content c ;;
    factors <- lift (r <~ Py.getitem thought "r" ;; Py.iter r) ;;
    for_each factors (fun factor =>
      f <- lift (Py.strip factor) ;;
      count_factor f)).

(** [dict(sorted(counter.items(), key=lambda x: x[1], reverse=True))] *)
Definition ranked (counter : list (string * Z)) : list (string * Z) :=
  Dict.of_pairs (sort_by (fun a b => Z.ltb b a) snd counter).

Definition counts_json (d : list (string * Z)) : json :=
  JDict (map (fun kv => (fst kv, JInt (snd kv))) d).

(** [save_results(output_file)]: the object written to the file. *)
Definition save_results : M state json :=
  s <- get ;;
  let results :=
    JDict [("content_counts", counts_json (ranked (content_counter s)));
           ("factor_counts", counts_json (ranked (factor_counter s)))] in
  echo (PyStr.newline ++ "Analysis Summary:") ;;
  echo ("Total unique content entries: "
        ++ PyStr.of_Z (Z.of_nat (List.length (content_counter s)))) ;;
  echo ("Total unique factors: "
        ++ PyStr.of_Z (Z.of_nat (List.length (factor_counter s)))) ;;
  ret results.

(** [main]: a fresh analyzer, [analyze_file], then [save_results]. *)
Definition run (loaded : result json) : state * result json :=
  (analyze_file loaded ;; save_results) init.

End ContentAnalyzer.

(* ================================================================== *)
(** * Inputs used in the statements *)
(* ================================================================== *)

Module Examples.

Import CreaturePlanParser.

Definition thought (ts c : string) (factors : list string) (relevance confidence : float) : json :=
  JDict [("timestamp", JStr ts); ("content", JStr c);
         ("real_time_factors", JList (map JStr factors));
         ("relevance_score", JFloat relevance);
         ("confidence_score", JFloat confidence)].

(** The two observations of the scenario of the specification. *)
Definition hello : json :=
  thought "2024-01-01T00:00:00.123456789Z" " hello " ["a"; "b"] 0.5 0x1.ccccccccccccdp-1.
Definition plan_x : json :=
  thought "2024-01-01T00:00:01Z" "plan_x" ["a"] 0x1.999999999999ap-4 0x1.999999999999ap-4.

Definition one_file (root : Path) (dir file : string) (loaded : result json) : tree :=
  {| plans_directory := root;
     root_scan := inr [{| folder_name := dir; folder_is_dir := true;
                          folder_scan := inr [{| entry_name := file; entry_load := loaded |}] |}] |}.

(** Directory [1/] with one file holding the two observations. *)
Definition scenario (root : Path) (file : string) : tree :=
  one_file root "1" file (inr (JDict [("thoughts", JList [hello; plan_x])])).

Definition hello_data : ThoughtData :=
  {| timestamp := Datetime.make 2024 1 1 0 0 0 123456;
     content := "hello";
     real_time_factors := JList [JStr "a"; JStr "b"];
     relevance_score := JFloat 0.5;
     confidence_score := JFloat 0x1.ccccccccccccdp-1 |}.

Definition a_root : Path := ["plans"; "data"].
Definition a_time : Datetime.t := Datetime.make 2026 11 3 10 0 0 0.

(** An observation without a [content] field, followed by a sound one. *)
Definition no_content : json :=
  JDict [("timestamp", JStr "2024-01-01T00:00:00.5Z");
         ("real_time_factors", JList []);
         ("relevance_score", JFloat 0.5); ("confidence_score", JFloat 0.5)].
Definition sound : json := thought "2024-01-01T00:00:02.5Z" "fine" ["a"] 0.5 0.5.
Definition file_no_content : json := JDict [("thoughts", JList [no_content; sound])].

(** An observation without a [timestamp] field, followed by a sound one. *)
Definition no_timestamp : json :=
  JDict [("content", JStr "early"); ("real_time_factors", JList []);
         ("relevance_score", JFloat 0.5); ("confidence_score", JFloat 0.5)].
Definition file_no_timestamp : json := JDict [("thoughts", JList [no_timestamp; sound])].

(** A folder whose only file is not JSON. *)
Definition decode_error : exn := ValueError "Expecting value: line 1 column 1 (char 0)".
Definition broken_tree : tree := one_file a_root "1" "bad.json" (inl decode_error).

(** An observation whose content holds the excluded sentence and more. *)
Definition exploring_more : json :=
  thought "2024-01-01T00:00:00.5Z" "Exploring system dynamics and adaptation patterns again"
          ["a"] 0.5 0.5.
Definition exploring_tree : tree :=
  one_file a_root "1" "p.json" (inr (JDict [("thoughts", JList [exploring_more])])).

(** A root with a folder whose name is not a number, after one that is. *)
Definition named_tree : tree :=
  {| plans_directory := a_root;
     root_scan := inr [{| folder_name := "1"; folder_is_dir := true;
                          folder_scan := inr [{| entry_name := "p.json";
                                                 entry_load := inr (JDict [("thoughts", JList [sound])]) |}] |};
                       {| folder_name := "notes"; folder_is_dir := true; folder_scan := inr [] |}] |}.

(** Two numbered directories listed in the order of their names as text,
    and a plain file beside them. *)
Definition numbered_tree : tree :=
  {| plans_directory := a_root;
     root_scan :=
       inr [{| folder_name := "10"; folder_is_dir := true;
               folder_scan := inr [{| entry_name := "p.json";
                                      entry_load := inr (JDict [("thoughts", JList [sound])]) |}] |};
            {| folder_name := "9"; folder_is_dir := true;
               folder_scan := inr [{| entry_name := "q.json";
                                      entry_load := inr file_no_timestamp |};
                                   {| entry_name := "r.json";
                                      entry_load := inr file_no_content |}] |};
            {| folder_name := "notes.txt"; folder_is_dir := false;
               folder_scan := inl (OSError "[Errno 20] Not a directory: 'data/plans/notes.txt'") |}] |}.

(** The same root listed by the system in the opposite order. *)
Definition numbered_tree_relisted : tree :=
  {| plans_directory := a_root;
     root_scan := match root_scan numbered_tree with
                  | inr scan => inr (rev scan)
                  | inl e => inl e
                  end |}.

(** A file with four observations out of order, two of them at the
    same time. *)
Definition file_with_a_tie : json :=
  JDict [("id", JStr "t");
         ("thoughts",
          JList [thought "2024-01-01T00:00:03.5Z" "late" ["a"] 0.5 0.5;
                 thought "2024-01-01T00:00:02.5Z" "tie-1" ["b"] 0.5 0.5;
                 thought "2023-12-31T23:59:59.5Z" "early" ["c"] 0.5 0.5;
                 thought "2024-01-01T00:00:02.5Z" "tie-2" ["d"] 0.5 0.5])].

Definition observed (t : Datetime.t) (c f : string) : ThoughtData :=
  {| timestamp := t; content := c; real_time_factors := JList [JStr f];
     relevance_score := JFloat 0.5; confidence_score := JFloat 0.5 |}.

(** Its observations in the order of their timestamps, the two of the
    same time in the order of the file. *)
Definition sorted_with_a_tie : list ThoughtData :=
  [observed (Datetime.make 2023 12 31 23 59 59 500000) "early" "c";
   observed (Datetime.make 2024 1 1 0 0 2 500000) "tie-1" "b";
   observed (Datetime.make 2024 1 1 0 0 2 500000) "tie-2" "d";
   observed (Datetime.make 2024 1 1 0 0 3 500000) "late" "a"].

(** The letter e with an acute accent, code point 233. *)
Definition e_acute : string := String (ascii_of_nat 233) EmptyString.

(** The first character of [s] from position [i] on that ASCII lacks:
    its position, the character, and the position of the last character
    of the run it starts. *)
Fixpoint run_end (s : string) (i : Z) : Z :=
  match s with
  | String c t => if (128 <=? N_of_ascii c)%N then run_end t (i + 1) else i - 1
  | EmptyString => i - 1
  end.

Fixpoint first_wide (s : string) (i : Z) : option (Z * ascii * Z) :=
  match s with
  | String c t =>
      if (128 <=? N_of_ascii c)%N then Some (i, c, run_end t (i + 1))
      else first_wide t (i + 1)
  | EmptyString => None
  end.

(** A console whose encoding is ASCII: a line with another character
    makes [print] raise [UnicodeEncodeError], a [ValueError], with the
    message of the [ascii] codec. *)
Definition ascii_console : Console.t :=
  fun _ line =>
    match first_wide line 0 with
    | None => inr tt
    | Some (i, c, j) =>
        inl (ValueError
               ("'ascii' codec can't encode "
                ++ (if i =? j
                    then "character '\x"
                         ++ String (Py.hex_digit (N_of_ascii c / 16)) EmptyString
                         ++ String (Py.hex_digit (N_of_ascii c mod 16)) EmptyString
                         ++ "' in position " ++ PyStr.of_Z i
                    else "characters in position " ++ PyStr.of_Z i ++ "-" ++ PyStr.of_Z j)
                ++ ": ordinal not in range(128)"))
    end.

(** Directory [1/] with one sound file whose name has an accent. *)
Definition accented_tree : tree :=
  one_file a_root "1" (e_acute ++ ".json") (inr (JDict [("thoughts", JList [sound])])).

(** The second of three numbered directories cannot be scanned. *)
Definition unreadable_tree : tree :=
  {| plans_directory := a_root;
     root_scan :=
       inr [{| folder_name := "3"; folder_is_dir := true;
               folder_scan := inr [{| entry_name := "r.json";
                                      entry_load := inr (JDict [("thoughts", JList [sound])]) |}] |};
            {| folder_name := "2"; folder_is_dir := true;
               folder_scan := inl (OSError "[Errno 5] Input/output error: 'data/plans/2'") |};
            {| folder_name := "1"; folder_is_dir := true;
               folder_scan := inr [{| entry_name := "p.json";
                                      entry_load := inr (JDict [("thoughts", JList [sound])]) |}] |}] |}.

End Examples.

(* ================================================================== *)
(** * The Collector as a function of its input

    The definitions of this part restate the loops of the Collector
    without the console. The lemmas of the next part prove that the code
    computes them. *)
(* ================================================================== *)

Module Outcome.

Import CreaturePlanParser.

(** What the loop of [parse_single_plan] makes of one observation: it
    raises, skips the observation ([None]) or keeps it. *)
Definition verdict (thought : json) : result (option ThoughtData) :=
  c <~ (c <~ Py.getitem thought "content" ;; Py.strip c) ;;
  if should_exclude_content c then inr None
  else match thought_data thought with
       | inr t => inr (Some t)
       | inl _ => inr None
       end.

Definition keep (thought : json) (thoughts : list ThoughtData) : result (list ThoughtData) :=
  v <~ verdict thought ;;
  inr (match v with Some t => list_append thoughts t | None => thoughts end).

(** The observations kept from a file, in the order of the file. *)
Definition survivors (items : list json) : result (list ThoughtData) :=
  rfold keep items [].

Definition sorted_thoughts (thoughts : list ThoughtData) : list ThoughtData :=
  sort_by Datetime.ltb timestamp thoughts.

Definition plan_result (plan_path : Path) (loaded : result json) : result (option json) :=
  plan_data <~ loaded ;;
  items <~ (ths <~ Py.get plan_data "thoughts" (JList []) ;; Py.iter ths) ;;
  thoughts <~ survivors items ;;
  match sorted_thoughts thoughts with
  | _ :: _ =>
      plan_id <~ Py.get plan_data "id" JNull ;;
      inr (Some (plan_document plan_id plan_path (sorted_thoughts thoughts)))
  | [] => inr None
  end.

(** The Plan Document of a file, if it has one. *)
Definition plan_of (plan_path : Path) (loaded : result json) : option json :=
  match plan_result plan_path loaded with
  | inr doc => doc
  | inl _ => None
  end.

Definition add_document (dir_path : Path) (docs : list (string * json)) (file : entry)
    : list (string * json) :=
  match plan_of (path_child dir_path (entry_name file)) (entry_load file) with
  | Some doc => Dict.set (entry_name file) doc docs
  | None => docs
  end.

(** The mapping of a directory after the loop over its files. *)
Definition dir_documents (dir_path : Path) (files : list entry) : list (string * json) :=
  fold_left (add_document dir_path) files [].

Definition add_directory (root : Path) (plans : list (string * list (string * json)))
    (d : folder) (files : list entry) : list (string * list (string * json)) :=
  match dir_documents (path_child root (folder_name d)) files with
  | [] => plans
  | docs => Dict.set (folder_name d) docs plans
  end.

(** The mapping of the directories after the loop over them, and the
    exception that ended the loop, if one did. *)
Fixpoint aggregate (root : Path) (ds : list folder)
    (plans : list (string * list (string * json)))
    : list (string * list (string * json)) * option exn :=
  match ds with
  | [] => (plans, None)
  | d :: rest =>
      match glob_json d with
      | inl e => (plans, Some e)
      | inr files => aggregate root rest (add_directory root plans d files)
      end
  end.

(** The directories in the order they are processed. *)
Definition directories (fs : tree) : result (list folder) :=
  scan <~ root_scan fs ;;
  sort_directories (plans_directory fs) (filter folder_is_dir scan).

(** The mapping [all_plans] and the list [errors] at the end of a run. *)
Definition collected (fs : tree) : list (string * list (string * json)) * list string :=
  match directories fs with
  | inl e => ([], ["Directory error: " ++ exn_str e])
  | inr ds =>
      match aggregate (plans_directory fs) ds [] with
      | (plans, None) => (plans, [])
      | (plans, Some e) => (plans, ["Directory error: " ++ exn_str e])
      end
  end.

(** The Short Records of one written observation and of one Plan
    Document. *)
Definition short_of (t : ThoughtData) : list json :=
  if negb (String.eqb (PyStr.strip (content t)) exploring)
  then [JDict [("c", JStr (PyStr.strip (content t))); ("r", real_time_factors t)]]
  else [].

Definition shorts_of_plan (doc : json) : list json :=
  match condense_plan doc [] with
  | inr l => l
  | inl _ => []
  end.

Definition shorts_of (plans : list (string * list (string * json))) : list json :=
  flat_map (fun files => flat_map shorts_of_plan (Dict.values files)) (Dict.values plans).

(** The Full Aggregate of a frame: its directories, the files of one
    directory, the thoughts of one Plan Document. *)
Definition plans_in (full : json) : list (string * json) :=
  match Py.getitem full "plans" with
  | inr (JDict d) => d
  | _ => []
  end.

Definition files_in (full : json) (dir : string) : list (string * json) :=
  match Dict.lookup dir (plans_in full) with
  | Some (JDict d) => d
  | _ => []
  end.

Definition thoughts_in (doc : json) : list json :=
  match Py.getitem doc "thoughts" with
  | inr (JList l) => l
  | _ => []
  end.

End Outcome.

Module Aggregate.

Import CreaturePlanParser.

(** The Full Aggregate built from the two locals of [parse_all_plans]. *)
Definition full (root : Path) (now : Datetime.t)
    (plans : list (string * list (string * json))) (errs : list string) : json :=
  results_of root now {| console := []; all_plans := plans; errors := errs; dir_plans := [] |}.

Definition is_plan_document (doc : json) : Prop :=
  exists plan_id plan_path thoughts, doc = plan_document plan_id plan_path thoughts.

Definition well_formed (plans : list (string * list (string * json))) : Prop :=
  Forall (fun files => Forall is_plan_document (Dict.values files)) (Dict.values plans).

End Aggregate.

Module Order.

Import CreaturePlanParser.

(** [a] is not after [b]: the order of two adjacent observations of a
    Plan Document. *)
Definition not_after (a b : ThoughtData) : Prop :=
  Datetime.ltb (timestamp b) (timestamp a) = false.

(** [a] is at or before [b]: the order of two [datetime] values, which
    is the order of their tuples (year, month, day, hour, minute,
    second, microsecond), written out field by field. *)
Definition at_or_before (a b : Datetime.t) : Prop :=
  Datetime.year a < Datetime.year b \/
  Datetime.year a = Datetime.year b /\
  (Datetime.month a < Datetime.month b \/
   Datetime.month a = Datetime.month b /\
   (Datetime.day a < Datetime.day b \/
    Datetime.day a = Datetime.day b /\
    (Datetime.hour a < Datetime.hour b \/
     Datetime.hour a = Datetime.hour b /\
     (Datetime.minute a < Datetime.minute b \/
      Datetime.minute a = Datetime.minute b /\
      (Datetime.second a < Datetime.second b \/
       Datetime.second a = Datetime.second b /\
       Datetime.microsecond a <= Datetime.microsecond b))))).

(** The timestamp of [a] is at or before that of [b]. *)
Definition in_order (a b : ThoughtData) : Prop :=
  at_or_before (timestamp a) (timestamp b).

(** The observations of a list that carry the timestamp [t], in the
    order of the list. *)
Definition at_time (t : Datetime.t) (l : list ThoughtData) : list ThoughtData :=
  filter (fun x => Datetime.eqb (timestamp x) t) l.

(** The observation kept from one entry of a file, if any. *)
Definition kept_of (thought : json) : list ThoughtData :=
  match Outcome.verdict thought with
  | inr (Some t) => [t]
  | _ => []
  end.

End Order.

(* ================================================================== *)
(** * What the Frequency Report has to say *)
(* ================================================================== *)

Module Counting.

(** A Short Record as the Analyzer reads it: a dictionary whose ["c"] is
    a string and whose ["r"] is a list of strings. *)
Definition is_record (v : json) (r : string * list string) : Prop :=
  Py.getitem v "c" = inr (JStr (fst r)) /\
  Py.getitem v "r" = inr (JList (map JStr (snd r))).

(** The keys counted in the two passes, in the order they are met. *)
Definition contents (recs : list (string * list string)) : list string :=
  map (fun r => PyStr.strip (fst r)) recs.

Definition factors (recs : list (string * list string)) : list string :=
  flat_map (fun r => map PyStr.strip (snd r)) recs.

(** The number of occurrences of [k] among the keys counted. *)
Definition occurrences (ks : list string) (k : string) : Z :=
  Z.of_nat (count_occ String.string_dec ks k).

(** The distinct keys of a list, in the order of their first
    occurrence. *)
Fixpoint first_seen (ks : list string) : list string :=
  match ks with
  | [] => []
  | k :: rest => k :: filter (fun x => negb (String.eqb x k)) (first_seen rest)
  end.

(** The keys of a mapping that carry the count [n], in its order. *)
Definition with_count (n : Z) (d : list (string * Z)) : list string :=
  Dict.keys (filter (fun kv => snd kv =? n) d).

(** [d] reports the keys [ks]: every key met has its number of
    occurrences, no other key is present, the counts do not increase
    along the mapping, and keys of equal count follow the order in which
    they were first met. *)
Definition reports (ks : list string) (d : list (string * Z)) : Prop :=
  (forall k, In k ks -> Dict.lookup k d = Some (occurrences ks k)) /\
  (forall k, ~ In k ks -> Dict.lookup k d = None) /\
  NoDup (Dict.keys d) /\
  Sorted (fun a b => snd b <= snd a) d /\
  (forall n, with_count n d = filter (fun k => occurrences ks k =? n) (first_seen ks)).

(** The characters that [str.strip()] removes, among the code points
    below 256: tab to carriage return, the four separators, the space,
    next line and no-break space. *)
Definition blank (c : ascii) : Prop :=
  In (nat_of_ascii c) [9; 10; 11; 12; 13; 28; 29; 30; 31; 32; 133; 160]%nat.

Fixpoint all_blank (s : string) : Prop :=
  match s with
  | EmptyString => True
  | String c t => blank c /\ all_blank t
  end.

(** [k] has no blank at either end. *)
Definition bare (k : string) : Prop :=
  (forall c t, k = String c t -> ~ blank c) /\
  (forall t c, k = t ++ String c EmptyString -> ~ blank c).

(** [k] is [s] without the blanks at its two ends. *)
Definition trimmed (s k : string) : Prop :=
  exists a b, s = a ++ k ++ b /\ all_blank a /\ all_blank b /\ bare k.

(** The JSON object that holds the keys of [d] with their counts, in
    the order of [d]. *)
Definition object_of (d : list (string * Z)) : json :=
  JDict (map (fun kv => (fst kv, JInt (snd kv))) d).

(** [counter[k]]: a missing key reads as zero. *)
Definition get0 (k : string) (counter : list (string * Z)) : Z :=
  match Dict.lookup k counter with Some n => n | None => 0 end.

(** A [Counter] after the keys [ks] are counted. *)
Definition count_all (ks : list string) (counter : list (string * Z)) : list (string * Z) :=
  fold_left (fun c k => ContentAnalyzer.incr k c) ks counter.

End Counting.

Module Survival.

Import CreaturePlanParser.

(** The stripped content of an observation, as the loop reads it. *)
Definition stripped_content (thought : json) : result string :=
  c <~ Py.getitem thought "content" ;; Py.strip c.

(** The observations of a loaded file. *)
Definition items_of (loaded : result json) : result (list json) :=
  plan_data <~ loaded ;;
  ths <~ Py.get plan_data "thoughts" (JList []) ;;
  Py.iter ths.

(** The observations kept from a loaded file; none when the file cannot
    be used. *)
Definition kept_in (loaded : result json) : list ThoughtData :=
  match (items <~ items_of loaded ;; Outcome.survivors items) with
  | inr kept => kept
  | inl _ => []
  end.

(** [doc] is the Plan Document that [parse_single_plan] gave for the
    file [file] of the directory [dir], and it holds an observation. *)
Definition produced (fs : tree) (dir file : string) (doc : json) : Prop :=
  exists scan d files e,
    root_scan fs = inr scan /\ In d scan /\ folder_is_dir d = true /\
    folder_name d = dir /\ glob_json d = inr files /\
    In e files /\ entry_name e = file /\
    Outcome.plan_of (path_child (path_child (plans_directory fs) dir) file) (entry_load e)
    = Some doc /\
    Outcome.thoughts_in doc <> [].

(** The exclusion rule in the words of the specification: the stripped
    content is the excluded sentence, or holds ["plan_"]. *)
Definition stated_exclusion (c : string) : bool :=
  String.eqb c exploring || PyStr.contains "plan_" c.

(** The Short Record of an observation with stripped content [c]. *)
Definition short_record (c : string) (factors : json) : json :=
  JDict [("c", JStr c); ("r", factors)].

(** [t] is the normalized form of an observation of the file [file] of
    the directory [dir], and the stripped content of that observation
    holds neither entry of [excluded_content]. *)
Definition comes_from (fs : tree) (dir file : string) (t : ThoughtData) : Prop :=
  exists scan d files e items th,
    root_scan fs = inr scan /\ In d scan /\ folder_is_dir d = true /\
    folder_name d = dir /\ glob_json d = inr files /\
    In e files /\ entry_name e = file /\
    items_of (entry_load e) = inr items /\ In th items /\
    stripped_content th = inr (content t) /\
    PyStr.contains exploring (content t) = false /\
    PyStr.contains "plan_" (content t) = false /\
    thought_data th = inr t.

End Survival.

Module Tree.

(** A tree the Collector reads to its end: the root can be listed, its
    directories have distinct names that [int] accepts, every directory
    can be scanned and the files found in it have distinct names. *)
Definition sound (fs : tree) (scan : list folder) : Prop :=
  root_scan fs = inr scan /\
  NoDup (map folder_name (filter folder_is_dir scan)) /\
  Forall (fun d => (exists n, Py.int (folder_name d) = inr n) /\
                   exists files, glob_json d = inr files /\ NoDup (map entry_name files))
         (filter folder_is_dir scan).

End Tree.

(* ================================================================== *)
(** * Reading the aggregates *)
(* ================================================================== *)

Module Report.

Import CreaturePlanParser.

(** The Plan Documents of a Full Aggregate, in the order of its
    directories and, inside a directory, of its files. *)
Definition documents_in (full : json) : list json :=
  flat_map (fun kv => match snd kv with
                      | JDict files => Dict.values files
                      | _ => []
                      end)
           (Outcome.plans_in full).

Definition content_of (thought : json) : string :=
  match Py.getitem thought "content" with
  | inr (JStr c) => c
  | _ => EmptyString
  end.

Definition factors_of (thought : json) : json :=
  match Py.getitem thought "real_time_factors" with
  | inr v => v
  | inl _ => JNull
  end.

(** The Short Record that stands for an observation of a Plan Document:
    its content and its factors, as they are. *)
Definition record_of (thought : json) : json :=
  Survival.short_record (content_of thought) (factors_of thought).

(** The line printed for an observation that the inner [try] gives up;
    nothing for an observation that is kept or excluded. *)
Definition complaint (plan_path : Path) (thought : json) : list string :=
  match Survival.stripped_content thought with
  | inr c =>
      if should_exclude_content c then []
      else match thought_data thought with
           | inl e => ["Error processing thought in " ++ path_name plan_path ++ ": "
                       ++ exn_str e]
           | inr _ => []
           end
  | inl _ => []
  end.

(** The keys of the [plans] mapping read as numbers. *)
Definition directory_numbers (full : json) : result (list Z) :=
  rmap Py.int (Dict.keys (Outcome.plans_in full)).

(** The number that [int] reads in a name; zero when it reads none. *)
Definition number (name : string) : Z :=
  match Py.int name with
  | inr n => n
  | inl _ => 0
  end.

(** [a] is processed no later than [b] by its number. *)
Definition numbered_before (a b : folder) : Prop :=
  number (folder_name a) <= number (folder_name b).

(** The entry that a file gives to the mapping of its directory: its
    name and its Plan Document, when it has one. *)
Definition document_of (dir_path : Path) (file : entry) : list (string * json) :=
  match Outcome.plan_of (path_child dir_path (entry_name file)) (entry_load file) with
  | Some doc => [(entry_name file, doc)]
  | None => []
  end.

(** The entries that the files of a directory give, in the order in
    which the files are found. *)
Definition documents_under (root : Path) (d : folder) : list (string * json) :=
  match glob_json d with
  | inr files => flat_map (document_of (path_child root (folder_name d))) files
  | inl _ => []
  end.

(** The entry that a directory gives to the [plans] mapping: nothing
    when none of its files has a Plan Document. *)
Definition directory_of (root : Path) (d : folder)
    : list (string * list (string * json)) :=
  match documents_under root d with
  | [] => []
  | docs => [(folder_name d, docs)]
  end.

(** The exception [e] ended the loop over the directories, or kept it
    from starting: the root could not be listed, a name was not a
    number, or a directory could not be scanned. *)
Definition directory_failure (fs : tree) (e : exn) : Prop :=
  Outcome.directories fs = inl e \/
  exists before d after,
    Outcome.directories fs = inr (before ++ d :: after)%list /\
    Forall (fun d' => exists files, glob_json d' = inr files) before /\
    glob_json d = inl e.

(** [full["errors"]] *)
Definition errors_of (full : json) : list json :=
  match Py.getitem full "errors" with
  | inr (JList l) => l
  | _ => []
  end.

(** The Short Aggregate that a run returns. *)
Definition short_of_run (fs : tree) (now : Datetime.t) : list json :=
  match snd (run fs now) with
  | inr (_, short) => short
  | inl _ => []
  end.

(** [full["metadata"][k]] *)
Definition metadata_of (full : json) (k : string) : result json :=
  m <~ Py.getitem full "metadata" ;; Py.getitem m k.

End Report.

(* ================================================================== *)
(** * Reading a run of the Analyzer *)
(* ================================================================== *)

Module Analysis.

Import Counting.

(** The sum of the counts of a mapping. *)
Definition total (d : list (string * Z)) : Z :=
  fold_right (fun kv acc => snd kv + acc) 0 d.

(** The console of a run that reaches its end, for the numbers of keys
    of the two mappings. *)
Definition summary (contents factors : Z) : list string :=
  ["Reading and analyzing file...";
   PyStr.newline ++ "Analysis Summary:";
   "Total unique content entries: " ++ PyStr.of_Z contents;
   "Total unique factors: " ++ PyStr.of_Z factors].

(** The analyzer after the keys [cs] and [fs] are counted, before
    [save_results]. *)
Definition counted (cs fs : list string) : ContentAnalyzer.state :=
  {| ContentAnalyzer.console := ["Reading and analyzing file..."];
     ContentAnalyzer.content_counter := count_all cs [];
     ContentAnalyzer.factor_counter := count_all fs [] |}.

(** The report that [save_results] writes for two mappings. *)
Definition report (content_counts factor_counts : list (string * Z)) : json :=
  JDict [("content_counts", object_of content_counts);
         ("factor_counts", object_of factor_counts)].

End Analysis.

(* ================================================================== *)
(** * Dates that [isoformat] writes *)
(* ================================================================== *)

Module Calendar.

(** The values a [datetime] can hold. *)
Definition valid (d : Datetime.t) : Prop :=
  1 <= Datetime.year d <= 9999 /\
  1 <= Datetime.month d <= 12 /\
  1 <= Datetime.day d <= Datetime.days_in_month (Datetime.year d) (Datetime.month d) /\
  0 <= Datetime.hour d <= 23 /\
  0 <= Datetime.minute d <= 59 /\
  0 <= Datetime.second d <= 59 /\
  0 <= Datetime.microsecond d <= 999999.

(** [n] written with exactly [w] decimal digits. *)
Fixpoint fixed (w : nat) (n : Z) : string :=
  match w with
  | O => EmptyString
  | S k => fixed k (n / 10) ++ String (PyStr.digit_char (n mod 10)) EmptyString
  end.

(** The first alternative of a field that matches at the start of [m]
    takes all of [m]; no alternative is longer than [m]. *)
Fixpoint first_full (alts : list (list Datetime.cls)) (m : string) : bool :=
  match alts with
  | [] => false
  | p :: rest =>
      (List.length p <=? String.length m)%nat &&
      match Datetime.match_pat p m with
      | Some (_, EmptyString) => true
      | Some _ => false
      | None => first_full rest m
      end
  end.

(** The alternatives of a directive. *)
Definition alternatives (it : Datetime.item) : list (list Datetime.cls) :=
  match it with
  | Datetime.Field alts => alts
  | Datetime.Lit _ => []
  end.

(** [check] holds for the [fuel] numbers from [v] on. *)
Fixpoint all_from (fuel : nat) (v : Z) (check : Z -> bool) : bool :=
  match fuel with
  | O => true
  | S k => if check v then all_from k (v + 1) check else false
  end.

(** The error of [strptime] for a string that does not match. *)
Definition no_match (s : string) : exn :=
  ValueError ("time data " ++ Py.repr s ++ " does not match format "
              ++ Py.repr Datetime.format_text).

End Calendar.

(* ================================================================== *)
(** * A console that refuses a line *)
(* ================================================================== *)

Module Refusal.

Import CreaturePlanParser.

(** [e] is an exception that the console raises on some line. *)
Definition console_error (dev : Console.t) (e : exn) : Prop :=
  exists out line, dev out line = inl e.

(** An entry of [errors] written by the handler of a file, for an
    exception of the console. *)
Definition file_error (dev : Console.t) (msg : string) : Prop :=
  exists path e,
    console_error dev e /\
    msg = "Error processing " ++ path_str path ++ ": " ++ exn_str e.

(** An entry of [errors] written by the handler of the directories. *)
Definition directory_error (msg : string) : Prop :=
  exists e, msg = "Directory error: " ++ exn_str e.

(** What the loops of [parse_all_plans] keep true of its locals: the
    documents stored are Plan Documents, and [errors] holds entries of
    files only. *)
Definition collecting (dev : Console.t) (s : frame) : Prop :=
  Aggregate.well_formed (all_plans s) /\
  Forall Aggregate.is_plan_document (Dict.values (dir_plans s)) /\
  Forall (file_error dev) (errors s).

(** The computation [m] keeps [I] true of the state, raises only
    exceptions that satisfy [Q] and returns only values that satisfy
    [P]. *)
Definition keeps {S A} (I : S -> Prop) (Q : exn -> Prop) (P : A -> Prop) (m : M S A) : Prop :=
  forall s, I s ->
    I (fst (m s)) /\
    match snd (m s) with
    | inl e => Q e
    | inr x => P x
    end.

End Refusal.

(* ================================================================== *)
(** * Properties *)
(* ================================================================== *)

Import CreaturePlanParser.
Import Counting.

(** ** Results and loops *)

Ltac unfold_m :=
  unfold echo, on_console, print, Console.print, Console.accepting,
    bind, ret, lift, try_except, modify, get, raise in *.

(** A loop whose body only appends computes a [flat_map]. *)
Lemma rfold_flat_map {A B} (body : A -> list B -> result (list B)) (g : A -> list B)
    (l : list A) :
  (forall x acc, In x l -> body x acc = inr (acc ++ g x)%list) ->
  forall acc, rfold body l acc = inr (acc ++ flat_map g l)%list.
Proof.
  induction l as [|x l IH]; intros Hb acc; simpl.
  - now rewrite app_nil_r.
  - rewrite Hb by now left. simpl. rewrite IH.
    + now rewrite app_assoc.
    + intros y acc' Hy. apply Hb. now right.
Qed.

Lemma rfold_map {A B C} (body : B -> C -> result C) (f : A -> B) (l : list A) :
  forall acc, rfold body (map f l) acc = rfold (fun x => body (f x)) l acc.
Proof.
  induction l as [|x l IH]; intros acc; simpl; [reflexivity|].
  destruct (body (f x) acc); simpl; [reflexivity | apply IH].
Qed.

Lemma flat_map_of_map {A B C} (g : B -> list C) (f : A -> B) (l : list A) :
  flat_map g (map f l) = flat_map (fun x => g (f x)) l.
Proof. induction l as [|x l IH]; simpl; [reflexivity | now rewrite IH]. Qed.

Lemma rmap_fails {A B} (f : A -> result B) (l : list A) (x : A) (e : exn) :
  In x l -> f x = inl e ->
  exists x' e', In x' l /\ f x' = inl e' /\ rmap f l = inl e'.
Proof.
  induction l as [|y l IH]; intros Hin Hx; [destruct Hin|].
  simpl. destruct (f y) as [ey|b] eqn:Ey; simpl.
  - exists y, ey. split; [now left | now split].
  - destruct Hin as [->|Hin]; [congruence|].
    destruct (IH Hin Hx) as (x' & e' & Hin' & Hx' & ->).
    exists x', e'. split; [now right | now split].
Qed.

Lemma rmap_length {A B} (f : A -> result B) (l : list A) (ys : list B) :
  rmap f l = inr ys -> length ys = length l.
Proof.
  revert ys. induction l as [|x l IH]; intros ys; simpl.
  - intros H. inversion H. reflexivity.
  - destruct (f x) as [e|y]; simpl; [discriminate|].
    destruct (rmap f l) as [e|ys']; simpl; [discriminate|].
    intros H. inversion H. simpl. f_equal. now apply IH.
Qed.

Lemma rmap_total {A B} (f : A -> result B) (l : list A) :
  Forall (fun x => exists y, f x = inr y) l -> exists ys, rmap f l = inr ys.
Proof.
  induction 1 as [|x l [y Hy] _ [ys IH]]; simpl; [eauto|].
  rewrite Hy, IH. simpl. eauto.
Qed.

Lemma filter_filter {A} (p q : A -> bool) (l : list A) :
  filter p (filter q l) = filter (fun x => q x && p x) l.
Proof.
  induction l as [|x l IH]; simpl; [reflexivity|].
  destruct (q x); simpl; [destruct (p x)|]; now rewrite IH.
Qed.

Lemma nodup_map_inj {A B} (f : A -> B) (l : list A) (x y : A) :
  NoDup (map f l) -> In x l -> In y l -> f x = f y -> x = y.
Proof.
  induction l as [|a l IH]; simpl; [intros _ []|].
  intros Hnd Hx Hy Hf. inversion Hnd as [|? ? Hnotin Hnd']; subst.
  destruct Hx as [->|Hx], Hy as [->|Hy]; [reflexivity | | | now apply IH].
  - exfalso. apply Hnotin. rewrite Hf. now apply in_map.
  - exfalso. apply Hnotin. rewrite <- Hf. now apply in_map.
Qed.

Lemma sorted_weaken {A} (R R' : A -> A -> Prop) (l : list A) :
  (forall a b, R a b -> R' a b) -> Sorted R l -> Sorted R' l.
Proof.
  intros Himp Hs. induction Hs as [|a l Hs IH Hhd]; constructor; [exact IH|].
  destruct Hhd; constructor. now apply Himp.
Qed.

(** ** Strings *)

Lemma rstrip_keeps_head (c : ascii) (t : string) :
  PyStr.is_space c = false -> exists t', PyStr.rstrip (String c t) = String c t'.
Proof.
  intros Hc. simpl. destruct (PyStr.rstrip t) as [|c' t'].
  - rewrite Hc. eauto.
  - eauto.
Qed.

Lemma rstrip_idempotent (s : string) : PyStr.rstrip (PyStr.rstrip s) = PyStr.rstrip s.
Proof.
  induction s as [|c t IH]; simpl; [reflexivity|].
  destruct (PyStr.rstrip t) as [|c' t'] eqn:E.
  - destruct (PyStr.is_space c) eqn:Ec; simpl; [reflexivity|]. now rewrite Ec.
  - change (PyStr.rstrip (String c (String c' t')) = String c (String c' t')).
    simpl in IH |- *. destruct (PyStr.rstrip t') as [|c'' t'']; now rewrite IH.
Qed.

Lemma lstrip_head (s : string) :
  PyStr.lstrip s = EmptyString \/
  exists c t, PyStr.lstrip s = String c t /\ PyStr.is_space c = false.
Proof.
  induction s as [|c t IH]; simpl; [now left|].
  destruct (PyStr.is_space c) eqn:E; [exact IH|]. right. eauto.
Qed.

(** Stripping a stripped string changes nothing. *)
Lemma strip_idempotent (s : string) : PyStr.strip (PyStr.strip s) = PyStr.strip s.
Proof.
  unfold PyStr.strip. destruct (lstrip_head s) as [->|(c & t & -> & Hc)]; [reflexivity|].
  destruct (rstrip_keeps_head c t Hc) as [t' E].
  rewrite E. simpl PyStr.lstrip. rewrite Hc. rewrite <- E. apply rstrip_idempotent.
Qed.

Lemma prefix_refl (s : string) : String.prefix s s = true.
Proof.
  induction s as [|c t IH]; simpl; [reflexivity|].
  destruct (ascii_dec c c); [exact IH | congruence].
Qed.

Lemma contains_refl (s : string) : PyStr.contains s s = true.
Proof.
  destruct s as [|a s]; [reflexivity|].
  change (String.prefix (String a s) (String a s) || PyStr.contains (String a s) s = true).
  now rewrite prefix_refl.
Qed.

Lemma contains_char_cons (c d : ascii) (t : string) :
  PyStr.contains (String c EmptyString) (String d t)
  = Ascii.eqb c d || PyStr.contains (String c EmptyString) t.
Proof.
  change (PyStr.contains (String c EmptyString) (String d t))
    with (String.prefix (String c EmptyString) (String d t)
          || PyStr.contains (String c EmptyString) t).
  f_equal. simpl. destruct (ascii_dec c d) as [->|Hne].
  - rewrite Ascii.eqb_refl. now destruct t.
  - symmetry. now apply Ascii.eqb_neq.
Qed.

Lemma contains_char_app (c : ascii) (a b : string) :
  PyStr.contains (String c EmptyString) (a ++ b)
  = PyStr.contains (String c EmptyString) a || PyStr.contains (String c EmptyString) b.
Proof.
  induction a as [|d t IH].
  - simpl. reflexivity.
  - change (String d t ++ b) with (String d (t ++ b)).
    rewrite !contains_char_cons, IH. now rewrite orb_assoc.
Qed.

Lemma split_not_nil (sep : ascii) (s : string) : PyStr.split sep s <> [].
Proof.
  induction s as [|c t IH]; simpl; [discriminate|].
  destruct (Ascii.eqb c sep); [discriminate|].
  destruct (PyStr.split sep t); [contradiction | discriminate].
Qed.

Lemma split_app (sep : ascii) (a b : string) :
  PyStr.split sep (a ++ String sep b) = (PyStr.split sep a ++ PyStr.split sep b)%list.
Proof.
  induction a as [|c t IH]; simpl.
  - now rewrite Ascii.eqb_refl.
  - destruct (Ascii.eqb c sep); [now rewrite IH|].
    rewrite IH. pose proof (split_not_nil sep t) as Hne.
    destruct (PyStr.split sep t) as [|p ps]; [contradiction | reflexivity].
Qed.

Lemma split_without (sep : ascii) (s : string) :
  PyStr.contains (String sep EmptyString) s = false -> PyStr.split sep s = [s].
Proof.
  induction s as [|c t IH]; [reflexivity|].
  rewrite contains_char_cons. intros H. apply orb_false_iff in H. destruct H as [Hp Ht].
  simpl. rewrite Ascii.eqb_sym, Hp. now rewrite (IH Ht).
Qed.

Lemma remove_char_app (c : ascii) (a b : string) :
  PyStr.remove_char c (a ++ b) = PyStr.remove_char c a ++ PyStr.remove_char c b.
Proof.
  induction a as [|d t IH]; simpl; [reflexivity|].
  destruct (Ascii.eqb d c); simpl; now rewrite IH.
Qed.

Lemma take_app (a b : string) : PyStr.take (String.length a) (a ++ b) = a.
Proof. induction a as [|c t IH]; simpl; [now destruct b | now rewrite IH]. Qed.

(** ** Dictionaries *)

Lemma dict_in_set {V} (k k' : string) (v v' : V) (d : list (string * V)) :
  In (k', v') (Dict.set k v d) -> (k' = k /\ v' = v) \/ In (k', v') d.
Proof.
  induction d as [|[k0 v0] d IH]; simpl.
  - intros [H|[]]. inversion H. now left.
  - destruct (String.eqb k k0) eqn:E.
    + apply String.eqb_eq in E. subst k0. intros [H|H].
      * inversion H. now left.
      * right. now right.
    + intros [H|H].
      * right. now left.
      * destruct (IH H) as [?|?]; [now left | right; now right].
Qed.

Lemma dict_lookup_set_eq {V} (k : string) (v : V) (d : list (string * V)) :
  Dict.lookup k (Dict.set k v d) = Some v.
Proof.
  induction d as [|[k0 v0] d IH]; simpl.
  - now rewrite String.eqb_refl.
  - destruct (String.eqb k k0) eqn:E; simpl; rewrite E; [reflexivity | exact IH].
Qed.

Lemma dict_lookup_set_ne {V} (k k' : string) (v : V) (d : list (string * V)) :
  k <> k' -> Dict.lookup k' (Dict.set k v d) = Dict.lookup k' d.
Proof.
  intros Hne. induction d as [|[k0 v0] d IH]; simpl.
  - destruct (String.eqb k' k) eqn:E; [|reflexivity].
    apply String.eqb_eq in E. congruence.
  - destruct (String.eqb k k0) eqn:E; simpl.
    + apply String.eqb_eq in E. subst k0.
      destruct (String.eqb k' k) eqn:E'; [|reflexivity].
      apply String.eqb_eq in E'. congruence.
    + now rewrite IH.
Qed.

Lemma dict_lookup_in {V} (k : string) (v : V) (d : list (string * V)) :
  Dict.lookup k d = Some v -> In (k, v) d.
Proof.
  induction d as [|[k0 v0] d IH]; simpl; [discriminate|].
  destruct (String.eqb k k0) eqn:E.
  - apply String.eqb_eq in E. subst k0. intros H. inversion H. now left.
  - intros H. right. now apply IH.
Qed.

Lemma dict_in_lookup {V} (k : string) (v : V) (d : list (string * V)) :
  In (k, v) d -> exists v', Dict.lookup k d = Some v'.
Proof.
  induction d as [|[k0 v0] d IH]; simpl; [intros []|].
  destruct (String.eqb k k0) eqn:E; [eauto|].
  intros [H|H]; [|now apply IH].
  inversion H. subst. now rewrite String.eqb_refl in E.
Qed.

Lemma dict_lookup_none {V} (k : string) (d : list (string * V)) :
  Dict.lookup k d = None <-> ~ In k (Dict.keys d).
Proof.
  induction d as [|[k0 v0] d IH]; simpl; [tauto|].
  destruct (String.eqb k k0) eqn:E.
  - apply String.eqb_eq in E. subst k0. split; [discriminate | intros H; exfalso; auto].
  - apply String.eqb_neq in E. rewrite IH. unfold Dict.keys. split.
    + intros H [H'|H']; [congruence | auto].
    + intros H H'. apply H. now right.
Qed.

Lemma dict_in_nodup_lookup {V} (k : string) (v : V) (d : list (string * V)) :
  NoDup (Dict.keys d) -> In (k, v) d -> Dict.lookup k d = Some v.
Proof.
  induction d as [|[k0 v0] d IH]; simpl; [intros _ []|].
  intros Hnd [H|H].
  - inversion H. subst. now rewrite String.eqb_refl.
  - inversion Hnd as [|? ? Hnotin Hnd']; subst.
    destruct (String.eqb k k0) eqn:E; [|now apply IH].
    apply String.eqb_eq in E. subst k0. exfalso. apply Hnotin.
    unfold Dict.keys. apply in_map_iff. now exists (k, v).
Qed.

Lemma dict_lookup_perm {V} (k : string) (d d' : list (string * V)) :
  NoDup (Dict.keys d) -> Permutation d d' -> Dict.lookup k d' = Dict.lookup k d.
Proof.
  intros Hnd Hp.
  assert (Hnd' : NoDup (Dict.keys d')).
  { eapply Permutation_NoDup; [|exact Hnd]. unfold Dict.keys. now apply Permutation_map. }
  destruct (Dict.lookup k d) as [v|] eqn:E.
  - apply dict_lookup_in in E. apply dict_in_nodup_lookup; [exact Hnd'|].
    eapply Permutation_in; eauto.
  - apply dict_lookup_none. apply dict_lookup_none in E. intros H. apply E.
    unfold Dict.keys in *. eapply Permutation_in; [|exact H].
    apply Permutation_map. now apply Permutation_sym.
Qed.

Lemma dict_set_fresh {V} (k : string) (v : V) (d : list (string * V)) :
  ~ In k (Dict.keys d) -> Dict.set k v d = (d ++ [(k, v)])%list.
Proof.
  induction d as [|[k0 v0] d IH]; simpl; [reflexivity|].
  intros H. destruct (String.eqb k k0) eqn:E.
  - apply String.eqb_eq in E. subst k0. exfalso. apply H. now left.
  - rewrite IH; [reflexivity|]. intros H'. apply H. now right.
Qed.

Lemma dict_values_set {V} (P : V -> Prop) (k : string) (v : V) (d : list (string * V)) :
  Forall P (Dict.values d) -> P v -> Forall P (Dict.values (Dict.set k v d)).
Proof.
  unfold Dict.values. intros Hd Hv. apply Forall_forall. intros x Hx.
  apply in_map_iff in Hx. destruct Hx as [[k' v'] [<- Hin]]. simpl.
  apply dict_in_set in Hin. destruct Hin as [[_ ->]|Hin]; [exact Hv|].
  rewrite Forall_forall in Hd. apply Hd. apply in_map_iff. now exists (k', v').
Qed.

(** A key that is set stays in the dictionary, and the keys stay
    distinct. *)
Lemma dict_keys_set {V} (k : string) (v : V) (d : list (string * V)) :
  Dict.keys (Dict.set k v d)
  = if existsb (String.eqb k) (Dict.keys d) then Dict.keys d else (Dict.keys d ++ [k])%list.
Proof.
  induction d as [|[k0 v0] d IH]; simpl; [reflexivity|].
  destruct (String.eqb k k0) eqn:E; simpl; [reflexivity|].
  unfold Dict.keys in *. rewrite IH. now destruct (existsb _ _).
Qed.

(** [dict(pairs)] keeps a list of pairs with distinct keys as it is. *)
Lemma dict_of_pairs_nodup {V} (l : list (string * V)) :
  NoDup (Dict.keys l) -> Dict.of_pairs l = l.
Proof.
  unfold Dict.of_pairs.
  assert (H : forall acc, NoDup (Dict.keys (acc ++ l)) ->
                fold_left (fun d kv => Dict.set (fst kv) (snd kv) d) l acc = (acc ++ l)%list).
  { induction l as [|[k v] l IH]; intros acc Hnd; simpl.
    - now rewrite app_nil_r.
    - assert (Hk : ~ In k (Dict.keys acc)).
      { unfold Dict.keys in *. rewrite map_app in Hnd. simpl in Hnd.
        apply NoDup_remove_2 in Hnd. intros H. apply Hnd. apply in_or_app. now left. }
      rewrite dict_set_fresh by exact Hk. rewrite IH.
      + now rewrite <- app_assoc.
      + now rewrite <- app_assoc. }
  intros Hnd. apply (H []). exact Hnd.
Qed.

(** ** Stable sorting *)

Section SortFacts.
Context {A K : Type} (ltb : K -> K -> bool) (key : A -> K).
Hypothesis ltb_irrefl : forall k, ltb k k = false.
Hypothesis ltb_asym : forall a b, ltb a b = true -> ltb b a = false.

Let ordered (a b : A) : Prop := ltb (key b) (key a) = false.

Lemma insert_by_perm (x : A) (l : list A) : Permutation (x :: l) (insert_by ltb key x l).
Proof.
  induction l as [|y l IH]; simpl; [apply Permutation_refl|].
  destruct (ltb (key y) (key x)); [|apply Permutation_refl].
  eapply perm_trans; [apply perm_swap|]. now apply perm_skip.
Qed.

Lemma sort_by_perm (l : list A) : Permutation l (sort_by ltb key l).
Proof.
  induction l as [|x l IH]; simpl; [constructor|].
  eapply perm_trans; [apply perm_skip; exact IH | apply insert_by_perm].
Qed.

Lemma insert_by_hd (x a : A) (l : list A) :
  ordered a x -> HdRel ordered a l -> HdRel ordered a (insert_by ltb key x l).
Proof.
  intros Hax Hl. destruct l as [|y l]; simpl; [now constructor|].
  destruct (ltb (key y) (key x)); constructor; [now inversion Hl | exact Hax].
Qed.

Lemma insert_by_sorted (x : A) (l : list A) :
  Sorted ordered l -> Sorted ordered (insert_by ltb key x l).
Proof.
  induction l as [|y l IH]; intros Hs; simpl.
  - repeat constructor.
  - destruct (ltb (key y) (key x)) eqn:E.
    + inversion Hs as [|? ? Hs' Hhd]; subst. constructor; [now apply IH|].
      apply insert_by_hd; [|exact Hhd]. unfold ordered. now apply ltb_asym.
    + constructor; [exact Hs | constructor; exact E].
Qed.

Lemma sort_by_sorted (l : list A) : Sorted ordered (sort_by ltb key l).
Proof.
  induction l as [|x l IH]; simpl; [constructor | now apply insert_by_sorted].
Qed.

(** Insertion moves an element only past elements of smaller key, so it
    keeps the order inside every class of elements that the order of the
    keys does not separate. *)
Lemma insert_by_filter (p : A -> bool) (x : A) (l : list A) :
  (forall y, p x = true -> ltb (key y) (key x) = true -> p y = false) ->
  filter p (insert_by ltb key x l) = filter p (x :: l).
Proof.
  intros Hp. induction l as [|y l IH]; simpl; [reflexivity|].
  destruct (ltb (key y) (key x)) eqn:E; [|reflexivity].
  simpl in *. rewrite IH. destruct (p x) eqn:Ex; [|reflexivity].
  now rewrite (Hp y eq_refl E).
Qed.

Lemma sort_by_filter (p : A -> bool) (l : list A) :
  (forall x y, p x = true -> ltb (key y) (key x) = true -> p y = false) ->
  filter p (sort_by ltb key l) = filter p l.
Proof.
  intros Hp. induction l as [|x l IH]; simpl; [reflexivity|].
  rewrite insert_by_filter by (intros y; apply Hp). simpl. now rewrite IH.
Qed.

Lemma sort_by_nil (l : list A) : sort_by ltb key l = [] -> l = [].
Proof.
  intros H. pose proof (sort_by_perm l) as P. rewrite H in P.
  now apply Permutation_sym, Permutation_nil in P.
Qed.

End SortFacts.

(** ** Timestamps *)

Lemma lex_ltb_irrefl (a : list Z) : Datetime.lex_ltb a a = false.
Proof.
  induction a as [|x a IH]; simpl; [reflexivity|].
  rewrite Z.ltb_irrefl, Z.eqb_refl, IH. reflexivity.
Qed.

Lemma lex_ltb_asym (a : list Z) :
  forall b, Datetime.lex_ltb a b = true -> Datetime.lex_ltb b a = false.
Proof.
  induction a as [|x a IH]; intros [|y b]; simpl; try reflexivity; try discriminate.
  intros H. apply orb_true_iff in H. apply orb_false_iff.
  destruct H as [H|H].
  - apply Z.ltb_lt in H. split; [apply Z.ltb_ge; lia|].
    apply andb_false_iff. left. apply Z.eqb_neq. lia.
  - apply andb_true_iff in H. destruct H as [He Hl]. apply Z.eqb_eq in He. subst y.
    split; [apply Z.ltb_irrefl|]. rewrite Z.eqb_refl. simpl. now apply IH.
Qed.

Lemma datetime_ltb_irrefl (a : Datetime.t) : Datetime.ltb a a = false.
Proof. apply lex_ltb_irrefl. Qed.

Lemma datetime_ltb_asym (a b : Datetime.t) :
  Datetime.ltb a b = true -> Datetime.ltb b a = false.
Proof. apply lex_ltb_asym. Qed.

Lemma datetime_eqb_eq (a b : Datetime.t) : Datetime.eqb a b = true <-> a = b.
Proof.
  unfold Datetime.eqb. split.
  - intros H. repeat (apply andb_true_iff in H; destruct H as [H ?]).
    repeat match goal with E : (_ =? _) = true |- _ => apply Z.eqb_eq in E end.
    destruct a, b. simpl in *. congruence.
  - intros ->. now rewrite !Z.eqb_refl.
Qed.

(** Two timestamps that neither precedes are equal: the order is total. *)
Lemma lex_ltb_total (a : list Z) :
  forall b, length a = length b ->
  Datetime.lex_ltb a b = false -> Datetime.lex_ltb b a = false -> a = b.
Proof.
  induction a as [|x a IH]; intros [|y b] Hlen Hab Hba; simpl in *; try discriminate;
    [reflexivity|].
  apply orb_false_iff in Hab. destruct Hab as [H1 H2].
  apply orb_false_iff in Hba. destruct Hba as [H3 H4].
  apply Z.ltb_ge in H1. apply Z.ltb_ge in H3. assert (x = y) by lia. subst y.
  rewrite Z.eqb_refl in *. simpl in *. f_equal. apply IH; congruence.
Qed.

Lemma datetime_ltb_total (a b : Datetime.t) :
  Datetime.ltb a b = false -> Datetime.ltb b a = false -> a = b.
Proof.
  intros H1 H2. pose proof (lex_ltb_total (Datetime.fields a) (Datetime.fields b) eq_refl H1 H2) as H.
  destruct a, b. unfold Datetime.fields in H. simpl in H. congruence.
Qed.

Lemma match_pat_suffix (p : list Datetime.cls) :
  forall s m r, Datetime.match_pat p s = Some (m, r) -> s = m ++ r.
Proof.
  induction p as [|c p IH]; intros s m r; simpl.
  - intros H. inversion H. reflexivity.
  - destruct s as [|a rest]; [discriminate|].
    destruct (c a); [|discriminate].
    destruct (Datetime.match_pat p rest) as [[m' r']|] eqn:E; [|discriminate].
    intros H. inversion H. subst. simpl. f_equal. now apply IH.
Qed.

Lemma first_some_in {A B} (f : A -> option B) (l : list A) (y : B) :
  Datetime.first_some f l = Some y -> exists x, In x l /\ f x = Some y.
Proof.
  induction l as [|x l IH]; simpl; [discriminate|].
  destruct (f x) as [y'|] eqn:E.
  - intros H. inversion H. subst. exists x. split; [now left | exact E].
  - intros H. destruct (IH H) as (x' & Hin & Hx'). exists x'. split; [now right | exact Hx'].
Qed.

(** A string that matches a format with a literal character holds that
    character. *)
Lemma match_seq_literal (c : ascii) (before after : list Datetime.item) :
  forall s res,
  Datetime.match_seq (before ++ Datetime.Lit (Datetime.chr c) :: after) s = Some res ->
  PyStr.contains (String c EmptyString) s = true.
Proof.
  induction before as [|it before IH]; intros s res; simpl.
  - destruct s as [|a rest]; [discriminate|].
    unfold Datetime.chr at 1. destruct (Ascii.eqb c a) eqn:E; [|discriminate].
    intros _. rewrite contains_char_cons, E. reflexivity.
  - destruct it as [cl|alts].
    + destruct s as [|a rest]; [discriminate|].
      destruct (cl a); [|discriminate].
      intros H. apply IH in H. rewrite contains_char_cons, H. apply orb_true_r.
    + intros H. apply first_some_in in H. destruct H as (p & _ & H).
      destruct (Datetime.match_pat p s) as [[m r]|] eqn:Ep; [|discriminate].
      destruct (Datetime.match_seq _ r) as [[ms r']|] eqn:Es; [|discriminate].
      apply IH in Es. apply match_pat_suffix in Ep. subst s.
      rewrite contains_char_app, Es. apply orb_true_r.
Qed.

(** [strptime] demands a fraction: a string without ["."] does not match
    the format. *)
Lemma strptime_needs_fraction (s : string) :
  PyStr.contains "." s = false ->
  Datetime.strptime s
  = inl (ValueError ("time data " ++ Py.repr s ++ " does not match format "
                     ++ Py.repr Datetime.format_text)).
Proof.
  intros H. unfold Datetime.strptime.
  destruct (Datetime.match_seq Datetime.format s) as [res|] eqn:E; [|reflexivity].
  exfalso.
  change Datetime.format
    with ([Datetime.dir_Y; Datetime.Lit (Datetime.chr "-"); Datetime.dir_m;
           Datetime.Lit (Datetime.chr "-"); Datetime.dir_d;
           Datetime.Lit (Datetime.chr2 "T" "t"); Datetime.dir_H;
           Datetime.Lit (Datetime.chr ":"); Datetime.dir_M;
           Datetime.Lit (Datetime.chr ":"); Datetime.dir_S]
          ++ Datetime.Lit (Datetime.chr ".")
             :: [Datetime.dir_f; Datetime.Lit (Datetime.chr2 "Z" "z")])%list in E.
  apply match_seq_literal in E. congruence.
Qed.

(** No timestamp without a fractional component is accepted. *)
Lemma parse_timestamp_needs_fraction (s : string) :
  PyStr.contains "." s = false ->
  parse_timestamp (JStr s)
  = inl (ValueError ("time data " ++ Py.repr s ++ " does not match format "
                     ++ Py.repr Datetime.format_text)).
Proof.
  intros H. unfold parse_timestamp. cbn [Py.contains rbind]. rewrite H.
  cbn [rbind]. now apply strptime_needs_fraction.
Qed.

Lemma parse_timestamp_needs_fraction_witness :
  parse_timestamp (JStr "2024-06-30T12:00:00Z")
  = inl (ValueError ("time data " ++ Py.repr "2024-06-30T12:00:00Z"
                     ++ " does not match format " ++ Py.repr Datetime.format_text)).
Proof. apply (parse_timestamp_needs_fraction "2024-06-30T12:00:00Z"). reflexivity. Defined.

(** Whatever follows the sixth character of the fraction is dropped: the
    timestamp reads as if the fraction ended there. *)
Lemma parse_timestamp_truncates (main six more : string) :
  String.length six = 6%nat ->
  PyStr.remove_char "Z" six = six ->
  PyStr.contains "." six = false ->
  PyStr.contains "." more = false ->
  parse_timestamp (JStr (main ++ "." ++ six ++ more ++ "Z"))
  = parse_timestamp (JStr (main ++ "." ++ six ++ "Z")).
Proof.
  intros Hlen Hz Hd1 Hd2.
  unfold parse_timestamp. cbn [Py.contains Py.split rbind].
  change (main ++ "." ++ six ++ more ++ "Z") with (main ++ String "." (six ++ more ++ "Z")).
  change (main ++ "." ++ six ++ "Z") with (main ++ String "." (six ++ "Z")).
  rewrite !(contains_char_app "." main), !contains_char_cons, !Ascii.eqb_refl.
  rewrite !orb_true_l, !orb_true_r. cbn [rbind]. rewrite !split_app.
  rewrite (split_without "." (six ++ more ++ "Z")), (split_without "." (six ++ "Z")).
  - pose proof (split_not_nil "." main) as Hne.
    destruct (PyStr.split "." main) as [|m [|m' ms]];
      [contradiction | | destruct ms; reflexivity].
    cbn [app]. rewrite !remove_char_app, Hz.
    rewrite <- Hlen. now rewrite !take_app.
  - rewrite contains_char_app, Hd1. reflexivity.
  - rewrite !contains_char_app, Hd1, Hd2. reflexivity.
Qed.

(** The equation of the specification: nine digits read as their first
    six, whatever stands before the fraction. *)
Lemma parse_timestamp_nanoseconds (main : string) :
  parse_timestamp (JStr (main ++ ".123456789Z"))
  = parse_timestamp (JStr (main ++ ".123456Z")).
Proof.
  apply (parse_timestamp_truncates main "123456" "789"); reflexivity.
Qed.

(** C2. [parse_timestamp] does not accept a timestamp without a
    fractional component: on ["2024-01-01T00:00:01Z"], the second
    timestamp of the scenario of the specification, it raises the
    [ValueError] of [strptime], whose format demands a fraction. *)
Theorem parse_timestamp_without_fraction :
  parse_timestamp (JStr "2024-01-01T00:00:01Z")
  = inl (ValueError
           "time data '2024-01-01T00:00:01Z' does not match format '%Y-%m-%dT%H:%M:%S.%fZ'").
Proof. vm_compute. reflexivity. Qed.

(** ** The verdict on one observation *)

(** The exclusion test of the code: either entry of [excluded_content]
    occurs in the content as a substring. *)
Lemma should_exclude_content_iff (c : string) :
  should_exclude_content c = true <->
  PyStr.contains exploring c = true \/ PyStr.contains "plan_" c = true.
Proof.
  unfold should_exclude_content, excluded_content. cbn [existsb].
  rewrite orb_false_r. apply orb_true_iff.
Qed.

Lemma not_excluded_iff (c : string) :
  should_exclude_content c = false <->
  PyStr.contains exploring c = false /\ PyStr.contains "plan_" c = false.
Proof.
  unfold should_exclude_content, excluded_content. cbn [existsb].
  rewrite orb_false_r. apply orb_false_iff.
Qed.

Lemma not_excluded_not_exploring (c : string) :
  should_exclude_content c = false -> String.eqb c exploring = false.
Proof.
  intros H. destruct (String.eqb c exploring) eqn:E; [|reflexivity].
  apply String.eqb_eq in E. subst c.
  assert (should_exclude_content exploring = true); [|congruence].
  apply should_exclude_content_iff. left. apply contains_refl.
Qed.

Lemma strip_result (v : json) (c : string) :
  Py.strip v = inr c -> PyStr.strip c = c.
Proof.
  destruct v; simpl; try discriminate. intros H. inversion H. apply strip_idempotent.
Qed.

Lemma stripped_content_stripped (th : json) (c : string) :
  Survival.stripped_content th = inr c -> PyStr.strip c = c.
Proof.
  unfold Survival.stripped_content. destruct (Py.getitem th "content") as [e|v]; simpl;
    [discriminate | apply strip_result].
Qed.

Lemma thought_data_content (th : json) (t : ThoughtData) :
  thought_data th = inr t -> Survival.stripped_content th = inr (content t).
Proof.
  unfold thought_data, Survival.stripped_content.
  destruct (Py.getitem th "timestamp") as [e|ts]; simpl; [discriminate|].
  destruct (parse_timestamp ts) as [e|d]; simpl; [discriminate|].
  destruct (Py.getitem th "content") as [e|v]; simpl; [discriminate|].
  destruct (Py.strip v) as [e|c]; simpl; [discriminate|].
  destruct (Py.getitem th "real_time_factors") as [e|f]; simpl; [discriminate|].
  destruct (Py.getitem th "relevance_score") as [e|r]; simpl; [discriminate|].
  destruct (Py.getitem th "confidence_score") as [e|cs]; simpl; [discriminate|].
  intros H. inversion H. reflexivity.
Qed.

(** An observation is kept exactly when its content can be read and is
    not excluded, and the rest of its fields parse. *)
Lemma kept_of_iff (th : json) (t : ThoughtData) :
  Order.kept_of th = [t] <->
  exists c, Survival.stripped_content th = inr c /\
            should_exclude_content c = false /\ thought_data th = inr t.
Proof.
  unfold Order.kept_of, Outcome.verdict, Survival.stripped_content.
  destruct (rbind (Py.getitem th "content") _) as [e|c]; simpl.
  - split; [discriminate | intros (c & H & _); discriminate].
  - destruct (should_exclude_content c) eqn:Ex.
    + split; [discriminate | intros (c' & H & H' & _)]. inversion H. congruence.
    + destruct (thought_data th) as [e|t'].
      * split; [discriminate | intros (c' & _ & _ & H); discriminate].
      * split.
        -- intros H. inversion H. subst t'. exists c. now repeat split.
        -- intros (c' & _ & _ & H). inversion H. reflexivity.
Qed.

Lemma kept_of_cases (th : json) : Order.kept_of th = [] \/ exists t, Order.kept_of th = [t].
Proof.
  unfold Order.kept_of. destruct (Outcome.verdict th) as [e|[t|]]; eauto.
Qed.

(** The observations kept from a file are those of its entries that the
    loop keeps, in the order of the file. *)
Lemma survivors_flat_map (items : list json) (kept : list ThoughtData) :
  Outcome.survivors items = inr kept -> kept = flat_map Order.kept_of items.
Proof.
  unfold Outcome.survivors.
  assert (H : forall acc kept, rfold Outcome.keep items acc = inr kept ->
                               kept = (acc ++ flat_map Order.kept_of items)%list).
  { induction items as [|th items IH]; intros acc k; simpl.
    - intros H. inversion H. now rewrite app_nil_r.
    - unfold Outcome.keep at 1, Order.kept_of at 1.
      destruct (Outcome.verdict th) as [e|[t|]]; simpl; [discriminate| |].
      + intros H. apply IH in H. unfold list_append in H. now rewrite <- app_assoc in H.
      + apply IH. }
  intros Hs. now apply H in Hs.
Qed.

(** When the content of every observation can be read, the loop over
    the observations does not raise. *)
Lemma survivors_total (items : list json) :
  Forall (fun th => exists c, Survival.stripped_content th = inr c) items ->
  Outcome.survivors items = inr (flat_map Order.kept_of items).
Proof.
  unfold Outcome.survivors. intros H.
  change (@inr exn _ (flat_map Order.kept_of items))
    with (@inr exn _ ([] ++ flat_map Order.kept_of items)%list).
  apply rfold_flat_map. intros th acc Hin.
  rewrite Forall_forall in H. destruct (H th Hin) as [c Hc].
  unfold Outcome.keep, Order.kept_of, Outcome.verdict.
  unfold Survival.stripped_content in Hc. rewrite Hc. simpl.
  destruct (should_exclude_content c); simpl; [now rewrite app_nil_r|].
  destruct (thought_data th); simpl; [now rewrite app_nil_r | reflexivity].
Qed.

(** ** [parse_single_plan] computes [Outcome.plan_of] *)

Lemma process_thought_keep (p : Path) (th : json) (ths : list ThoughtData) (out : list string) :
  exists out', process_thought p th ths out = (out', Outcome.keep th ths).
Proof.
  unfold process_thought, Outcome.keep, Outcome.verdict. unfold_m.
  destruct (rbind (Py.getitem th "content") _) as [e|c]; simpl.
  - eauto.
  - destruct (should_exclude_content c); simpl; [eauto|].
    destruct (thought_data th) as [e|t]; simpl; eauto.
Qed.

Lemma fold_process_thought (p : Path) (items : list json) :
  forall (ths : list ThoughtData) (out : list string),
  exists out', fold_m (process_thought p) items ths out = (out', rfold Outcome.keep items ths).
Proof.
  induction items as [|th items IH]; intros ths out; simpl.
  - unfold_m. eauto.
  - unfold bind. destruct (process_thought_keep p th ths out) as [out1 ->].
    destruct (Outcome.keep th ths) as [e|ths']; simpl; [eauto | apply IH].
Qed.

Lemma parse_single_plan_result (p : Path) (loaded : result json) (out : list string) :
  exists out', parse_single_plan p loaded out = (out', inr (Outcome.plan_of p loaded)).
Proof.
  unfold parse_single_plan, Outcome.plan_of, Outcome.plan_result, Outcome.survivors,
    Outcome.sorted_thoughts.
  unfold try_except, bind at 1. unfold lift at 1.
  destruct loaded as [e|plan_data]; simpl.
  { unfold_m. eauto. }
  unfold bind at 1. unfold lift at 1.
  destruct (rbind (Py.get plan_data "thoughts" (JList [])) _) as [e|items]; simpl.
  { unfold_m. eauto. }
  unfold bind at 1.
  destruct (fold_process_thought p items [] out) as [out1 ->].
  destruct (rfold Outcome.keep items []) as [e|ths]; simpl.
  { unfold_m. eauto. }
  destruct (sort_by Datetime.ltb timestamp ths) as [|t ts]; simpl.
  { unfold_m. eauto. }
  unfold_m. destruct (Py.get plan_data "id" JNull) as [e|pid]; simpl; eauto.
Qed.

Lemma plan_of_some (p : Path) (loaded : result json) (doc : json) :
  Outcome.plan_of p loaded = Some doc ->
  exists plan_data items thoughts plan_id,
    loaded = inr plan_data /\
    rbind (Py.get plan_data "thoughts" (JList [])) Py.iter = inr items /\
    Outcome.survivors items = inr thoughts /\
    Outcome.sorted_thoughts thoughts <> [] /\
    Py.get plan_data "id" JNull = inr plan_id /\
    doc = plan_document plan_id p (Outcome.sorted_thoughts thoughts).
Proof.
  unfold Outcome.plan_of, Outcome.plan_result.
  destruct loaded as [e|plan_data]; simpl; [discriminate|].
  destruct (rbind (Py.get plan_data "thoughts" (JList [])) Py.iter) as [e|items] eqn:Ei; simpl;
    [discriminate|].
  destruct (Outcome.survivors items) as [e|ths] eqn:Et; simpl; [discriminate|].
  destruct (Outcome.sorted_thoughts ths) as [|t ts] eqn:Es; [discriminate|].
  destruct (Py.get plan_data "id" JNull) as [e|pid] eqn:Eid; simpl; [discriminate|].
  intros H. inversion H. subst doc.
  exists plan_data, items, ths, pid. rewrite Es.
  split; [reflexivity|]. split; [exact Ei|]. split; [exact Et|].
  split; [discriminate|]. split; [exact Eid | reflexivity].
Qed.

Lemma plan_of_is_document (p : Path) (loaded : result json) (doc : json) :
  Outcome.plan_of p loaded = Some doc -> Aggregate.is_plan_document doc.
Proof.
  intros H. apply plan_of_some in H.
  destruct H as (pd & items & ths & pid & _ & _ & _ & _ & _ & ->).
  now exists pid, p, (Outcome.sorted_thoughts ths).
Qed.

Lemma get_of_dict (plan_data : json) (k k' : string) (dflt dflt' v : json) :
  Py.get plan_data k dflt = inr v -> exists v', Py.get plan_data k' dflt' = inr v'.
Proof.
  destruct plan_data; simpl; try discriminate. intros _.
  destruct (Dict.lookup k' entries); eauto.
Qed.

(** The Plan Document of a file whose observations can all be read
    holds every observation that is kept. *)
Lemma plan_of_kept (p : Path) (loaded : result json) (items : list json)
    (th : json) (t : ThoughtData) :
  Survival.items_of loaded = inr items ->
  Forall (fun th => exists c, Survival.stripped_content th = inr c) items ->
  In th items -> Order.kept_of th = [t] ->
  exists plan_id sorted,
    Outcome.plan_of p loaded = Some (plan_document plan_id p sorted) /\
    Permutation (flat_map Order.kept_of items) sorted /\ In t sorted.
Proof.
  unfold Survival.items_of, Outcome.plan_of, Outcome.plan_result.
  destruct loaded as [e|plan_data]; simpl; [discriminate|].
  destruct (Py.get plan_data "thoughts" (JList [])) as [e|ths] eqn:Eg; simpl; [discriminate|].
  intros Hi Hall Hin Hk. rewrite Hi. simpl.
  rewrite (survivors_total items Hall). simpl.
  assert (Hp : Permutation (flat_map Order.kept_of items)
                 (Outcome.sorted_thoughts (flat_map Order.kept_of items)))
    by apply sort_by_perm.
  assert (Ht : In t (Outcome.sorted_thoughts (flat_map Order.kept_of items))).
  { eapply Permutation_in; [exact Hp|]. apply in_flat_map. exists th.
    split; [exact Hin|]. rewrite Hk. now left. }
  destruct (Outcome.sorted_thoughts (flat_map Order.kept_of items)) as [|t0 ts] eqn:Es;
    [destruct Ht|].
  destruct (get_of_dict plan_data "thoughts" "id" (JList []) JNull ths Eg) as [pid ->].
  simpl. exists pid, (t0 :: ts). split; [reflexivity|]. split; assumption.
Qed.

(** A file from which no observation is kept has no Plan Document. *)
Lemma kept_in_nil_no_plan (p : Path) (loaded : result json) :
  Survival.kept_in loaded = [] -> Outcome.plan_of p loaded = None.
Proof.
  unfold Survival.kept_in, Survival.items_of, Outcome.plan_of, Outcome.plan_result.
  destruct loaded as [e|plan_data]; simpl; [reflexivity|].
  destruct (Py.get plan_data "thoughts" (JList [])) as [e|ths]; simpl; [reflexivity|].
  destruct (Py.iter ths) as [e|items]; simpl; [reflexivity|].
  destruct (Outcome.survivors items) as [e|kept]; simpl; [reflexivity|].
  intros ->. reflexivity.
Qed.

Lemma thoughts_in_document (pid : json) (p : Path) (ths : list ThoughtData) :
  Outcome.thoughts_in (plan_document pid p ths) = map thought_dict ths.
Proof. reflexivity. Qed.

(** ** Failures inside a file *)

(** A missing [timestamp] is confined: the observation is skipped with a
    line on the console and the sound one is kept. *)
Lemma missing_timestamp_is_confined :
  parse_single_plan ["f.json"; "1"; "plans"; "data"] (inr Examples.file_no_timestamp) []
  = (["Error processing thought in f.json: 'timestamp'"],
     inr (Some (plan_document JNull ["f.json"; "1"; "plans"; "data"]
                  [{| timestamp := Datetime.make 2024 1 1 0 0 2 500000;
                      content := "fine";
                      real_time_factors := JList [JStr "a"];
                      relevance_score := JFloat 0.5;
                      confidence_score := JFloat 0.5 |}]))).
Proof. vm_compute. reflexivity. Qed.

(** C3. A missing [content] field is not confined to its observation:
    the exclusion test reads the field before the inner [try], so the
    [KeyError] reaches the handler of the file. The sound observation
    that follows is lost and the file yields no Plan Document. *)
Theorem missing_content_drops_the_file :
  parse_single_plan ["f.json"; "1"; "plans"; "data"] (inr Examples.file_no_content) []
  = (["Error processing file /data/plans/1/f.json: 'content'"], inr None).
Proof. vm_compute. reflexivity. Qed.

(** ** The order of a Plan Document *)

Lemma lex_ltb_cons_false (y x : Z) (b a : list Z) :
  Datetime.lex_ltb (y :: b) (x :: a) = false <->
  x < y \/ x = y /\ Datetime.lex_ltb b a = false.
Proof.
  cbn [Datetime.lex_ltb].
  destruct (Z.ltb_spec y x) as [H|H], (Z.eqb_spec y x) as [E|E]; cbn [orb andb];
    split; intros H'; try discriminate; try lia; try (right; split; [lia | exact H']).
  destruct H' as [H'|[_ H']]; [lia | exact H'].
Qed.

(** The comparison that the sort makes is the order of the calendar:
    [b < a] is false exactly when [a] is at or before [b]. *)
Lemma not_after_in_order (a b : ThoughtData) : Order.not_after a b <-> Order.in_order a b.
Proof.
  unfold Order.not_after, Order.in_order, Order.at_or_before, Datetime.ltb, Datetime.fields.
  rewrite !lex_ltb_cons_false. cbn [Datetime.lex_ltb].
  split; intros H; repeat (destruct H as [H|[? H]]; [now auto 20|]); try tauto.
  - right. split; [assumption|]. right. split; [assumption|]. right. split; [assumption|].
    right. split; [assumption|]. right. split; [assumption|]. right. split; [assumption|].
    destruct H as [H|[H _]]; lia.
  - right. split; [assumption|]. right. split; [assumption|]. right. split; [assumption|].
    right. split; [assumption|]. right. split; [assumption|]. right. split; [assumption|].
    destruct (Z.eq_dec (Datetime.microsecond (timestamp a)) (Datetime.microsecond (timestamp b)));
      [right; now split | left; lia].
Qed.

(** C5. In the Plan Document of a file the observations are those kept
    from the file, sorted: the timestamp of an observation is at or
    before that of its successor, in the order of the calendar, and the
    observations that share a timestamp are in the order the file had
    them. *)
Theorem plan_document_is_stably_sorted (p : Path) (loaded : result json)
    (out out' : list string) (doc : json) :
  parse_single_plan p loaded out = (out', inr (Some doc)) ->
  exists plan_data items plan_id sorted,
    loaded = inr plan_data /\
    rbind (Py.get plan_data "thoughts" (JList [])) Py.iter = inr items /\
    doc = plan_document plan_id p sorted /\
    Outcome.thoughts_in doc = map thought_dict sorted /\
    Permutation (flat_map Order.kept_of items) sorted /\
    Sorted Order.in_order sorted /\
    Sorted Order.not_after sorted /\
    forall t, Order.at_time t sorted = Order.at_time t (flat_map Order.kept_of items).
Proof.
  intros Hrun.
  destruct (parse_single_plan_result p loaded out) as [out1 H]. rewrite H in Hrun.
  assert (Hdoc : Outcome.plan_of p loaded = Some doc) by congruence.
  apply plan_of_some in Hdoc.
  destruct Hdoc as (plan_data & items & kept & pid & Hl & Hi & Hk & _ & _ & ->).
  apply survivors_flat_map in Hk. subst kept.
  exists plan_data, items, pid, (Outcome.sorted_thoughts (flat_map Order.kept_of items)).
  split; [exact Hl|]. split; [exact Hi|]. split; [reflexivity|]. split; [reflexivity|].
  unfold Outcome.sorted_thoughts. split; [apply sort_by_perm|].
  assert (Hs : Sorted Order.not_after
                 (sort_by Datetime.ltb timestamp (flat_map Order.kept_of items)))
    by (apply sort_by_sorted; exact datetime_ltb_asym).
  split; [|split; [exact Hs|]].
  - eapply sorted_weaken; [|exact Hs]. intros a b Hab. now apply not_after_in_order.
  - intros t. unfold Order.at_time. apply sort_by_filter.
    intros x y Hx Hlt. apply datetime_eqb_eq in Hx. subst t.
    destruct (Datetime.eqb (timestamp y) (timestamp x)) eqn:E; [|reflexivity].
    apply datetime_eqb_eq in E. rewrite E, datetime_ltb_irrefl in Hlt. discriminate.
Qed.

Lemma plan_document_is_stably_sorted_witness :
  exists plan_data items plan_id sorted,
    @inr exn json Examples.file_with_a_tie = inr plan_data /\
    rbind (Py.get plan_data "thoughts" (JList [])) Py.iter = inr items /\
    plan_document (JStr "t") ["f.json"; "1"; "plans"; "data"] Examples.sorted_with_a_tie
    = plan_document plan_id ["f.json"; "1"; "plans"; "data"] sorted /\
    Outcome.thoughts_in
      (plan_document (JStr "t") ["f.json"; "1"; "plans"; "data"] Examples.sorted_with_a_tie)
    = map thought_dict sorted /\
    Permutation (flat_map Order.kept_of items) sorted /\
    Sorted Order.in_order sorted /\
    Sorted Order.not_after sorted /\
    forall t, Order.at_time t sorted = Order.at_time t (flat_map Order.kept_of items).
Proof.
  apply (plan_document_is_stably_sorted ["f.json"; "1"; "plans"; "data"]
           (inr Examples.file_with_a_tie) [] []).
  vm_compute. reflexivity.
Defined.

(** ** [parse_all_plans] computes [Outcome.collected] *)

Lemma process_file_try_spec (p : Path) (loaded : result json) (s : frame) :
  exists c,
    process_file_try p loaded s
    = ({| console := c; all_plans := all_plans s; errors := errors s;
          dir_plans := match Outcome.plan_of p loaded with
                       | Some doc => Dict.set (path_name p) doc (dir_plans s)
                       | None => dir_plans s
                       end |}, inr tt).
Proof.
  unfold process_file_try. unfold_m. simpl.
  match goal with |- context [parse_single_plan p loaded ?o] =>
    destruct (parse_single_plan_result p loaded o) as [out' ->] end.
  destruct (Outcome.plan_of p loaded) as [doc|]; simpl; unfold set_dir_plans, set_console; simpl; eauto.
Qed.

Lemma process_file_spec (dir : Path) (file : entry) (s : frame) :
  exists c,
    process_file dir file s
    = ({| console := c; all_plans := all_plans s; errors := errors s;
          dir_plans := Outcome.add_document dir (dir_plans s) file |}, inr tt).
Proof.
  unfold process_file, try_except.
  destruct (process_file_try_spec (path_child dir (entry_name file)) (entry_load file) s) as [c ->].
  unfold Outcome.add_document. simpl. eauto.
Qed.

Lemma for_each_files (dir : Path) (files : list entry) :
  forall s, exists c,
    for_each files (process_file dir) s
    = ({| console := c; all_plans := all_plans s; errors := errors s;
          dir_plans := fold_left (Outcome.add_document dir) files (dir_plans s) |}, inr tt).
Proof.
  induction files as [|f files IH]; intros s; simpl.
  - unfold ret. exists (console s). now destruct s.
  - unfold bind. destruct (process_file_spec dir f s) as [c ->].
    destruct (IH {| console := c; all_plans := all_plans s; errors := errors s;
                    dir_plans := Outcome.add_document dir (dir_plans s) f |}) as [c' ->].
    simpl. eauto.
Qed.

Lemma process_directory_spec (root : Path) (d : folder) (s : frame) :
  exists c dp,
    process_directory root d s
    = match glob_json d with
      | inl e => ({| console := c; all_plans := all_plans s; errors := errors s;
                     dir_plans := dp |}, inl e)
      | inr files => ({| console := c; all_plans := Outcome.add_directory root (all_plans s) d files;
                         errors := errors s; dir_plans := dp |}, inr tt)
      end.
Proof.
  unfold process_directory. unfold_m. simpl.
  destruct (glob_json d) as [e|files]; simpl.
  { unfold set_dir_plans, set_console. simpl. eauto. }
  match goal with |- context [for_each files ?b ?s0] =>
    destruct (for_each_files (path_child root (folder_name d)) files s0) as [c ->] end.
  simpl. unfold Outcome.add_directory, Outcome.dir_documents.
  destruct (fold_left _ files []) as [|x l]; simpl; unfold set_all_plans; simpl; eauto.
Qed.

Lemma for_each_directories (root : Path) (ds : list folder) :
  forall s, exists c dp,
    for_each ds (process_directory root) s
    = ({| console := c; all_plans := fst (Outcome.aggregate root ds (all_plans s));
          errors := errors s; dir_plans := dp |},
       match snd (Outcome.aggregate root ds (all_plans s)) with
       | None => inr tt
       | Some e => inl e
       end).
Proof.
  induction ds as [|d ds IH]; intros s; simpl.
  - unfold ret. exists (console s), (dir_plans s). now destruct s.
  - unfold bind. destruct (process_directory_spec root d s) as (c & dp & ->).
    destruct (glob_json d) as [e|files]; simpl; [eauto|].
    match goal with |- context [for_each ds _ ?s0] => destruct (IH s0) as (c' & dp' & ->) end.
    simpl. eauto.
Qed.

Lemma add_document_documents (dir : Path) (docs : list (string * json)) (file : entry) :
  Forall Aggregate.is_plan_document (Dict.values docs) ->
  Forall Aggregate.is_plan_document (Dict.values (Outcome.add_document dir docs file)).
Proof.
  intros H. unfold Outcome.add_document.
  destruct (Outcome.plan_of _ _) as [doc|] eqn:E; [|exact H].
  apply dict_values_set; [exact H | eapply plan_of_is_document; exact E].
Qed.

Lemma fold_add_document_documents (dir : Path) (files : list entry) :
  forall docs,
  Forall Aggregate.is_plan_document (Dict.values docs) ->
  Forall Aggregate.is_plan_document (Dict.values (fold_left (Outcome.add_document dir) files docs)).
Proof.
  induction files as [|f files IH]; intros docs H; simpl; [exact H|].
  apply IH. now apply add_document_documents.
Qed.

Lemma add_directory_well_formed (root : Path) plans (d : folder) (files : list entry) :
  Aggregate.well_formed plans ->
  Aggregate.well_formed (Outcome.add_directory root plans d files).
Proof.
  intros H. unfold Outcome.add_directory.
  pose proof (fold_add_document_documents (path_child root (folder_name d)) files []
                (Forall_nil _)) as Hd.
  fold (Outcome.dir_documents (path_child root (folder_name d)) files) in Hd.
  destruct (Outcome.dir_documents _ files) as [|x l]; [exact H|].
  unfold Aggregate.well_formed. now apply dict_values_set.
Qed.

Lemma aggregate_well_formed (root : Path) (ds : list folder) :
  forall plans,
  Aggregate.well_formed plans ->
  Aggregate.well_formed (fst (Outcome.aggregate root ds plans)).
Proof.
  induction ds as [|d ds IH]; intros plans H; simpl; [exact H|].
  destruct (glob_json d) as [e|files]; simpl; [exact H|].
  apply IH. now apply add_directory_well_formed.
Qed.

Lemma collected_well_formed (fs : tree) :
  Aggregate.well_formed (fst (Outcome.collected fs)).
Proof.
  unfold Outcome.collected.
  destruct (Outcome.directories fs) as [e|ds]; simpl; [constructor|].
  pose proof (aggregate_well_formed (plans_directory fs) ds [] (Forall_nil _)) as H.
  destruct (Outcome.aggregate (plans_directory fs) ds []) as [plans [e|]]; exact H.
Qed.

(** ** The condensed projection *)

Lemma condense_thought_dict (t : ThoughtData) (acc : list json) :
  condense_thought (thought_dict t) acc = inr (acc ++ Outcome.short_of t)%list.
Proof.
  unfold condense_thought, Outcome.short_of. simpl.
  destruct (String.eqb (PyStr.strip (content t)) exploring); simpl.
  - now rewrite app_nil_r.
  - reflexivity.
Qed.

Lemma condense_plan_document (pid : json) (p : Path) (ths : list ThoughtData) (acc : list json) :
  condense_plan (plan_document pid p ths) acc
  = inr (acc ++ flat_map Outcome.short_of ths)%list.
Proof.
  unfold condense_plan. simpl. rewrite rfold_map.
  apply rfold_flat_map. intros t acc' _. apply condense_thought_dict.
Qed.

Lemma shorts_of_plan_document (pid : json) (p : Path) (ths : list ThoughtData) :
  Outcome.shorts_of_plan (plan_document pid p ths) = flat_map Outcome.short_of ths.
Proof. unfold Outcome.shorts_of_plan. now rewrite condense_plan_document. Qed.

Lemma condense_dir_documents (files : list (string * json)) (acc : list json) :
  Forall Aggregate.is_plan_document (Dict.values files) ->
  condense_dir (JDict files) acc
  = inr (acc ++ flat_map Outcome.shorts_of_plan (Dict.values files))%list.
Proof.
  intros H. unfold condense_dir. simpl. revert acc.
  apply rfold_flat_map. intros doc acc Hin.
  rewrite Forall_forall in H. destruct (H doc Hin) as (pid & p & ths & ->).
  now rewrite condense_plan_document, shorts_of_plan_document.
Qed.

Lemma create_condensed_output_full (root : Path) (now : Datetime.t) plans (errs : list string) :
  Aggregate.well_formed plans ->
  create_condensed_output (Aggregate.full root now plans errs) = inr (Outcome.shorts_of plans).
Proof.
  intros H. unfold create_condensed_output, Aggregate.full, results_of.
  cbn [Py.getitem Dict.lookup String.eqb Ascii.eqb Bool.eqb rbind all_plans Py.values].
  unfold Dict.values at 1. rewrite map_map. cbn [snd fst].
  rewrite rfold_map.
  rewrite (rfold_flat_map _ (fun kv => flat_map Outcome.shorts_of_plan (Dict.values (snd kv)))).
  - unfold Outcome.shorts_of. simpl. f_equal.
    unfold Dict.values at 3. now rewrite flat_map_of_map.
  - intros kv acc Hin. apply condense_dir_documents.
    unfold Aggregate.well_formed in H. rewrite Forall_forall in H. apply H.
    unfold Dict.values. now apply in_map.
Qed.

Lemma shorts_of_in (plans : list (string * list (string * json))) (rec : json) :
  In rec (Outcome.shorts_of plans) <->
  exists dir files file doc,
    In (dir, files) plans /\ In (file, doc) files /\ In rec (Outcome.shorts_of_plan doc).
Proof.
  unfold Outcome.shorts_of. rewrite in_flat_map. split.
  - intros (files & Hf & Hin). apply in_flat_map in Hin. destruct Hin as (doc & Hd & Hin).
    unfold Dict.values in *. apply in_map_iff in Hf. destruct Hf as ([dir files'] & <- & Hf).
    apply in_map_iff in Hd. destruct Hd as ([file doc'] & <- & Hd).
    exists dir, files', file, doc'. now repeat split.
  - intros (dir & files & file & doc & Hf & Hd & Hin). exists files. split.
    + unfold Dict.values. apply in_map_iff. now exists (dir, files).
    + apply in_flat_map. exists doc. split; [|exact Hin].
      unfold Dict.values. apply in_map_iff. now exists (file, doc).
Qed.

Lemma short_of_kept (t : ThoughtData) :
  PyStr.strip (content t) = content t ->
  should_exclude_content (content t) = false ->
  Outcome.short_of t = [Survival.short_record (content t) (real_time_factors t)].
Proof.
  intros Hs Hx. unfold Outcome.short_of. rewrite Hs.
  now rewrite (not_excluded_not_exploring _ Hx).
Qed.

(** ** The run of the Collector *)

Lemma results_of_full (root : Path) (now : Datetime.t) (s : frame) :
  results_of root now s = Aggregate.full root now (all_plans s) (errors s).
Proof. reflexivity. Qed.

(** A run never raises; its two locals are [Outcome.collected], its
    results the Full Aggregate made of them and their Short Records. *)
Lemma run_collected (fs : tree) (now : Datetime.t) :
  exists c dp,
    run fs now
    = ({| console := c; all_plans := fst (Outcome.collected fs);
          errors := snd (Outcome.collected fs); dir_plans := dp |},
       inr (Aggregate.full (plans_directory fs) now
              (fst (Outcome.collected fs)) (snd (Outcome.collected fs)),
            Outcome.shorts_of (fst (Outcome.collected fs)))).
Proof.
  pose proof (collected_well_formed fs) as Hwf.
  assert (Hend : forall s : frame,
             Aggregate.well_formed (all_plans s) ->
             (s0 <- get ;;
              let results := results_of (plans_directory fs) now s0 in
              condensed_results <- lift (create_condensed_output results) ;;
              ret (results, condensed_results)) s
             = (s, inr (Aggregate.full (plans_directory fs) now (all_plans s) (errors s),
                        Outcome.shorts_of (all_plans s)))).
  { intros s Hs. unfold bind, get, lift, ret. cbv zeta.
    rewrite results_of_full, create_condensed_output_full by exact Hs. reflexivity. }
  unfold run, parse_all_plans. cbv zeta.
  unfold Outcome.collected, Outcome.directories in *.
  unfold bind at 1. unfold modify at 1. unfold bind at 1. unfold modify at 1.
  unfold bind at 1. unfold try_except at 1. unfold bind at 1. unfold lift at 1.
  destruct (root_scan fs) as [e|scan]; cbn [rbind] in *.
  { unfold modify at 1. rewrite Hend by constructor. do 2 eexists. reflexivity. }
  unfold bind at 1. unfold lift at 1.
  destruct (sort_directories (plans_directory fs) (filter folder_is_dir scan)) as [e|ds].
  { unfold modify at 1. rewrite Hend by constructor. do 2 eexists. reflexivity. }
  unfold bind at 1. unfold echo at 1. unfold on_console, print, Console.print, Console.accepting.
  match goal with |- context [for_each ds _ ?s0] =>
    destruct (for_each_directories (plans_directory fs) ds s0) as (c & dp & ->) end.
  cbn [all_plans errors set_console set_errors set_all_plans empty_frame] in *.
  destruct (Outcome.aggregate (plans_directory fs) ds []) as [plans [e|]]; cbn [fst snd] in *.
  - unfold modify at 1. rewrite Hend by exact Hwf. do 2 eexists. reflexivity.
  - rewrite Hend by exact Hwf. do 2 eexists. reflexivity.
Qed.

(** No input makes a run of the Collector raise: it always returns its
    two aggregates. *)
Theorem run_never_aborts (fs : tree) (now : Datetime.t) :
  exists s full short, run fs now = (s, inr (full, short)).
Proof. destruct (run_collected fs now) as (c & dp & H). rewrite H. eauto. Qed.

Lemma plans_in_full (root : Path) (now : Datetime.t) plans (errs : list string) :
  Outcome.plans_in (Aggregate.full root now plans errs)
  = map (fun kv => (fst kv, JDict (snd kv))) plans.
Proof. reflexivity. Qed.

Lemma files_in_full (root : Path) (now : Datetime.t) plans (errs : list string) (dir : string) :
  Outcome.files_in (Aggregate.full root now plans errs) dir
  = match Dict.lookup dir plans with Some files => files | None => [] end.
Proof.
  unfold Outcome.files_in. rewrite plans_in_full.
  induction plans as [|[k v] plans IH]; simpl; [reflexivity|].
  destruct (String.eqb dir k); [reflexivity | exact IH].
Qed.

(** ** Errors of a run *)

(** C4. A file that is not JSON leaves no trace in the [errors] list of
    the Full Aggregate: [parse_single_plan] prints the failure and
    returns [None], so the handler of [parse_all_plans] that appends to
    [errors] never runs. The run itself goes on to its end. *)
Theorem file_error_not_in_errors :
  run Examples.broken_tree Examples.a_time
  = ({| console := ["Found 1 directories";
                    PyStr.newline ++ "Processing directory: 1";
                    "Found 1 JSON files";
                    "Processing file: bad.json";
                    "Error processing file /data/plans/1/bad.json: "
                    ++ "Expecting value: line 1 column 1 (char 0)"];
        all_plans := []; errors := []; dir_plans := [] |},
     inr (JDict [("plans", JDict []);
                 ("metadata",
                  JDict [("total_directories", JInt 0); ("total_plans", JInt 0);
                         ("base_directory", JStr "/data/plans");
                         ("processed_at", JStr "2026-11-03T10:00:00")]);
                 ("errors", JList [])],
          [])).
Proof. vm_compute. reflexivity. Qed.

(** ** Directory names *)

Lemma int_error (s : string) (e : exn) :
  Py.int s = inl e ->
  e = ValueError ("invalid literal for int() with base 10: " ++ PyStr.take 200 (Py.repr s)).
Proof.
  unfold Py.int. destruct (Py.skip_spaces s) as [|a t].
  - simpl. congruence.
  - destruct a as [[] [] [] [] [] [] [] []];
      match goal with
      | |- context [Py.int_unsigned ?u] => destruct (Py.int_unsigned u)
      end; congruence.
Qed.

(** C10. If a subdirectory of the root has a name that [int] rejects,
    the sort of the directories raises before the loop over them: the
    run ends normally with nothing printed, an empty [plans] mapping,
    both totals at zero and the one error string of the handler, which
    names the first such directory in the order of the listing. *)
Theorem non_numeric_directory_name (fs : tree) (now : Datetime.t) (scan : list folder)
    (d : folder) (e : exn) :
  root_scan fs = inr scan ->
  In d scan -> folder_is_dir d = true -> Py.int (folder_name d) = inl e ->
  exists d' msg,
    In d' scan /\ folder_is_dir d' = true /\
    msg = "Directory error: invalid literal for int() with base 10: "
          ++ PyStr.take 200 (Py.repr (folder_name d')) /\
    run fs now
    = ({| console := []; all_plans := []; errors := [msg]; dir_plans := [] |},
       inr (JDict [("plans", JDict []);
                   ("metadata",
                    JDict [("total_directories", JInt 0); ("total_plans", JInt 0);
                           ("base_directory", JStr (path_str (plans_directory fs)));
                           ("processed_at", JStr (Datetime.isoformat "T" now))]);
                   ("errors", JList [JStr msg])],
            [])).
Proof.
  intros Hscan Hin Hdir Hint.
  assert (Hd : In d (filter folder_is_dir scan)) by (apply filter_In; now split).
  destruct (rmap_fails
              (fun d => Py.int (path_name (path_child (plans_directory fs) (folder_name d))))
              _ d e Hd Hint) as (d' & e' & Hin' & He' & Hmap).
  apply filter_In in Hin'. destruct Hin' as [Hin' Hdir'].
  cbn [path_name path_child] in He'. apply int_error in He'. subst e'.
  exists d'. eexists. split; [exact Hin'|]. split; [exact Hdir'|]. split; [reflexivity|].
  unfold run, parse_all_plans. cbv zeta.
  unfold bind at 1. unfold modify at 1. unfold bind at 1. unfold modify at 1.
  unfold bind at 1. unfold try_except at 1. unfold bind at 1. unfold lift at 1.
  rewrite Hscan. unfold bind at 1. unfold lift at 1.
  unfold sort_directories. rewrite Hmap. cbn [rbind].
  reflexivity.
Qed.

Lemma non_numeric_directory_name_witness :
  exists d' msg,
    In d' [{| folder_name := "1"; folder_is_dir := true;
              folder_scan := inr [{| entry_name := "p.json";
                                     entry_load := inr (JDict [("thoughts", JList [Examples.sound])]) |}] |};
           {| folder_name := "notes"; folder_is_dir := true; folder_scan := inr [] |}]
    /\ folder_is_dir d' = true /\
    msg = "Directory error: invalid literal for int() with base 10: "
          ++ PyStr.take 200 (Py.repr (folder_name d')) /\
    run Examples.named_tree Examples.a_time
    = ({| console := []; all_plans := []; errors := [msg]; dir_plans := [] |},
       inr (JDict [("plans", JDict []);
                   ("metadata",
                    JDict [("total_directories", JInt 0); ("total_plans", JInt 0);
                           ("base_directory", JStr (path_str (plans_directory Examples.named_tree)));
                           ("processed_at", JStr (Datetime.isoformat "T" Examples.a_time))]);
                   ("errors", JList [JStr msg])],
            [])).
Proof.
  apply (non_numeric_directory_name Examples.named_tree Examples.a_time _
           {| folder_name := "notes"; folder_is_dir := true; folder_scan := inr [] |}
           (ValueError "invalid literal for int() with base 10: 'notes'")).
  - reflexivity.
  - simpl. right. left. reflexivity.
  - reflexivity.
  - vm_compute. reflexivity.
Defined.

(** ** Where the keys of the Full Aggregate come from *)

Lemma add_document_in (dir : Path) (docs : list (string * json)) (e : entry)
    (f : string) (doc : json) :
  In (f, doc) (Outcome.add_document dir docs e) ->
  In (f, doc) docs \/
  (f = entry_name e /\
   Outcome.plan_of (path_child dir (entry_name e)) (entry_load e) = Some doc).
Proof.
  unfold Outcome.add_document.
  destruct (Outcome.plan_of _ _) as [doc'|] eqn:E; [|now left].
  intros H. apply dict_in_set in H. destruct H as [[-> ->]|H]; [now right | now left].
Qed.

Lemma fold_add_document_in (dir : Path) (files : list entry) (f : string) (doc : json) :
  forall docs,
  In (f, doc) (fold_left (Outcome.add_document dir) files docs) ->
  In (f, doc) docs \/
  exists e, In e files /\ entry_name e = f /\
            Outcome.plan_of (path_child dir f) (entry_load e) = Some doc.
Proof.
  induction files as [|e files IH]; intros docs H; simpl in H; [now left|].
  apply IH in H. destruct H as [H|(e' & Hin & Hn & Hp)].
  - apply add_document_in in H. destruct H as [H|[-> Hp]]; [now left|].
    right. exists e. split; [now left | now split].
  - right. exists e'. split; [now right | now split].
Qed.

Lemma add_directory_in (root : Path) plans (d : folder) (files : list entry)
    (dn : string) (docs : list (string * json)) :
  In (dn, docs) (Outcome.add_directory root plans d files) ->
  In (dn, docs) plans \/
  (dn = folder_name d /\ docs <> [] /\
   docs = Outcome.dir_documents (path_child root (folder_name d)) files).
Proof.
  unfold Outcome.add_directory.
  destruct (Outcome.dir_documents _ files) as [|x l] eqn:E; [now left|].
  intros H. apply dict_in_set in H. destruct H as [[-> ->]|H]; [|now left].
  right. split; [reflexivity|]. split; [discriminate | reflexivity].
Qed.

Lemma aggregate_in (root : Path) (ds : list folder) (dn : string) (docs : list (string * json)) :
  forall plans,
  In (dn, docs) (fst (Outcome.aggregate root ds plans)) ->
  In (dn, docs) plans \/
  exists d files,
    In d ds /\ glob_json d = inr files /\ folder_name d = dn /\ docs <> [] /\
    docs = Outcome.dir_documents (path_child root dn) files.
Proof.
  induction ds as [|d ds IH]; intros plans H; simpl in H; [now left|].
  destruct (glob_json d) as [e|files] eqn:Eg; simpl in H; [now left|].
  apply IH in H. destruct H as [H|(d' & files' & Hin & Hg & Hn & Hne & Hd)].
  - apply add_directory_in in H. destruct H as [H|(-> & Hne & Hd)]; [now left|].
    right. exists d, files. split; [now left|]. now repeat split.
  - right. exists d', files'. split; [now right|]. now repeat split.
Qed.

(** Sorting the directories permutes them. *)
Lemma sort_directories_perm (root : Path) (l ds : list folder) :
  sort_directories root l = inr ds -> Permutation l ds.
Proof.
  unfold sort_directories.
  destruct (rmap _ l) as [e|keys] eqn:E; simpl; [discriminate|].
  intros H. inversion H as [H1]. clear H H1. apply rmap_length in E.
  eapply perm_trans; [|apply Permutation_map, sort_by_perm].
  revert keys E. induction l as [|x l IH]; intros [|k keys] E; simpl in *;
    try discriminate; [constructor|].
  constructor. apply IH. now inversion E.
Qed.

Lemma directories_in (fs : tree) (ds : list folder) (d : folder) :
  Outcome.directories fs = inr ds ->
  In d ds <-> exists scan, root_scan fs = inr scan /\ In d scan /\ folder_is_dir d = true.
Proof.
  unfold Outcome.directories. destruct (root_scan fs) as [e|scan]; simpl; [discriminate|].
  intros H. apply sort_directories_perm in H. split.
  - intros Hin. exists scan. split; [reflexivity|].
    apply filter_In. eapply Permutation_in; [apply Permutation_sym; exact H | exact Hin].
  - intros (scan' & Hs & Hin & Hdir). inversion Hs. subst scan'.
    eapply Permutation_in; [exact H|]. apply filter_In. now split.
Qed.

Lemma collected_in (fs : tree) (dn : string) (docs : list (string * json)) :
  In (dn, docs) (fst (Outcome.collected fs)) ->
  exists scan d files,
    root_scan fs = inr scan /\ In d scan /\ folder_is_dir d = true /\
    glob_json d = inr files /\ folder_name d = dn /\ docs <> [] /\
    docs = Outcome.dir_documents (path_child (plans_directory fs) dn) files.
Proof.
  unfold Outcome.collected.
  destruct (Outcome.directories fs) as [e|ds] eqn:Ed; simpl; [intros []|].
  intros H.
  assert (H' : In (dn, docs) (fst (Outcome.aggregate (plans_directory fs) ds []))).
  { destruct (Outcome.aggregate (plans_directory fs) ds []) as [plans [e|]]; exact H. }
  apply aggregate_in in H'. destruct H' as [[]|(d & files & Hin & Hg & Hn & Hne & Hd)].
  apply (directories_in fs ds d Ed) in Hin. destruct Hin as (scan & Hs & Hin & Hdir).
  exists scan, d, files. now repeat split.
Qed.

(** C6. In the Full Aggregate of a run, a key of the mapping of a
    directory is the name of a file of that directory whose parse gave
    the Plan Document stored under it, with at least one observation;
    and a key of the [plans] mapping is a directory under which such a
    file is stored. When names are distinct, as in a file system, a file
    from which no observation is kept is therefore no key of the mapping
    of its directory. *)
Theorem keys_of_the_full_aggregate (fs : tree) (now : Datetime.t) :
  exists s full short,
    run fs now = (s, inr (full, short)) /\
    (forall dir file doc,
        Dict.lookup file (Outcome.files_in full dir) = Some doc ->
        Survival.produced fs dir file doc) /\
    (forall dir,
        In dir (Dict.keys (Outcome.plans_in full)) ->
        exists file doc,
          Dict.lookup file (Outcome.files_in full dir) = Some doc /\
          Survival.produced fs dir file doc) /\
    (forall scan d files e,
        root_scan fs = inr scan ->
        NoDup (map folder_name (filter folder_is_dir scan)) ->
        In d scan -> folder_is_dir d = true ->
        glob_json d = inr files -> NoDup (map entry_name files) -> In e files ->
        Survival.kept_in (entry_load e) = [] ->
        Dict.lookup (entry_name e) (Outcome.files_in full (folder_name d)) = None).
Proof.
  destruct (run_collected fs now) as (c & dp & Hrun).
  do 3 eexists. split; [exact Hrun|].
  assert (Hkeys : forall dir file doc,
             Dict.lookup file
               (Outcome.files_in
                  (Aggregate.full (plans_directory fs) now (fst (Outcome.collected fs))
                     (snd (Outcome.collected fs))) dir) = Some doc ->
             Survival.produced fs dir file doc).
  { intros dir file doc H. rewrite files_in_full in H.
    destruct (Dict.lookup dir (fst (Outcome.collected fs))) as [docs|] eqn:El;
      [|discriminate].
    apply dict_lookup_in in El. apply collected_in in El.
    destruct El as (scan & d & files & Hs & Hin & Hdir & Hg & Hn & _ & ->).
    apply dict_lookup_in in H. unfold Outcome.dir_documents in H.
    apply fold_add_document_in in H. destruct H as [[]|(e & Hine & Hne & Hp)].
    exists scan, d, files, e. repeat (split; [assumption|]).
    apply plan_of_some in Hp.
    destruct Hp as (pd & items & ths & pid & _ & _ & _ & Hnil & _ & ->).
    rewrite thoughts_in_document. intros E. apply Hnil.
    now apply map_eq_nil in E. }
  split; [exact Hkeys|]. split.
  - intros dir Hdir. rewrite plans_in_full in Hdir.
    unfold Dict.keys in Hdir. rewrite map_map in Hdir. simpl in Hdir.
    apply in_map_iff in Hdir. destruct Hdir as ([dn docs] & Hdn & Hin). simpl in Hdn. subst dn.
    destruct (dict_in_lookup _ _ _ Hin) as [docs' Hl].
    assert (Hne : docs' <> []).
    { apply dict_lookup_in, collected_in in Hl.
      now destruct Hl as (_ & _ & _ & _ & _ & _ & _ & _ & Hne & _). }
    destruct docs' as [|[f doc] docs']; [congruence|].
    assert (Hf : Dict.lookup f
                   (Outcome.files_in
                      (Aggregate.full (plans_directory fs) now (fst (Outcome.collected fs))
                         (snd (Outcome.collected fs))) dir) = Some doc).
    { rewrite files_in_full, Hl. simpl. now rewrite String.eqb_refl. }
    exists f, doc. split; [exact Hf | apply Hkeys; exact Hf].
  - intros scan d files e Hs Hnd Hin Hdir Hg Hnf Hine Hkept.
    destruct (Dict.lookup (entry_name e) _) as [doc|] eqn:El; [|reflexivity].
    exfalso. apply Hkeys in El.
    destruct El as (scan' & d' & files' & e' & Hs' & Hin' & Hdir' & Hn' & Hg' & Hine' & Hne' & Hp & _).
    rewrite Hs in Hs'. inversion Hs'. subst scan'.
    assert (d' = d).
    { apply (nodup_map_inj folder_name (filter folder_is_dir scan)); try assumption;
        apply filter_In; now split. }
    subst d'. rewrite Hg in Hg'. inversion Hg'. subst files'.
    assert (e' = e) by (apply (nodup_map_inj entry_name files); assumption).
    subst e'. rewrite (kept_in_nil_no_plan _ _ Hkept) in Hp. discriminate.
Qed.

Lemma keys_of_the_full_aggregate_witness :
  exists s full short,
    run Examples.exploring_tree Examples.a_time = (s, inr (full, short)) /\
    Dict.lookup "p.json" (Outcome.files_in full "1") = None.
Proof.
  destruct (keys_of_the_full_aggregate Examples.exploring_tree Examples.a_time)
    as (s & full & short & Hrun & _ & _ & Hnone).
  exists s, full, short. split; [exact Hrun|].
  apply (Hnone [{| folder_name := "1"; folder_is_dir := true;
                   folder_scan := inr [{| entry_name := "p.json";
                                          entry_load := inr (JDict [("thoughts",
                                             JList [Examples.exploring_more])]) |}] |}]
               {| folder_name := "1"; folder_is_dir := true;
                  folder_scan := inr [{| entry_name := "p.json";
                                         entry_load := inr (JDict [("thoughts",
                                            JList [Examples.exploring_more])]) |}] |}
               [{| entry_name := "p.json";
                   entry_load := inr (JDict [("thoughts", JList [Examples.exploring_more])]) |}]
               {| entry_name := "p.json";
                  entry_load := inr (JDict [("thoughts", JList [Examples.exploring_more])]) |}).
  - reflexivity.
  - simpl. constructor; [intros [] | constructor].
  - left. reflexivity.
  - reflexivity.
  - vm_compute. reflexivity.
  - simpl. constructor; [intros [] | constructor].
  - left. reflexivity.
  - vm_compute. reflexivity.
Defined.

(** ** Where a Plan Document is stored *)

Lemma add_document_lookup_other (dir : Path) (docs : list (string * json)) (e : entry)
    (k : string) :
  entry_name e <> k ->
  Dict.lookup k (Outcome.add_document dir docs e) = Dict.lookup k docs.
Proof.
  intros H. unfold Outcome.add_document.
  destruct (Outcome.plan_of _ _); [now apply dict_lookup_set_ne | reflexivity].
Qed.

Lemma fold_add_document_lookup_other (dir : Path) (files : list entry) (k : string) :
  (forall e, In e files -> entry_name e <> k) ->
  forall docs,
  Dict.lookup k (fold_left (Outcome.add_document dir) files docs) = Dict.lookup k docs.
Proof.
  induction files as [|e files IH]; intros H docs; simpl; [reflexivity|].
  rewrite IH by (intros e' He'; apply H; now right).
  apply add_document_lookup_other. apply H. now left.
Qed.

Lemma fold_add_document_lookup (dir : Path) (files : list entry) (e : entry) (doc : json) :
  NoDup (map entry_name files) -> In e files ->
  Outcome.plan_of (path_child dir (entry_name e)) (entry_load e) = Some doc ->
  forall docs,
  Dict.lookup (entry_name e) (fold_left (Outcome.add_document dir) files docs) = Some doc.
Proof.
  induction files as [|e0 files IH]; intros Hnd Hin Hp docs; [destruct Hin|].
  simpl in Hnd. inversion Hnd as [|? ? Hnotin Hnd']; subst. simpl.
  destruct Hin as [->|Hin].
  - rewrite fold_add_document_lookup_other.
    + unfold Outcome.add_document. rewrite Hp. apply dict_lookup_set_eq.
    + intros e' He' Heq. apply Hnotin. rewrite <- Heq. now apply in_map.
  - now apply IH.
Qed.

Lemma add_directory_lookup_other (root : Path) plans (d : folder) (files : list entry)
    (k : string) :
  folder_name d <> k ->
  Dict.lookup k (Outcome.add_directory root plans d files) = Dict.lookup k plans.
Proof.
  intros H. unfold Outcome.add_directory.
  destruct (Outcome.dir_documents _ files); [reflexivity | now apply dict_lookup_set_ne].
Qed.

Lemma aggregate_lookup_other (root : Path) (ds : list folder) (k : string) :
  (forall d, In d ds -> folder_name d <> k) ->
  forall plans,
  Dict.lookup k (fst (Outcome.aggregate root ds plans)) = Dict.lookup k plans.
Proof.
  induction ds as [|d ds IH]; intros H plans; simpl; [reflexivity|].
  destruct (glob_json d) as [e|files]; simpl; [reflexivity|].
  rewrite IH by (intros d' Hd'; apply H; now right).
  apply add_directory_lookup_other. apply H. now left.
Qed.

Lemma aggregate_lookup (root : Path) (ds : list folder) (d : folder) (files : list entry) :
  Forall (fun d => exists files, glob_json d = inr files) ds ->
  NoDup (map folder_name ds) -> In d ds -> glob_json d = inr files ->
  Outcome.dir_documents (path_child root (folder_name d)) files <> [] ->
  forall plans,
  Dict.lookup (folder_name d) (fst (Outcome.aggregate root ds plans))
  = Some (Outcome.dir_documents (path_child root (folder_name d)) files).
Proof.
  induction ds as [|d0 ds IH]; intros Hg Hnd Hin Hd Hne plans; [destruct Hin|].
  simpl in Hnd. inversion Hnd as [|? ? Hnotin Hnd']; subst.
  inversion Hg as [|? ? [files0 Hg0] Hg']; subst. simpl. rewrite Hg0.
  destruct Hin as [->|Hin].
  - rewrite Hd in Hg0. inversion Hg0. subst files0.
    rewrite aggregate_lookup_other.
    + unfold Outcome.add_directory.
      destruct (Outcome.dir_documents _ files) as [|x l]; [congruence|].
      apply dict_lookup_set_eq.
    + intros d' Hd' Heq. apply Hnotin. rewrite <- Heq. now apply in_map.
  - now apply IH.
Qed.

(** In a sound tree the directories are sorted and all processed. *)
Lemma sound_directories (fs : tree) (scan : list folder) :
  Tree.sound fs scan ->
  exists ds,
    Outcome.directories fs = inr ds /\
    Permutation (filter folder_is_dir scan) ds /\
    fst (Outcome.collected fs) = fst (Outcome.aggregate (plans_directory fs) ds []).
Proof.
  intros (Hs & Hnd & Hall).
  assert (Hsort : exists ds, sort_directories (plans_directory fs) (filter folder_is_dir scan)
                             = inr ds).
  { unfold sort_directories.
    destruct (rmap_total
                (fun d => Py.int (path_name (path_child (plans_directory fs) (folder_name d))))
                (filter folder_is_dir scan)) as [keys Hk].
    - eapply Forall_impl; [|exact Hall]. intros d [H _]. exact H.
    - rewrite Hk. simpl. eauto. }
  destruct Hsort as [ds Hds]. exists ds.
  assert (Hd : Outcome.directories fs = inr ds).
  { unfold Outcome.directories. rewrite Hs. exact Hds. }
  split; [exact Hd|]. split; [now apply sort_directories_perm in Hds|].
  unfold Outcome.collected. rewrite Hd.
  now destruct (Outcome.aggregate (plans_directory fs) ds []) as [plans [e|]].
Qed.

(** ** Which observations reach the aggregates *)

(** A document stored in the mapping of a directory is the Plan Document
    of a file of that directory. *)
Lemma collected_document (fs : tree) (dir file : string)
    (docs : list (string * json)) (doc : json) :
  In (dir, docs) (fst (Outcome.collected fs)) -> In (file, doc) docs ->
  exists scan d files e,
    root_scan fs = inr scan /\ In d scan /\ folder_is_dir d = true /\
    folder_name d = dir /\ glob_json d = inr files /\
    In e files /\ entry_name e = file /\
    Outcome.plan_of (path_child (path_child (plans_directory fs) dir) file) (entry_load e)
    = Some doc.
Proof.
  intros Hd Hf. apply collected_in in Hd.
  destruct Hd as (scan & d & files & Hs & Hin & Hdir & Hg & Hn & _ & ->).
  unfold Outcome.dir_documents in Hf. apply fold_add_document_in in Hf.
  destruct Hf as [[]|(e & Hine & Hne & Hp)].
  exists scan, d, files, e. now repeat split.
Qed.

(** The observations of a stored document come from the file, and none
    of them is excluded. *)
Lemma stored_thoughts (fs : tree) (dir file : string)
    (docs : list (string * json)) (doc : json) :
  In (dir, docs) (fst (Outcome.collected fs)) -> In (file, doc) docs ->
  exists plan_id sorted,
    doc = plan_document plan_id (path_child (path_child (plans_directory fs) dir) file) sorted /\
    forall t, In t sorted ->
              Survival.comes_from fs dir file t /\ PyStr.strip (content t) = content t.
Proof.
  intros Hd Hf.
  destruct (collected_document fs dir file docs doc Hd Hf)
    as (scan & d & files & e & Hs & Hin & Hdir & Hn & Hg & Hine & Hne & Hp).
  apply plan_of_some in Hp.
  destruct Hp as (pd & items & kept & pid & Hl & Hi & Hk & _ & _ & ->).
  exists pid, (Outcome.sorted_thoughts kept). split; [reflexivity|].
  intros t Ht. apply survivors_flat_map in Hk. subst kept.
  assert (Ht' : In t (flat_map Order.kept_of items)).
  { apply (Permutation_in t
             (Permutation_sym (sort_by_perm Datetime.ltb timestamp
                                 (flat_map Order.kept_of items)))).
    exact Ht. }
  apply in_flat_map in Ht'. destruct Ht' as (th & Hth & Htk).
  assert (Hkept : Order.kept_of th = [t]).
  { destruct (kept_of_cases th) as [E|[t' E]]; rewrite E in Htk; [destruct Htk|].
    destruct Htk as [->|[]]. exact E. }
  apply kept_of_iff in Hkept. destruct Hkept as (c & Hc & Hx & Htd).
  pose proof (thought_data_content th t Htd) as Hct.
  assert (c = content t) by congruence. subst c.
  apply not_excluded_iff in Hx. destruct Hx as [Hx1 Hx2].
  split; [|eapply stripped_content_stripped; exact Hc].
  exists scan, d, files, e, items, th. repeat (split; [assumption|]).
  split; [|now repeat split].
  unfold Survival.items_of. rewrite Hl. exact Hi.
Qed.

(** C1 (amended). The Collector excludes an observation by substring:
    every observation of the Full Aggregate and every record of the
    Short Aggregate is the normalized form of an observation of the
    input whose stripped content holds neither the sentence
    ["Exploring system dynamics and adaptation patterns"] nor ["plan_"];
    and in a tree that is read to its end, every observation of a file
    whose stripped content holds neither, whose other fields parse, and
    whose file loads with a readable content in each observation, is in
    the Plan Document of its file and in the Short Aggregate. *)
Theorem exclusion_is_by_substring (fs : tree) (now : Datetime.t) :
  exists s full short,
    run fs now = (s, inr (full, short)) /\
    (forall dir file doc out,
        Dict.lookup file (Outcome.files_in full dir) = Some doc ->
        In out (Outcome.thoughts_in doc) ->
        exists t, Survival.comes_from fs dir file t /\ out = thought_dict t) /\
    (forall rec,
        In rec short ->
        exists dir file t,
          Survival.comes_from fs dir file t /\
          rec = Survival.short_record (content t) (real_time_factors t)) /\
    (forall scan d files e items th c t,
        Tree.sound fs scan -> In d scan -> folder_is_dir d = true ->
        glob_json d = inr files -> In e files ->
        Survival.items_of (entry_load e) = inr items ->
        Forall (fun th => exists c, Survival.stripped_content th = inr c) items ->
        In th items ->
        Survival.stripped_content th = inr c ->
        PyStr.contains exploring c = false -> PyStr.contains "plan_" c = false ->
        thought_data th = inr t ->
        exists doc,
          Dict.lookup (entry_name e) (Outcome.files_in full (folder_name d)) = Some doc /\
          In (thought_dict t) (Outcome.thoughts_in doc) /\
          content t = c /\
          In (Survival.short_record c (real_time_factors t)) short).
Proof.
  destruct (run_collected fs now) as (c0 & dp & Hrun).
  do 3 eexists. split; [exact Hrun|]. split; [|split].
  - intros dir file doc out Hl Hout. rewrite files_in_full in Hl.
    destruct (Dict.lookup dir (fst (Outcome.collected fs))) as [docs|] eqn:Ed; [|discriminate].
    apply dict_lookup_in in Ed. apply dict_lookup_in in Hl.
    destruct (stored_thoughts fs dir file docs doc Ed Hl) as (pid & sorted & -> & Hall).
    rewrite thoughts_in_document in Hout. apply in_map_iff in Hout.
    destruct Hout as (t & <- & Ht). exists t. split; [apply Hall; exact Ht | reflexivity].
  - intros rec Hrec. apply shorts_of_in in Hrec.
    destruct Hrec as (dir & docs & file & doc & Hd & Hf & Hin).
    destruct (stored_thoughts fs dir file docs doc Hd Hf) as (pid & sorted & -> & Hall).
    rewrite shorts_of_plan_document in Hin. apply in_flat_map in Hin.
    destruct Hin as (t & Ht & Hin). destruct (Hall t Ht) as [Hfrom Hstrip].
    exists dir, file, t. split; [exact Hfrom|].
    destruct Hfrom as (_ & _ & _ & _ & _ & _ & _ & _ & _ & _ & _ & _ & _ & _ & _ & _ & Hx1 & Hx2 & _).
    rewrite short_of_kept in Hin.
    + destruct Hin as [<-|[]]. reflexivity.
    + exact Hstrip.
    + apply not_excluded_iff. now split.
  - intros scan d files e items th c t Hsound Hin Hdir Hg Hine Hitems Hall Hth Hc Hx1 Hx2 Htd.
    destruct (sound_directories fs scan Hsound) as (ds & Hds & Hperm & Hcol).
    destruct Hsound as (Hs & Hnd & Hfa).
    assert (Hd : In d (filter folder_is_dir scan)) by (apply filter_In; now split).
    assert (Hnf : NoDup (map entry_name files)).
    { rewrite Forall_forall in Hfa. destruct (Hfa d Hd) as (_ & files' & Hg' & Hnf).
      rewrite Hg in Hg'. now inversion Hg'. }
    assert (Hkept : Order.kept_of th = [t]).
    { apply kept_of_iff. exists c. split; [exact Hc|]. split; [|exact Htd].
      apply not_excluded_iff. now split. }
    destruct (plan_of_kept
                (path_child (path_child (plans_directory fs) (folder_name d)) (entry_name e))
                (entry_load e) items th t Hitems Hall Hth Hkept)
      as (pid & sorted & Hp & _ & Ht).
    pose proof (fold_add_document_lookup _ files e _ Hnf Hine Hp []) as Hl.
    fold (Outcome.dir_documents (path_child (plans_directory fs) (folder_name d)) files) in Hl.
    assert (Hagg : Dict.lookup (folder_name d) (fst (Outcome.collected fs))
                   = Some (Outcome.dir_documents
                             (path_child (plans_directory fs) (folder_name d)) files)).
    { rewrite Hcol. apply aggregate_lookup.
      - eapply Permutation_Forall; [exact Hperm|].
        eapply Forall_impl; [|exact Hfa]. intros d' (_ & files' & Hg' & _). eauto.
      - eapply Permutation_NoDup; [apply Permutation_map; exact Hperm | exact Hnd].
      - eapply Permutation_in; [exact Hperm | exact Hd].
      - exact Hg.
      - intros E. rewrite E in Hl. discriminate. }
    exists (plan_document pid
              (path_child (path_child (plans_directory fs) (folder_name d)) (entry_name e))
              sorted).
    pose proof (thought_data_content th t Htd) as Hct.
    assert (Hcc : content t = c) by congruence.
    split; [|split; [|split]].
    + rewrite files_in_full, Hagg. exact Hl.
    + rewrite thoughts_in_document. now apply in_map.
    + exact Hcc.
    + apply shorts_of_in.
      exists (folder_name d),
        (Outcome.dir_documents (path_child (plans_directory fs) (folder_name d)) files),
        (entry_name e),
        (plan_document pid
           (path_child (path_child (plans_directory fs) (folder_name d)) (entry_name e))
           sorted).
      split; [now apply dict_lookup_in|]. split; [now apply dict_lookup_in|].
      rewrite shorts_of_plan_document. apply in_flat_map. exists t. split; [exact Ht|].
      rewrite short_of_kept.
      * left. now rewrite Hcc.
      * rewrite Hcc. eapply stripped_content_stripped. exact Hc.
      * rewrite Hcc. apply not_excluded_iff. now split.
Qed.

(** C1 as stated. The rule as the specification states it (the
    stripped content equals the sentence, or holds ["plan_"]) is not
    the rule of the code: the observation of [Examples.exploring_tree]
    holds the sentence and more. The stated rule keeps it and its
    fields parse, yet both aggregates of the run are empty. *)
Lemma exclusion_as_stated_fails :
  Survival.stripped_content Examples.exploring_more
  = inr "Exploring system dynamics and adaptation patterns again" /\
  Survival.stated_exclusion "Exploring system dynamics and adaptation patterns again" = false /\
  thought_data Examples.exploring_more
  = inr {| timestamp := Datetime.make 2024 1 1 0 0 0 500000;
           content := "Exploring system dynamics and adaptation patterns again";
           real_time_factors := JList [JStr "a"];
           relevance_score := JFloat 0.5;
           confidence_score := JFloat 0.5 |} /\
  snd (run Examples.exploring_tree Examples.a_time)
  = inr (JDict [("plans", JDict []);
                ("metadata",
                 JDict [("total_directories", JInt 0); ("total_plans", JInt 0);
                        ("base_directory", JStr "/data/plans");
                        ("processed_at", JStr "2026-11-03T10:00:00")]);
                ("errors", JList [])],
         []).
Proof. repeat split; vm_compute; reflexivity. Qed.

Lemma exclusion_is_by_substring_witness :
  exists s full short,
    run (Examples.scenario Examples.a_root "p.json") Examples.a_time = (s, inr (full, short)) /\
    exists doc,
      Dict.lookup "p.json" (Outcome.files_in full "1") = Some doc /\
      In (thought_dict Examples.hello_data) (Outcome.thoughts_in doc) /\
      content Examples.hello_data = "hello" /\
      In (Survival.short_record "hello" (real_time_factors Examples.hello_data)) short.
Proof.
  destruct (exclusion_is_by_substring (Examples.scenario Examples.a_root "p.json") Examples.a_time)
    as (s & full & short & Hrun & _ & _ & Hin).
  exists s, full, short. split; [exact Hrun|].
  apply (Hin [{| folder_name := "1"; folder_is_dir := true;
                 folder_scan := inr [{| entry_name := "p.json";
                                        entry_load := inr (JDict [("thoughts",
                                           JList [Examples.hello; Examples.plan_x])]) |}] |}]
             {| folder_name := "1"; folder_is_dir := true;
                folder_scan := inr [{| entry_name := "p.json";
                                       entry_load := inr (JDict [("thoughts",
                                          JList [Examples.hello; Examples.plan_x])]) |}] |}
             [{| entry_name := "p.json";
                 entry_load := inr (JDict [("thoughts", JList [Examples.hello; Examples.plan_x])]) |}]
             {| entry_name := "p.json";
                entry_load := inr (JDict [("thoughts", JList [Examples.hello; Examples.plan_x])]) |}
             [Examples.hello; Examples.plan_x] Examples.hello "hello" Examples.hello_data).
  - split; [reflexivity|]. split.
    + simpl. constructor; [intros [] | constructor].
    + simpl. constructor; [|constructor]. split.
      * exists 1. vm_compute. reflexivity.
      * eexists. split; [vm_compute; reflexivity|].
        simpl. constructor; [intros [] | constructor].
  - left. reflexivity.
  - reflexivity.
  - vm_compute. reflexivity.
  - left. reflexivity.
  - reflexivity.
  - constructor; [eexists; vm_compute; reflexivity|].
    constructor; [eexists; vm_compute; reflexivity | constructor].
  - left. reflexivity.
  - vm_compute. reflexivity.
  - vm_compute. reflexivity.
  - vm_compute. reflexivity.
  - vm_compute. reflexivity.
Defined.

(** ** Counters *)

(** A dictionary is the list of its keys, each with what it reads. *)
Lemma dict_eta (d : list (string * Z)) :
  NoDup (Dict.keys d) -> d = map (fun k => (k, get0 k d)) (Dict.keys d).
Proof.
  intros Hnd. unfold Dict.keys. rewrite map_map.
  rewrite <- (map_id d) at 1. apply map_ext_in.
  intros [k v] Hin. simpl. unfold get0.
  now rewrite (dict_in_nodup_lookup k v d Hnd Hin).
Qed.

Lemma incr_get0_eq (k : string) (c : list (string * Z)) :
  get0 k (ContentAnalyzer.incr k c) = get0 k c + 1.
Proof.
  unfold ContentAnalyzer.incr, get0 at 1. now rewrite dict_lookup_set_eq.
Qed.

Lemma incr_get0_ne (k k' : string) (c : list (string * Z)) :
  k <> k' -> get0 k' (ContentAnalyzer.incr k c) = get0 k' c.
Proof.
  intros H. unfold ContentAnalyzer.incr, get0. now rewrite dict_lookup_set_ne.
Qed.

Lemma count_all_get0 (k : string) (ks : list string) :
  forall c, get0 k (count_all ks c) = get0 k c + occurrences ks k.
Proof.
  unfold count_all, occurrences.
  induction ks as [|k0 ks IH]; intros c; simpl; [lia|].
  rewrite IH. destruct (String.string_dec k0 k) as [->|Hne].
  - rewrite incr_get0_eq. lia.
  - rewrite incr_get0_ne by exact Hne. lia.
Qed.

Lemma count_all_app (a b : list string) (c : list (string * Z)) :
  count_all (a ++ b) c = count_all b (count_all a c).
Proof. unfold count_all. apply fold_left_app. Qed.

Lemma first_seen_in (k : string) (ks : list string) :
  In k (first_seen ks) <-> In k ks.
Proof.
  induction ks as [|k0 ks IH]; simpl; [tauto|].
  rewrite filter_In, IH. destruct (String.eqb k k0) eqn:E.
  - apply String.eqb_eq in E. subst k0. simpl. intuition.
  - apply String.eqb_neq in E. simpl. intuition.
Qed.

Lemma first_seen_nodup (ks : list string) : NoDup (first_seen ks).
Proof.
  induction ks as [|k ks IH]; simpl; constructor.
  - rewrite filter_In. intros [_ H]. now rewrite String.eqb_refl in H.
  - now apply NoDup_filter.
Qed.

Lemma count_all_keys (ks : list string) :
  forall c,
  Dict.keys (count_all ks c)
  = (Dict.keys c
     ++ filter (fun x => negb (existsb (String.eqb x) (Dict.keys c))) (first_seen ks))%list.
Proof.
  unfold count_all.
  induction ks as [|k ks IH]; intros c; simpl; [now rewrite app_nil_r|].
  rewrite IH. unfold ContentAnalyzer.incr at 1 2. rewrite dict_keys_set.
  rewrite filter_filter.
  destruct (existsb (String.eqb k) (Dict.keys c)) eqn:E; simpl.
  - f_equal. apply filter_ext_in. intros x _.
    destruct (String.eqb x k) eqn:Ex; simpl; [|reflexivity].
    apply String.eqb_eq in Ex. subst x. now rewrite E.
  - rewrite <- app_assoc. simpl. do 2 f_equal. apply filter_ext_in. intros x _.
    rewrite existsb_app. simpl. rewrite orb_false_r, negb_orb.
    now rewrite andb_comm.
Qed.

(** The counter after a pass: the keys in the order they were first
    met, each with the number of its occurrences. *)
Lemma count_all_from_empty (ks : list string) :
  count_all ks [] = map (fun k => (k, occurrences ks k)) (first_seen ks).
Proof.
  assert (Hk : Dict.keys (count_all ks []) = first_seen ks).
  { rewrite count_all_keys. simpl.
    induction (first_seen ks) as [|x l IH]; simpl; [reflexivity | now rewrite IH]. }
  rewrite (dict_eta (count_all ks [])) at 1.
  - rewrite Hk. apply map_ext. intros k. now rewrite count_all_get0.
  - rewrite Hk. apply first_seen_nodup.
Qed.

Lemma keys_of_counts (f : string -> Z) (l : list string) :
  Dict.keys (map (fun k => (k, f k)) l) = l.
Proof. unfold Dict.keys. rewrite map_map. simpl. apply map_id. Qed.

Lemma keys_with_count (f : string -> Z) (n : Z) (l : list string) :
  Dict.keys (filter (fun kv => snd kv =? n) (map (fun k => (k, f k)) l))
  = filter (fun k => f k =? n) l.
Proof.
  unfold Dict.keys. induction l as [|k l IH]; [reflexivity|].
  cbn [map filter snd]. destruct (f k =? n); cbn [map fst]; now rewrite IH.
Qed.

(** The ranking of the counter of a pass reports the keys of the pass. *)
Lemma ranked_reports (ks : list string) :
  reports ks (ContentAnalyzer.ranked (count_all ks [])).
Proof.
  pose proof (count_all_from_empty ks) as Hc.
  remember (count_all ks []) as c eqn:Ec. clear Ec.
  assert (Hkeys : Dict.keys c = first_seen ks) by (rewrite Hc; apply keys_of_counts).
  assert (Hnd : NoDup (Dict.keys c)) by (rewrite Hkeys; apply first_seen_nodup).
  unfold ContentAnalyzer.ranked.
  set (sorted := sort_by (fun a b : Z => b <? a) snd c).
  assert (Hp : Permutation c sorted) by apply sort_by_perm.
  assert (Hnd' : NoDup (Dict.keys sorted)).
  { eapply Permutation_NoDup; [|exact Hnd]. unfold Dict.keys. now apply Permutation_map. }
  rewrite dict_of_pairs_nodup by exact Hnd'.
  unfold reports. split; [|split; [|split; [|split]]].
  - intros k Hk. rewrite (dict_lookup_perm k c sorted Hnd Hp).
    apply dict_in_nodup_lookup; [exact Hnd|]. rewrite Hc.
    apply in_map_iff. exists k. split; [reflexivity | now apply first_seen_in].
  - intros k Hk. rewrite (dict_lookup_perm k c sorted Hnd Hp).
    apply dict_lookup_none. rewrite Hkeys. now rewrite first_seen_in.
  - exact Hnd'.
  - eapply sorted_weaken; [|apply (sort_by_sorted (fun a b : Z => b <? a) snd)].
    + intros a b H. simpl in H. apply Z.ltb_ge in H. exact H.
    + intros a b H. apply Z.ltb_lt in H. apply Z.ltb_ge. lia.
  - intros n. unfold with_count, sorted.
    rewrite sort_by_filter.
    + rewrite Hc. apply keys_with_count.
    + intros x y Hx Hlt. apply Z.eqb_eq in Hx. apply Z.ltb_lt in Hlt.
      apply Z.eqb_neq. lia.
Qed.

(** ** The Frequency Report *)

Lemma factors_loop (fs : list string) :
  forall s : ContentAnalyzer.state,
  for_each (map JStr fs)
    (fun factor => f <- lift (Py.strip factor) ;; ContentAnalyzer.count_factor f) s
  = ({| ContentAnalyzer.console := ContentAnalyzer.console s;
        ContentAnalyzer.content_counter := ContentAnalyzer.content_counter s;
        ContentAnalyzer.factor_counter :=
          count_all (map PyStr.strip fs) (ContentAnalyzer.factor_counter s) |}, inr tt).
Proof.
  induction fs as [|f fs IH]; intros s; simpl.
  - unfold ret. now destruct s.
  - unfold bind at 1. unfold bind at 1. unfold lift at 1. cbn [Py.strip].
    unfold ContentAnalyzer.count_factor at 1. unfold modify at 1.
    rewrite IH. reflexivity.
Qed.

Lemma thoughts_loop (data : list json) (recs : list (string * list string)) :
  Forall2 is_record data recs ->
  forall s : ContentAnalyzer.state,
  for_each data
    (fun thought =>
       c <- lift (c <~ Py.getitem thought "c" ;; Py.strip c) ;;
       ContentAnalyzer.count_content c ;;
       factors <- lift (r <~ Py.getitem thought "r" ;; Py.iter r) ;;
       for_each factors (fun factor =>
         f <- lift (Py.strip factor) ;; ContentAnalyzer.count_factor f)) s
  = ({| ContentAnalyzer.console := ContentAnalyzer.console s;
        ContentAnalyzer.content_counter :=
          count_all (contents recs) (ContentAnalyzer.content_counter s);
        ContentAnalyzer.factor_counter :=
          count_all (factors recs) (ContentAnalyzer.factor_counter s) |}, inr tt).
Proof.
  induction 1 as [|v r data recs [Hc Hr] _ IH]; intros s.
  - simpl. unfold ret. now destruct s.
  - cbn [for_each]. unfold bind at 1. unfold bind at 1. unfold lift at 1.
    rewrite Hc. cbn [rbind Py.strip].
    unfold bind at 1. unfold ContentAnalyzer.count_content at 1. unfold modify at 1.
    unfold bind at 1. unfold lift at 1. rewrite Hr. cbn [rbind Py.iter].
    rewrite factors_loop. rewrite IH.
    cbn [ContentAnalyzer.console ContentAnalyzer.content_counter ContentAnalyzer.factor_counter].
    unfold contents, factors. cbn [map flat_map]. rewrite count_all_app. reflexivity.
Qed.


(** ** What [strip] removes *)

Lemma is_space_blank (c : ascii) : PyStr.is_space c = true <-> Counting.blank c.
Proof.
  unfold PyStr.is_space, Counting.blank, nat_of_ascii. cbv zeta.
  set (n := N_of_ascii c).
  rewrite !orb_true_iff, !andb_true_iff, !N.leb_le, !N.eqb_eq. cbn [In].
  lia.
Qed.

Lemma lstrip_split (s : string) :
  exists a, s = a ++ PyStr.lstrip s /\ Counting.all_blank a.
Proof.
  induction s as [|c t (a & Ha & Hb)]; [now exists EmptyString|].
  cbn [PyStr.lstrip]. destruct (PyStr.is_space c) eqn:E.
  - exists (String c a). cbn [append Counting.all_blank]. rewrite <- Ha.
    split; [reflexivity|]. split; [now apply is_space_blank | exact Hb].
  - now exists EmptyString.
Qed.

Lemma rstrip_split (s : string) :
  exists b,
    s = PyStr.rstrip s ++ b /\ Counting.all_blank b /\
    forall t c, PyStr.rstrip s = t ++ String c EmptyString -> ~ Counting.blank c.
Proof.
  induction s as [|c t (b & Hb & Hall & Hlast)].
  - exists EmptyString. split; [reflexivity|]. split; [exact Logic.I|].
    intros [|x t] c H; discriminate.
  - cbn [PyStr.rstrip]. destruct (PyStr.rstrip t) as [|d t'] eqn:Er.
    + cbn [append] in Hb. subst b. destruct (PyStr.is_space c) eqn:E.
      * exists (String c t). split; [reflexivity|].
        split; [split; [now apply is_space_blank | exact Hall]|].
        intros [|x u] c' H; discriminate.
      * exists t. split; [reflexivity|]. split; [exact Hall|].
        intros [|x u] c' H; cbn [append] in H.
        -- inversion H. subst c'. intros Hc. apply is_space_blank in Hc. congruence.
        -- inversion H. destruct u; discriminate.
    + exists b. split; [cbn [append]; f_equal; exact Hb|]. split; [exact Hall|].
      intros [|x u] c' H; cbn [append] in H; [discriminate|].
      inversion H. now apply (Hlast u c').
Qed.

(** [s.strip()] is [s] without the blanks at its two ends. *)
Lemma strip_trimmed (s : string) : Counting.trimmed s (PyStr.strip s).
Proof.
  unfold PyStr.strip. destruct (lstrip_split s) as (a & Ha & Hall).
  destruct (rstrip_split (PyStr.lstrip s)) as (b & Hb & Hallb & Hlast).
  exists a, b. split; [now rewrite <- Hb|]. split; [exact Hall|]. split; [exact Hallb|].
  split; [|exact Hlast].
  intros c t Hk Hc. apply is_space_blank in Hc.
  destruct (lstrip_head s) as [E|(c0 & t0 & E & Hc0)].
  - rewrite E in Hk. discriminate.
  - rewrite E in Hk. destruct (rstrip_keeps_head c0 t0 Hc0) as [t' E'].
    rewrite E' in Hk. inversion Hk. congruence.
Qed.

Lemma bare_of_stripped (k : string) : PyStr.strip k = k -> Counting.bare k.
Proof.
  intros H. destruct (strip_trimmed k) as (a & b & _ & _ & _ & Hbare).
  now rewrite H in Hbare.
Qed.

(** ** One trimmed form *)

Lemma all_blank_app (a b : string) :
  Counting.all_blank (a ++ b) <-> Counting.all_blank a /\ Counting.all_blank b.
Proof.
  induction a as [|c a IH]; cbn [append Counting.all_blank]; [tauto|].
  rewrite IH. tauto.
Qed.

Lemma blank_prefix_unique (a1 a2 x1 x2 : string) (c1 c2 : ascii) :
  a1 ++ String c1 x1 = a2 ++ String c2 x2 ->
  Counting.all_blank a1 -> Counting.all_blank a2 ->
  ~ Counting.blank c1 -> ~ Counting.blank c2 ->
  a1 = a2 /\ String c1 x1 = String c2 x2.
Proof.
  revert a2. induction a1 as [|d a1 IH]; intros [|d2 a2] H H1 H2 N1 N2;
    cbn [append Counting.all_blank] in *.
  - now split.
  - injection H as Hd Ht. subst. tauto.
  - injection H as Hd Ht. subst. tauto.
  - injection H as Hd Ht. subst d2.
    destruct (IH a2 Ht (proj2 H1) (proj2 H2) N1 N2) as [-> E]. now split.
Qed.

Lemma blank_suffix_unique (k1 : string) :
  forall k2 b1 b2,
  k1 ++ b1 = k2 ++ b2 ->
  Counting.all_blank b1 -> Counting.all_blank b2 ->
  (forall t c, k1 = t ++ String c EmptyString -> ~ Counting.blank c) ->
  (forall t c, k2 = t ++ String c EmptyString -> ~ Counting.blank c) ->
  k1 = k2.
Proof.
  assert (Hlast : forall k, k <> EmptyString ->
                    exists t c, k = t ++ String c EmptyString).
  { induction k as [|c k IH]; [congruence|]. intros _.
    destruct k as [|d k]; [now exists EmptyString, c|].
    destruct IH as (t & c' & E); [discriminate|]. exists (String c t), c'.
    cbn [append]. now rewrite <- E. }
  assert (Hend : forall k b, Counting.all_blank b ->
                   (forall t c, k = t ++ String c EmptyString -> ~ Counting.blank c) ->
                   forall b', b' = k ++ b -> Counting.all_blank b' -> k = EmptyString).
  { intros k b Hb Hk b' -> Hall. apply all_blank_app in Hall. destruct Hall as [Hall _].
    destruct k as [|c k]; [reflexivity|]. exfalso.
    destruct (Hlast (String c k)) as (t & c' & E); [discriminate|].
    apply (Hk t c' E). rewrite E in Hall. apply all_blank_app in Hall.
    destruct Hall as [_ [Hc' _]]. exact Hc'. }
  induction k1 as [|c k1 IH]; intros k2 b1 b2 H H1 H2 L1 L2.
  - cbn [append] in H. symmetry. now apply (Hend k2 b2 H2 L2 b1).
  - destruct k2 as [|c2 k2].
    + cbn [append] in H. now apply (Hend (String c k1) b1 H1 L1 b2).
    + cbn [append] in H. inversion H. subst c2. f_equal.
      apply (IH k2 b1 b2); try assumption.
      * intros t c' E. apply (L1 (String c t) c'). cbn [append]. now rewrite E.
      * intros t c' E. apply (L2 (String c t) c'). cbn [append]. now rewrite E.
Qed.

(** A string has one trimmed form. *)
Lemma trimmed_unique (s k1 k2 : string) :
  Counting.trimmed s k1 -> Counting.trimmed s k2 -> k1 = k2.
Proof.
  intros (a1 & b1 & E1 & A1 & B1 & H1 & L1) (a2 & b2 & E2 & A2 & B2 & H2 & L2).
  destruct k1 as [|c1 k1], k2 as [|c2 k2]; [reflexivity | | |].
  - exfalso. apply (H2 c2 k2 eq_refl). cbn [append] in E1. rewrite E1 in E2.
    assert (Hall : Counting.all_blank (a1 ++ b1)) by (apply all_blank_app; now split).
    rewrite E2 in Hall. apply all_blank_app in Hall. destruct Hall as [_ Hall].
    cbn [append Counting.all_blank] in Hall. tauto.
  - exfalso. apply (H1 c1 k1 eq_refl). cbn [append] in E2. rewrite E2 in E1.
    assert (Hall : Counting.all_blank (a2 ++ b2)) by (apply all_blank_app; now split).
    rewrite E1 in Hall. apply all_blank_app in Hall. destruct Hall as [_ Hall].
    cbn [append Counting.all_blank] in Hall. tauto.
  - rewrite E1 in E2. cbn [append] in E2.
    destruct (blank_prefix_unique a1 a2 (k1 ++ b1) (k2 ++ b2) c1 c2 E2 A1 A2
                (H1 c1 k1 eq_refl) (H2 c2 k2 eq_refl)) as [_ E].
    apply (blank_suffix_unique (String c1 k1) (String c2 k2) b1 b2); assumption.
Qed.

(** C7. On a Short Aggregate, the Analyzer ends normally and writes a
    JSON object with two mappings. The keys of the first are the
    contents of the records without the blanks at their two ends, each
    with the number of records that carry it; the keys of the second
    are the factors without the blanks at their two ends, each with the
    number of its occurrences in the factor lists of all records. In
    both the counts do not increase along the mapping, and keys of equal
    count are in the order the counting pass first met them. *)
Theorem frequency_report (data : list json) (recs : list (string * list string)) :
  Forall2 is_record data recs ->
  exists s content_counts factor_counts keys factor_keys,
    ContentAnalyzer.run (inr (JList data))
    = (s, inr (JDict [("content_counts",
                       JDict (map (fun kv => (fst kv, JInt (snd kv))) content_counts));
                      ("factor_counts",
                       JDict (map (fun kv => (fst kv, JInt (snd kv))) factor_counts))])) /\
    Forall2 (fun r k => Counting.trimmed (fst r) k) recs keys /\
    Forall2 (fun r ks => Forall2 Counting.trimmed (snd r) ks) recs factor_keys /\
    reports keys content_counts /\
    reports (concat factor_keys) factor_counts.
Proof.
  intros Hrecs. unfold ContentAnalyzer.run, ContentAnalyzer.analyze_file.
  unfold bind at 1. unfold bind at 1. unfold ContentAnalyzer.echo at 1. unfold modify at 1.
  unfold bind at 1. unfold lift at 1. unfold bind at 1. unfold lift at 1. cbn [Py.iter].
  rewrite (thoughts_loop data recs Hrecs).
  unfold ContentAnalyzer.save_results. unfold bind at 1. unfold get at 1. cbv zeta.
  cbn [ContentAnalyzer.content_counter ContentAnalyzer.factor_counter ContentAnalyzer.init].
  unfold bind, ContentAnalyzer.echo, modify, ret.
  eexists _, _, _, (contents recs), (map (fun r => map PyStr.strip (snd r)) recs).
  split; [reflexivity|]. split; [|split; [|split]].
  - clear. unfold contents. induction recs as [|r recs IH]; constructor;
      [apply strip_trimmed | exact IH].
  - clear. induction recs as [|r recs IH]; constructor; [|exact IH].
    induction (snd r) as [|f fs IHf]; constructor; [apply strip_trimmed | exact IHf].
  - apply ranked_reports.
  - replace (concat (map (fun r => map PyStr.strip (snd r)) recs)) with (factors recs)
      by (unfold factors; apply flat_map_concat_map).
    apply ranked_reports.
Qed.

Lemma frequency_report_witness :
  exists s content_counts factor_counts keys factor_keys,
    ContentAnalyzer.run
      (inr (JList [JDict [("c", JStr "hello"); ("r", JList (map JStr ["a"; "b"]))];
                   JDict [("c", JStr " x"); ("r", JList (map JStr ["b"; "b "]))];
                   JDict [("c", JStr "x "); ("r", JList (map JStr []))]]))
    = (s, inr (JDict [("content_counts",
                       JDict (map (fun kv => (fst kv, JInt (snd kv))) content_counts));
                      ("factor_counts",
                       JDict (map (fun kv => (fst kv, JInt (snd kv))) factor_counts))])) /\
    Forall2 (fun r k => Counting.trimmed (fst r) k)
            [("hello", ["a"; "b"]); (" x", ["b"; "b "]); ("x ", [])] keys /\
    Forall2 (fun r ks => Forall2 Counting.trimmed (snd r) ks)
            [("hello", ["a"; "b"]); (" x", ["b"; "b "]); ("x ", [])] factor_keys /\
    reports keys content_counts /\
    reports (concat factor_keys) factor_counts.
Proof.
  apply (frequency_report _ [("hello", ["a"; "b"]); (" x", ["b"; "b "]); ("x ", [])]).
  repeat constructor.
Defined.

(** ** The scenario of the specification *)

(** C8. Directory [1/] with one file, whatever its name ending in
    [.json], holding the observation [" hello "] with a timestamp of
    nanosecond precision and the observation ["plan_x"]: the Full
    Aggregate has under that directory and file one Plan Document with
    the single observation ["hello"], the Short Aggregate is the one
    record of ["hello"] with its two factors, and the Analyzer run on it
    counts ["hello"] once and each of ["a"] and ["b"] once. *)
Theorem scenario_of_the_specification (root : Path) (file : string) (now : Datetime.t) :
  PyStr.endswith ".json" file = true ->
  exists s full,
    let short := [JDict [("c", JStr "hello"); ("r", JList [JStr "a"; JStr "b"])]] in
    run (Examples.scenario root file) now = (s, inr (full, short)) /\
    Py.getitem full "plans"
    = inr (JDict [("1",
             JDict [(file,
               JDict [("plan_id", JNull); ("folder", JStr "1"); ("file_name", JStr file);
                      ("thoughts",
                       JList [JDict [("timestamp", JStr "2024-01-01 00:00:00.123456");
                                     ("content", JStr "hello");
                                     ("real_time_factors", JList [JStr "a"; JStr "b"]);
                                     ("relevance_score", JFloat 0.5);
                                     ("confidence_score", JFloat 0x1.ccccccccccccdp-1)]])])])]) /\
    snd (ContentAnalyzer.run (inr (JList short)))
    = inr (JDict [("content_counts", JDict [("hello", JInt 1)]);
                  ("factor_counts", JDict [("a", JInt 1); ("b", JInt 1)])]).
Proof.
  intros Hjson.
  destruct (run_collected (Examples.scenario root file) now) as (c & dp & Hrun).
  assert (Hc : Outcome.collected (Examples.scenario root file)
               = ([("1", [(file, plan_document JNull (file :: "1" :: root) [Examples.hello_data])])],
                  [])).
  { unfold Outcome.collected.
    replace (Outcome.directories (Examples.scenario root file))
      with (@inr exn _ [{| folder_name := "1"; folder_is_dir := true;
                           folder_scan := inr [{| entry_name := file;
                                                  entry_load := inr (JDict [("thoughts",
                                                     JList [Examples.hello; Examples.plan_x])]) |}] |}])
      by (vm_compute; reflexivity).
    cbn [Outcome.aggregate]. unfold glob_json.
    cbn [folder_scan rbind filter entry_name]. rewrite Hjson.
    unfold Outcome.add_directory, Outcome.dir_documents.
    cbn [fold_left folder_name entry_name entry_load Examples.scenario Examples.one_file
         plans_directory path_child].
    unfold Outcome.add_document. cbn [entry_name entry_load path_child].
    replace (Outcome.plan_of (file :: "1" :: root)
               (inr (JDict [("thoughts", JList [Examples.hello; Examples.plan_x])])))
      with (Some (plan_document JNull (file :: "1" :: root) [Examples.hello_data]))
      by (vm_compute; reflexivity).
    reflexivity. }
  rewrite Hc in Hrun. cbn [fst snd] in Hrun.
  do 2 eexists. cbv zeta. split; [|split].
  - rewrite Hrun. f_equal.
  - reflexivity.
  - vm_compute. reflexivity.
Qed.

Lemma scenario_of_the_specification_witness :
  exists s full,
    let short := [JDict [("c", JStr "hello"); ("r", JList [JStr "a"; JStr "b"])]] in
    run (Examples.scenario Examples.a_root "p.json") Examples.a_time = (s, inr (full, short)) /\
    Py.getitem full "plans"
    = inr (JDict [("1",
             JDict [("p.json",
               JDict [("plan_id", JNull); ("folder", JStr "1"); ("file_name", JStr "p.json");
                      ("thoughts",
                       JList [JDict [("timestamp", JStr "2024-01-01 00:00:00.123456");
                                     ("content", JStr "hello");
                                     ("real_time_factors", JList [JStr "a"; JStr "b"]);
                                     ("relevance_score", JFloat 0.5);
                                     ("confidence_score", JFloat 0x1.ccccccccccccdp-1)]])])])]) /\
    snd (ContentAnalyzer.run (inr (JList short)))
    = inr (JDict [("content_counts", JDict [("hello", JInt 1)]);
                  ("factor_counts", JDict [("a", JInt 1); ("b", JInt 1)])]).
Proof.
  apply (scenario_of_the_specification Examples.a_root "p.json" Examples.a_time).
  vm_compute. reflexivity.
Defined.

(** ** The fields of a stored Plan Document *)

(** A Plan Document is stored under the names it carries: its [folder]
    is the key of its directory, its [file_name] the key it is stored
    under, and its [plan_id] the [id] of the file it was read from, or
    [None] when the file has none. *)
Theorem stored_document_fields (fs : tree) (now : Datetime.t) :
  exists s full short,
    run fs now = (s, inr (full, short)) /\
    forall dir file doc,
      Dict.lookup file (Outcome.files_in full dir) = Some doc ->
      Py.getitem doc "folder" = inr (JStr dir) /\
      Py.getitem doc "file_name" = inr (JStr file) /\
      exists scan d files e plan_data,
        root_scan fs = inr scan /\ In d scan /\ folder_is_dir d = true /\
        folder_name d = dir /\ glob_json d = inr files /\
        In e files /\ entry_name e = file /\
        entry_load e = inr plan_data /\
        Py.getitem doc "plan_id" = Py.get plan_data "id" JNull.
Proof.
  destruct (run_collected fs now) as (c & dp & Hrun).
  do 3 eexists. split; [exact Hrun|].
  intros dir file doc Hl. rewrite files_in_full in Hl.
  destruct (Dict.lookup dir (fst (Outcome.collected fs))) as [docs|] eqn:Ed; [|discriminate].
  apply dict_lookup_in in Ed. apply dict_lookup_in in Hl.
  destruct (collected_document fs dir file docs doc Ed Hl)
    as (scan & d & files & e & Hs & Hin & Hdir & Hn & Hg & Hine & Hne & Hp).
  apply plan_of_some in Hp.
  destruct Hp as (pd & items & kept & pid & Hload & _ & _ & _ & Hid & ->).
  split; [reflexivity|]. split; [reflexivity|].
  exists scan, d, files, e, pd. repeat (split; [assumption|]).
  rewrite Hid. reflexivity.
Qed.

(** ** The Short Aggregate as a projection of the Full Aggregate *)

Lemma flat_map_singleton {A B} (f : A -> list B) (g : A -> B) (l : list A) :
  (forall x, In x l -> f x = [g x]) -> flat_map f l = map g l.
Proof.
  induction l as [|x l IH]; intros H; simpl; [reflexivity|].
  rewrite H by now left. simpl. f_equal. apply IH. intros y Hy. apply H. now right.
Qed.

Lemma flat_map_ext_in {A B} (f g : A -> list B) (l : list A) :
  (forall x, In x l -> f x = g x) -> flat_map f l = flat_map g l.
Proof.
  induction l as [|x l IH]; intros H; simpl; [reflexivity|].
  rewrite H by now left. f_equal. apply IH. intros y Hy. apply H. now right.
Qed.

Lemma map_flat_map {A B C} (f : B -> C) (g : A -> list B) (l : list A) :
  map f (flat_map g l) = flat_map (fun x => map f (g x)) l.
Proof.
  induction l as [|x l IH]; simpl; [reflexivity|]. now rewrite map_app, IH.
Qed.

Lemma flat_map_flat_map {A B C} (g : B -> list C) (h : A -> list B) (l : list A) :
  flat_map g (flat_map h l) = flat_map (fun x => flat_map g (h x)) l.
Proof.
  induction l as [|x l IH]; simpl; [reflexivity|]. now rewrite flat_map_app, IH.
Qed.

Lemma documents_in_full (root : Path) (now : Datetime.t) plans (errs : list string) :
  Report.documents_in (Aggregate.full root now plans errs)
  = flat_map (fun kv => Dict.values (snd kv)) plans.
Proof.
  unfold Report.documents_in. rewrite plans_in_full, flat_map_of_map. reflexivity.
Qed.

(** The second exclusion test never fires on what the first let
    through: the Short Aggregate has one record for every observation
    of the Full Aggregate, in the order of its directories, files and
    observations, with the content and the factors unchanged. *)
Theorem short_aggregate_is_a_projection (fs : tree) (now : Datetime.t) :
  exists s full short,
    run fs now = (s, inr (full, short)) /\
    short = map Report.record_of (flat_map Outcome.thoughts_in (Report.documents_in full)).
Proof.
  destruct (run_collected fs now) as (c & dp & Hrun).
  do 3 eexists. split; [exact Hrun|].
  rewrite documents_in_full. unfold Outcome.shorts_of.
  rewrite flat_map_flat_map, map_flat_map.
  unfold Dict.values at 2. rewrite flat_map_of_map.
  apply flat_map_ext_in. intros [dir docs] Hd. cbn [snd].
  rewrite map_flat_map. unfold Dict.values. rewrite !flat_map_of_map.
  apply flat_map_ext_in. intros [file doc] Hf. cbn [snd].
  destruct (stored_thoughts fs dir file docs doc Hd Hf) as (pid & sorted & -> & Hall).
  rewrite shorts_of_plan_document, thoughts_in_document, map_map.
  apply flat_map_singleton. intros t Ht. destruct (Hall t Ht) as [Hfrom Hstrip].
  destruct Hfrom as (_ & _ & _ & _ & _ & _ & _ & _ & _ & _ & _ & _ & _ & _ & _ & _ & Hx1 & Hx2 & _).
  rewrite short_of_kept; [reflexivity | exact Hstrip | apply not_excluded_iff; now split].
Qed.

(** ** What [parse_single_plan] prints *)

Lemma process_thought_console (p : Path) (th : json) (ths : list ThoughtData)
    (out : list string) :
  (exists c, Survival.stripped_content th = inr c) ->
  process_thought p th ths out = ((out ++ Report.complaint p th)%list, Outcome.keep th ths).
Proof.
  intros [c Hc]. unfold process_thought, Outcome.keep, Outcome.verdict, Report.complaint.
  unfold Survival.stripped_content in *.
  unfold bind at 1. unfold lift at 1. rewrite Hc. cbn [rbind].
  destruct (should_exclude_content c).
  - unfold ret. now rewrite app_nil_r.
  - unfold try_except, bind at 1. unfold lift at 1.
    destruct (thought_data th) as [e|t].
    + reflexivity.
    + unfold ret. cbn [rbind]. now rewrite app_nil_r.
Qed.

Lemma fold_process_thought_console (p : Path) (items : list json) :
  Forall (fun th => exists c, Survival.stripped_content th = inr c) items ->
  forall (ths : list ThoughtData) (out : list string),
  fold_m (process_thought p) items ths out
  = ((out ++ flat_map (Report.complaint p) items)%list, rfold Outcome.keep items ths).
Proof.
  induction 1 as [|th items Hth _ IH]; intros ths out.
  - simpl. unfold ret. now rewrite app_nil_r.
  - cbn [fold_m flat_map rfold]. unfold bind.
    rewrite (process_thought_console p th ths out Hth).
    destruct (Outcome.keep th ths) as [e|ths'] eqn:Ek.
    + exfalso. destruct Hth as [c Hc]. unfold Outcome.keep, Outcome.verdict in Ek.
      unfold Survival.stripped_content in Hc. rewrite Hc in Ek. cbn [rbind] in Ek.
      destruct (should_exclude_content c); [discriminate|].
      destruct (thought_data th); discriminate.
    + cbn [rbind]. rewrite IH. now rewrite app_assoc.
Qed.

(** When a file loads and the content of each of its observations can
    be read, [parse_single_plan] prints one line for every observation
    that the inner [try] gives up, in the order of the file, and nothing
    else: observations that are kept or excluded are silent, and no
    line about the file is printed. *)
Theorem parse_single_plan_console (p : Path) (loaded : result json) (items : list json)
    (out : list string) :
  Survival.items_of loaded = inr items ->
  Forall (fun th => exists c, Survival.stripped_content th = inr c) items ->
  parse_single_plan p loaded out
  = ((out ++ flat_map (Report.complaint p) items)%list, inr (Outcome.plan_of p loaded)).
Proof.
  unfold Survival.items_of, parse_single_plan, Outcome.plan_of, Outcome.plan_result,
    Outcome.survivors, Outcome.sorted_thoughts.
  destruct loaded as [e|plan_data]; [discriminate|]. cbn [rbind].
  destruct (Py.get plan_data "thoughts" (JList [])) as [e|ths] eqn:Eg; [discriminate|].
  cbn [rbind]. intros Hi Hall.
  unfold try_except, bind at 1. unfold lift at 1.
  unfold bind at 1. unfold lift at 1. rewrite Eg. cbn [rbind]. rewrite Hi.
  unfold bind at 1. rewrite (fold_process_thought_console p items Hall [] out).
  destruct (rfold Outcome.keep items []) as [e|kept] eqn:Ek.
  { exfalso. pose proof (survivors_total items Hall) as Hs.
    unfold Outcome.survivors in Hs. congruence. }
  cbn [rbind]. rewrite ?Ek. cbn [rbind].
  destruct (sort_by Datetime.ltb timestamp kept) as [|t ts]; [unfold ret; reflexivity|].
  destruct (get_of_dict plan_data "thoughts" "id" (JList []) JNull ths Eg) as [pid Hpid].
  unfold bind, lift, ret. rewrite Hpid. reflexivity.
Qed.

Lemma parse_single_plan_console_witness :
  parse_single_plan ["f.json"; "1"; "plans"; "data"] (inr Examples.file_no_timestamp) []
  = (([] ++ flat_map (Report.complaint ["f.json"; "1"; "plans"; "data"])
              [Examples.no_timestamp; Examples.sound])%list,
     inr (Outcome.plan_of ["f.json"; "1"; "plans"; "data"] (inr Examples.file_no_timestamp))).
Proof.
  apply (parse_single_plan_console ["f.json"; "1"; "plans"; "data"]
           (inr Examples.file_no_timestamp) [Examples.no_timestamp; Examples.sound] []).
  - reflexivity.
  - constructor; [eexists; vm_compute; reflexivity|].
    constructor; [eexists; vm_compute; reflexivity | constructor].
Defined.

(** ** Exclusion as containment *)

Lemma prefix_iff (n s : string) :
  String.prefix n s = true <-> exists b, s = n ++ b.
Proof.
  revert s. induction n as [|c n IH]; intros s.
  - split; [intros _; now exists s | intros _; now destruct s].
  - destruct s as [|d s]; simpl.
    + split; [discriminate | intros [b H]; discriminate].
    + destruct (ascii_dec c d) as [->|Hne].
      * rewrite IH. split; intros [b H]; exists b; [now rewrite H | now inversion H].
      * split; [discriminate | intros [b H]; inversion H; congruence].
Qed.

(** [needle in hay] holds exactly when [hay] is [needle] with something
    before and something after. *)
Lemma contains_iff (n s : string) :
  PyStr.contains n s = true <-> exists a b, s = a ++ n ++ b.
Proof.
  induction s as [|d s IH].
  - change (PyStr.contains n EmptyString) with (String.prefix n EmptyString || false).
    rewrite orb_false_r, prefix_iff. split.
    + intros [b H]. exists EmptyString, b. exact H.
    + intros (a & b & H). destruct a as [|x a]; [now exists b | discriminate].
  - change (PyStr.contains n (String d s))
      with (String.prefix n (String d s) || PyStr.contains n s).
    rewrite orb_true_iff, prefix_iff, IH. split.
    + intros [[b H]|(a & b & H)].
      * exists EmptyString, b. exact H.
      * exists (String d a), b. simpl. now rewrite H.
    + intros (a & b & H). destruct a as [|x a].
      * left. now exists b.
      * right. exists a, b. simpl in H. now inversion H.
Qed.

(** A content is excluded exactly when the excluded sentence or
    ["plan_"] stands somewhere inside it: at the start, at the end or in
    the middle, with any text around. *)
Theorem should_exclude_content_substring (c : string) :
  should_exclude_content c = true <->
  exists a b, c = a ++ exploring ++ b \/ c = a ++ "plan_" ++ b.
Proof.
  rewrite should_exclude_content_iff, !contains_iff. split.
  - intros [(a & b & H)|(a & b & H)]; exists a, b; [now left | now right].
  - intros (a & b & [H|H]); [left | right]; now exists a, b.
Qed.

(** ** Every pair of a Plan Document is in order *)

Lemma lex_ltb_cotrans (a : list Z) :
  forall c b, Datetime.lex_ltb a c = true ->
              Datetime.lex_ltb a b = true \/ Datetime.lex_ltb b c = true.
Proof.
  induction a as [|x a IH]; intros [|z c] [|y b] H; simpl in *; try discriminate; auto.
  apply orb_true_iff in H. destruct H as [H|H].
  - apply Z.ltb_lt in H. destruct (Z.lt_ge_cases x y) as [Hxy|Hxy].
    + left. apply orb_true_iff. left. now apply Z.ltb_lt.
    + right. apply orb_true_iff. left. apply Z.ltb_lt. lia.
  - apply andb_true_iff in H. destruct H as [He Hl]. apply Z.eqb_eq in He. subst z.
    destruct (Z.lt_trichotomy x y) as [Hxy|[Hxy|Hxy]].
    + left. apply orb_true_iff. left. now apply Z.ltb_lt.
    + subst y. destruct (IH c b Hl) as [H|H].
      * left. apply orb_true_iff. right. now rewrite Z.eqb_refl.
      * right. apply orb_true_iff. right. now rewrite Z.eqb_refl.
    + right. apply orb_true_iff. left. now apply Z.ltb_lt.
Qed.

Lemma not_after_trans (a b c : ThoughtData) :
  Order.not_after a b -> Order.not_after b c -> Order.not_after a c.
Proof.
  unfold Order.not_after, Datetime.ltb. intros Hab Hbc.
  destruct (Datetime.lex_ltb (Datetime.fields (timestamp c)) (Datetime.fields (timestamp a)))
    eqn:E; [|reflexivity].
  destruct (lex_ltb_cotrans _ _ (Datetime.fields (timestamp b)) E); congruence.
Qed.

(** In the Plan Document of a file the timestamp of every observation
    is at or before that of every observation after it, in the order of
    the calendar: the order holds for every pair of positions, not only
    for neighbours. *)
Theorem plan_document_orders_every_pair (p : Path) (loaded : result json)
    (out out' : list string) (doc : json) :
  parse_single_plan p loaded out = (out', inr (Some doc)) ->
  exists sorted,
    Outcome.thoughts_in doc = map thought_dict sorted /\
    StronglySorted Order.in_order sorted.
Proof.
  intros Hrun.
  destruct (parse_single_plan_result p loaded out) as [out1 H]. rewrite H in Hrun.
  assert (Hdoc : Outcome.plan_of p loaded = Some doc) by congruence.
  apply plan_of_some in Hdoc.
  destruct Hdoc as (plan_data & items & kept & pid & _ & _ & _ & _ & _ & ->).
  exists (Outcome.sorted_thoughts kept). split; [reflexivity|].
  apply Sorted_StronglySorted.
  - intros a b c Hab Hbc. apply not_after_in_order.
    apply (not_after_trans a b c); now apply not_after_in_order.
  - eapply sorted_weaken; [|apply sort_by_sorted; exact datetime_ltb_asym].
    intros a b Hab. now apply not_after_in_order.
Qed.

Lemma plan_document_orders_every_pair_witness :
  exists sorted,
    Outcome.thoughts_in
      (plan_document (JStr "t") ["f.json"; "1"; "plans"; "data"] Examples.sorted_with_a_tie)
    = map thought_dict sorted /\
    StronglySorted Order.in_order sorted.
Proof.
  apply (plan_document_orders_every_pair ["f.json"; "1"; "plans"; "data"]
           (inr Examples.file_with_a_tie) [] []).
  vm_compute. reflexivity.
Defined.

(** ** The order of the directories *)

Lemma rmap_forall2 {A B} (f : A -> result B) (l : list A) (ys : list B) :
  rmap f l = inr ys -> Forall2 (fun x y => f x = inr y) l ys.
Proof.
  revert ys. induction l as [|x l IH]; intros ys; simpl.
  - intros H. inversion H. constructor.
  - destruct (f x) as [e|y] eqn:Ex; simpl; [discriminate|].
    destruct (rmap f l) as [e|ys'] eqn:El; simpl; [discriminate|].
    intros H. inversion H. subst ys. constructor; [exact Ex | now apply IH].
Qed.

Lemma forall2_rmap {A B} (f : A -> result B) (l : list A) (ys : list B) :
  Forall2 (fun x y => f x = inr y) l ys -> rmap f l = inr ys.
Proof.
  induction 1 as [|x y l ys Hx _ IH]; simpl; [reflexivity|].
  now rewrite Hx, IH.
Qed.

Lemma forall2_combine {A B} (P : A -> B -> Prop) (l : list A) (ys : list B) :
  Forall2 P l ys -> Forall (fun kd => P (snd kd) (fst kd)) (combine ys l).
Proof.
  induction 1; simpl; constructor; assumption.
Qed.

Lemma strongly_sorted_map {A B} (R : A -> A -> Prop) (R' : B -> B -> Prop)
    (P : A -> Prop) (f : A -> B) (l : list A) :
  (forall a b, P a -> P b -> R a b -> R' (f a) (f b)) ->
  Forall P l -> StronglySorted R l -> StronglySorted R' (map f l).
Proof.
  intros HR HP HS. induction HS as [|a l HS IH Ha]; simpl; [constructor|].
  inversion HP as [|? ? Pa Pl]; subst. constructor; [now apply IH|].
  apply Forall_forall. intros y Hy. apply in_map_iff in Hy. destruct Hy as [b [<- Hb]].
  rewrite Forall_forall in Ha, Pl. apply HR; auto.
Qed.

Lemma strongly_sorted_snoc {A} (R : A -> A -> Prop) (l : list A) (x : A) :
  StronglySorted R l -> Forall (fun y => R y x) l -> StronglySorted R (l ++ [x]).
Proof.
  intros HS. induction HS as [|a l HS IH Ha]; intros Hx; simpl.
  - constructor; constructor.
  - inversion Hx as [|? ? Hax Hlx]; subst. constructor; [now apply IH|].
    apply Forall_app. split; [exact Ha | now constructor].
Qed.

(** The sorted directories have names that [int] reads, and stand in
    the order of their numbers. *)
Lemma sort_directories_sorted (root : Path) (l ds : list folder) :
  sort_directories root l = inr ds ->
  Forall (fun d => exists n, Py.int (folder_name d) = inr n) ds /\
  StronglySorted Report.numbered_before ds.
Proof.
  unfold sort_directories.
  destruct (rmap _ l) as [e|keys] eqn:E; simpl; [discriminate|].
  intros H. inversion H as [H1]. clear H H1.
  apply rmap_forall2 in E.
  apply (forall2_combine (fun d k => Py.int (folder_name d) = inr k)) in E.
  assert (Hall : Forall (fun kd : Z * folder => Py.int (folder_name (snd kd)) = inr (fst kd))
                        (sort_by Z.ltb fst (combine keys l))).
  { eapply Permutation_Forall; [apply sort_by_perm | exact E]. }
  split.
  - apply Forall_forall. intros d Hd. apply in_map_iff in Hd.
    destruct Hd as [kd [<- Hkd]]. rewrite Forall_forall in Hall.
    exists (fst kd). now apply Hall.
  - apply (strongly_sorted_map (fun a b : Z * folder => Z.ltb (fst b) (fst a) = false)
             Report.numbered_before
             (fun kd => Py.int (folder_name (snd kd)) = inr (fst kd))).
    + intros a b Ha Hb Hab. unfold Report.numbered_before, Report.number.
      rewrite Ha, Hb. now apply Z.ltb_ge.
    + exact Hall.
    + apply Sorted_StronglySorted.
      * intros a b c Hab Hbc. apply Z.ltb_ge. apply Z.ltb_ge in Hab, Hbc. lia.
      * apply sort_by_sorted. intros a b Hab. apply Z.ltb_ge. apply Z.ltb_lt in Hab. lia.
Qed.

Lemma add_directory_keys (root : Path) plans (d : folder) (files : list entry) :
  Dict.keys (Outcome.add_directory root plans d files) = Dict.keys plans \/
  Dict.keys (Outcome.add_directory root plans d files)
  = (Dict.keys plans ++ [folder_name d])%list.
Proof.
  unfold Outcome.add_directory.
  destruct (Outcome.dir_documents _ files) as [|x docs]; [now left|].
  rewrite dict_keys_set. destruct (existsb _ _); [now left | now right].
Qed.

(** The keys of the [plans] mapping are names of directories that were
    processed, in the order of their numbers. *)
Lemma aggregate_keys_sorted (root : Path) (ds : list folder) :
  StronglySorted Report.numbered_before ds ->
  Forall (fun d => exists n, Py.int (folder_name d) = inr n) ds ->
  forall plans,
  StronglySorted (fun a b => Report.number a <= Report.number b) (Dict.keys plans) ->
  Forall (fun k => exists n, Py.int k = inr n) (Dict.keys plans) ->
  (forall k d, In k (Dict.keys plans) -> In d ds ->
               Report.number k <= Report.number (folder_name d)) ->
  StronglySorted (fun a b => Report.number a <= Report.number b)
    (Dict.keys (fst (Outcome.aggregate root ds plans))) /\
  Forall (fun k => exists n, Py.int k = inr n)
    (Dict.keys (fst (Outcome.aggregate root ds plans))).
Proof.
  intros HS. induction HS as [|d ds HS IH Hd]; intros Hint plans Hp Hpi Hle; simpl.
  - now split.
  - destruct (glob_json d) as [e|files]; simpl; [now split|].
    inversion Hint as [|? ? Hdi Hint']; subst.
    destruct (add_directory_keys root plans d files) as [Hk|Hk];
      apply IH; try exact Hint'; rewrite Hk.
    + exact Hp.
    + exact Hpi.
    + intros k d' Hin Hd'. apply Hle; [exact Hin | now right].
    + apply strongly_sorted_snoc; [exact Hp|].
      apply Forall_forall. intros k Hin. apply Hle; [exact Hin | now left].
    + apply Forall_app. split; [exact Hpi | now constructor].
    + intros k d' Hin Hd'. apply in_app_or in Hin. destruct Hin as [Hin|[<-|[]]].
      * apply Hle; [exact Hin | now right].
      * rewrite Forall_forall in Hd. now apply Hd.
Qed.

Lemma collected_keys_sorted (fs : tree) :
  StronglySorted (fun a b => Report.number a <= Report.number b)
    (Dict.keys (fst (Outcome.collected fs))) /\
  Forall (fun k => exists n, Py.int k = inr n) (Dict.keys (fst (Outcome.collected fs))).
Proof.
  unfold Outcome.collected.
  destruct (Outcome.directories fs) as [e|ds] eqn:Ed; simpl; [split; constructor|].
  unfold Outcome.directories in Ed.
  destruct (root_scan fs) as [e|scan]; simpl in Ed; [discriminate|].
  apply sort_directories_sorted in Ed. destruct Ed as [Hint HS].
  assert (H := aggregate_keys_sorted (plans_directory fs) ds HS Hint []).
  destruct (Outcome.aggregate (plans_directory fs) ds []) as [plans [e|]];
    apply H; simpl; try constructor; intros k d [].
Qed.

Lemma numbers_of_keys (ks : list string) :
  Forall (fun k => exists n, Py.int k = inr n) ks ->
  rmap Py.int ks = inr (map Report.number ks).
Proof.
  intros H. apply forall2_rmap. induction H as [|k ks [n Hn] _ IH]; simpl; constructor.
  - unfold Report.number. now rewrite Hn.
  - exact IH.
Qed.

Lemma keys_of_plans_in (root : Path) (now : Datetime.t) plans (errs : list string) :
  Dict.keys (Outcome.plans_in (Aggregate.full root now plans errs)) = Dict.keys plans.
Proof.
  rewrite plans_in_full. unfold Dict.keys. rewrite map_map. reflexivity.
Qed.

(** The keys of the [plans] mapping of a run all read as numbers, and
    these numbers never decrease along the mapping: the directories are
    stored in numeric order, not in the order of their names as text or
    of the listing. *)
Theorem plans_in_numeric_order (fs : tree) (now : Datetime.t) :
  exists s full short ns,
    run fs now = (s, inr (full, short)) /\
    Report.directory_numbers full = inr ns /\
    StronglySorted Z.le ns.
Proof.
  destruct (run_collected fs now) as (c & dp & Hrun).
  destruct (collected_keys_sorted fs) as [HS Hint].
  eexists _, _, _, (map Report.number (Dict.keys (fst (Outcome.collected fs)))).
  split; [exact Hrun|]. unfold Report.directory_numbers. rewrite keys_of_plans_in.
  split; [now apply numbers_of_keys|].
  apply (strongly_sorted_map (fun a b => Report.number a <= Report.number b) Z.le
           (fun _ => True)); auto.
  apply Forall_forall. auto.
Qed.

(** ** The aggregate of a sound tree *)

Lemma fold_add_document_closed (dir : Path) (files : list entry) :
  NoDup (map entry_name files) ->
  forall docs,
  (forall e, In e files -> ~ In (entry_name e) (Dict.keys docs)) ->
  fold_left (Outcome.add_document dir) files docs
  = (docs ++ flat_map (Report.document_of dir) files)%list.
Proof.
  induction files as [|e files IH]; intros Hnd docs Hfresh; simpl.
  - now rewrite app_nil_r.
  - inversion Hnd as [|? ? Hnotin Hnd']; subst.
    assert (Hadd : Outcome.add_document dir docs e = (docs ++ Report.document_of dir e)%list).
    { unfold Outcome.add_document, Report.document_of.
      destruct (Outcome.plan_of _ _) as [doc|]; [|now rewrite app_nil_r].
      apply dict_set_fresh. apply Hfresh. now left. }
    rewrite Hadd, IH, <- app_assoc; [reflexivity | exact Hnd' |].
    intros e' He' Hin. unfold Dict.keys in Hin. rewrite map_app in Hin.
    apply in_app_or in Hin. destruct Hin as [Hin|Hin].
    + apply (Hfresh e'); [now right | exact Hin].
    + unfold Report.document_of in Hin.
      destruct (Outcome.plan_of _ _); [|destruct Hin].
      destruct Hin as [Hin|[]]. simpl in Hin. apply Hnotin. rewrite Hin.
      now apply in_map.
Qed.

Lemma dir_documents_closed (root : Path) (d : folder) (files : list entry) :
  glob_json d = inr files -> NoDup (map entry_name files) ->
  Outcome.dir_documents (path_child root (folder_name d)) files
  = Report.documents_under root d.
Proof.
  intros Hg Hnd. unfold Outcome.dir_documents, Report.documents_under. rewrite Hg.
  rewrite fold_add_document_closed; [reflexivity | exact Hnd | intros e _ []].
Qed.

Lemma directory_of_keys (root : Path) (d : folder) (k : string) :
  In k (Dict.keys (Report.directory_of root d)) -> k = folder_name d.
Proof.
  unfold Report.directory_of. destruct (Report.documents_under root d); simpl; [intros []|].
  now intros [<-|[]].
Qed.

Lemma aggregate_closed (root : Path) (ds : list folder) :
  NoDup (map folder_name ds) ->
  Forall (fun d => exists files, glob_json d = inr files /\ NoDup (map entry_name files)) ds ->
  forall plans,
  (forall d, In d ds -> ~ In (folder_name d) (Dict.keys plans)) ->
  Outcome.aggregate root ds plans
  = ((plans ++ flat_map (Report.directory_of root) ds)%list, None).
Proof.
  induction ds as [|d ds IH]; intros Hnd Hall plans Hfresh; simpl.
  - now rewrite app_nil_r.
  - inversion Hnd as [|? ? Hnotin Hnd']; subst.
    inversion Hall as [|? ? (files & Hg & Hf) Hall']; subst. rewrite Hg.
    assert (Hadd : Outcome.add_directory root plans d files
                   = (plans ++ Report.directory_of root d)%list).
    { unfold Outcome.add_directory, Report.directory_of.
      rewrite (dir_documents_closed root d files Hg Hf).
      destruct (Report.documents_under root d) as [|x docs]; [now rewrite app_nil_r|].
      apply dict_set_fresh. apply Hfresh. now left. }
    rewrite Hadd, IH, <- app_assoc; [reflexivity | exact Hnd' | exact Hall' |].
    intros d' Hd' Hin. unfold Dict.keys in Hin. rewrite map_app in Hin.
    apply in_app_or in Hin. destruct Hin as [Hin|Hin].
    + apply (Hfresh d'); [now right | exact Hin].
    + apply directory_of_keys in Hin. apply Hnotin. rewrite <- Hin. now apply in_map.
Qed.

Lemma sound_collected (fs : tree) (scan : list folder) :
  Tree.sound fs scan ->
  exists ds,
    Outcome.directories fs = inr ds /\
    Permutation (filter folder_is_dir scan) ds /\
    StronglySorted Report.numbered_before ds /\
    Outcome.collected fs = (flat_map (Report.directory_of (plans_directory fs)) ds, []).
Proof.
  intros Hsound. destruct (sound_directories fs scan Hsound) as (ds & Hd & Hperm & _).
  destruct Hsound as (Hs & Hnd & Hall).
  exists ds. split; [exact Hd|]. split; [exact Hperm|]. split.
  - unfold Outcome.directories in Hd. rewrite Hs in Hd. simpl in Hd.
    now apply sort_directories_sorted in Hd.
  - unfold Outcome.collected. rewrite Hd.
    rewrite (aggregate_closed (plans_directory fs) ds); [reflexivity | | | intros d _ []].
    + eapply Permutation_NoDup; [|exact Hnd]. now apply Permutation_map.
    + eapply Permutation_Forall; [exact Hperm|].
      eapply Forall_impl; [|exact Hall]. intros d [_ H]. exact H.
Qed.

(** In a sound tree the [plans] mapping of a run is, for the directories
    taken in the order of their numbers, the directories with at least
    one Plan Document, each with the Plan Documents of its files in the
    order in which the files are found; no error is recorded. *)
Theorem aggregate_of_a_sound_tree (fs : tree) (now : Datetime.t) (scan : list folder) :
  Tree.sound fs scan ->
  exists s full short ds,
    run fs now = (s, inr (full, short)) /\
    Outcome.directories fs = inr ds /\
    Permutation (filter folder_is_dir scan) ds /\
    StronglySorted Report.numbered_before ds /\
    Outcome.plans_in full
    = map (fun kv => (fst kv, JDict (snd kv)))
          (flat_map (Report.directory_of (plans_directory fs)) ds) /\
    Py.getitem full "errors" = inr (JList []).
Proof.
  intros Hsound. destruct (sound_collected fs scan Hsound) as (ds & Hd & Hperm & HS & Hc).
  destruct (run_collected fs now) as (c & dp & Hrun). rewrite Hc in Hrun.
  eexists _, _, _, ds. split; [exact Hrun|].
  split; [exact Hd|]. split; [exact Hperm|]. split; [exact HS|].
  cbn [fst snd]. rewrite plans_in_full. split; reflexivity.
Qed.

Lemma numbered_tree_sound :
  Tree.sound Examples.numbered_tree
    (match root_scan Examples.numbered_tree with inr scan => scan | inl _ => [] end).
Proof.
  split; [reflexivity|]. split.
  - cbn. constructor; [intros [H|[]]; discriminate|].
    constructor; [intros []|constructor].
  - cbn. constructor; [|constructor; [|constructor]].
    + split; [exists 10; vm_compute; reflexivity|].
      eexists. split; [vm_compute; reflexivity|]. cbn.
      constructor; [intros []|constructor].
    + split; [exists 9; vm_compute; reflexivity|].
      eexists. split; [vm_compute; reflexivity|]. cbn.
      constructor; [intros [H|[]]; discriminate|].
      constructor; [intros []|constructor].
Defined.

Lemma aggregate_of_a_sound_tree_witness :
  exists s full short ds,
    run Examples.numbered_tree Examples.a_time = (s, inr (full, short)) /\
    Outcome.directories Examples.numbered_tree = inr ds /\
    Permutation (filter folder_is_dir (match root_scan Examples.numbered_tree with
                                       | inr scan => scan
                                       | inl _ => []
                                       end)) ds /\
    StronglySorted Report.numbered_before ds /\
    Outcome.plans_in full
    = map (fun kv => (fst kv, JDict (snd kv)))
          (flat_map (Report.directory_of (plans_directory Examples.numbered_tree)) ds) /\
    Py.getitem full "errors" = inr (JList []).
Proof.
  exact (aggregate_of_a_sound_tree Examples.numbered_tree Examples.a_time _
           numbered_tree_sound).
Defined.

(** ** The counts of the metadata *)

Lemma sum_of_lengths {A} (l : list (list A)) (a : Z) :
  fold_left Z.add (map (fun x => len x) l) a = a + len (concat l).
Proof.
  revert a. induction l as [|x l IH]; intros a; simpl.
  - unfold len. simpl. lia.
  - rewrite IH. unfold len. rewrite length_app. lia.
Qed.

Lemma metadata_of_full (root : Path) (now : Datetime.t) plans (errs : list string) :
  Report.metadata_of (Aggregate.full root now plans errs) "total_directories"
  = inr (JInt (len plans)) /\
  Report.metadata_of (Aggregate.full root now plans errs) "total_plans"
  = inr (JInt (len (flat_map (fun kv => Dict.values (snd kv)) plans))).
Proof.
  split; [reflexivity|].
  unfold Report.metadata_of, Aggregate.full, results_of. cbn -[fold_left len flat_map].
  rewrite sum_of_lengths. do 2 f_equal. rewrite Z.add_0_l. unfold len. f_equal.
  induction plans as [|[k files] plans IH]; simpl; [reflexivity|].
  rewrite !length_app, IH. unfold Dict.values. now rewrite length_map.
Qed.

Lemma directory_of_documents (root : Path) (d : folder) :
  flat_map (fun kv => Dict.values (snd kv)) (Report.directory_of root d)
  = Dict.values (Report.documents_under root d).
Proof.
  unfold Report.directory_of. destruct (Report.documents_under root d); [reflexivity|].
  simpl. now rewrite app_nil_r.
Qed.

Lemma document_of_length (dir : Path) (files : list entry) :
  length (flat_map (Report.document_of dir) files)
  = length (filter (fun e => match Outcome.plan_of (path_child dir (entry_name e))
                                     (entry_load e) with
                             | Some _ => true
                             | None => false
                             end) files).
Proof.
  induction files as [|e files IH]; simpl; [reflexivity|].
  rewrite length_app, IH. unfold Report.document_of.
  now destruct (Outcome.plan_of _ _).
Qed.

(** In a sound tree [total_plans] is the number of files, over all the
    directories, from which at least one observation is kept, and
    [total_directories] the number of directories that hold such a
    file. *)
Theorem metadata_counts_of_a_sound_tree (fs : tree) (now : Datetime.t) (scan : list folder) :
  Tree.sound fs scan ->
  exists s full short,
    run fs now = (s, inr (full, short)) /\
    Report.metadata_of full "total_directories"
    = inr (JInt (len (flat_map (Report.directory_of (plans_directory fs))
                               (filter folder_is_dir scan)))) /\
    Report.metadata_of full "total_plans"
    = inr (JInt (len (flat_map (Report.documents_under (plans_directory fs))
                               (filter folder_is_dir scan)))).
Proof.
  intros Hsound. destruct (sound_collected fs scan Hsound) as (ds & _ & Hperm & _ & Hc).
  destruct (run_collected fs now) as (c & dp & Hrun). rewrite Hc in Hrun.
  eexists _, _, _. split; [exact Hrun|]. cbn [fst snd].
  destruct (metadata_of_full (plans_directory fs) now
              (flat_map (Report.directory_of (plans_directory fs)) ds) []) as [Hd Hp].
  rewrite Hd, Hp. unfold len. split; do 3 f_equal.
  - apply Permutation_length, Permutation_flat_map, Permutation_sym, Hperm.
  - rewrite flat_map_flat_map.
    rewrite (flat_map_ext_in _ (fun d => Dict.values (Report.documents_under
                                                         (plans_directory fs) d)))
      by (intros d _; apply directory_of_documents).
    unfold Dict.values. rewrite <- map_flat_map, length_map.
    apply Permutation_length, Permutation_flat_map, Permutation_sym, Hperm.
Qed.

Lemma metadata_counts_of_a_sound_tree_witness :
  exists s full short,
    run Examples.numbered_tree Examples.a_time = (s, inr (full, short)) /\
    Report.metadata_of full "total_directories" = inr (JInt 2) /\
    Report.metadata_of full "total_plans" = inr (JInt 2).
Proof.
  exact (metadata_counts_of_a_sound_tree Examples.numbered_tree Examples.a_time _
           numbered_tree_sound).
Defined.

(** ** The totals of the Frequency Report *)

Lemma total_incr (k : string) (c : list (string * Z)) :
  Analysis.total (ContentAnalyzer.incr k c) = Analysis.total c + 1.
Proof.
  unfold ContentAnalyzer.incr.
  induction c as [|[k0 v0] c IH]; simpl; [lia|].
  destruct (String.eqb k k0); simpl; lia.
Qed.

Lemma total_count_all (ks : list string) :
  forall c, Analysis.total (count_all ks c) = Analysis.total c + len ks.
Proof.
  unfold count_all, len. induction ks as [|k ks IH]; intros c; simpl length; simpl fold_left.
  - lia.
  - rewrite IH, total_incr. lia.
Qed.

Lemma total_perm (d d' : list (string * Z)) :
  Permutation d d' -> Analysis.total d = Analysis.total d'.
Proof. induction 1; simpl; lia. Qed.

Lemma count_all_nodup (ks : list string) : NoDup (Dict.keys (count_all ks [])).
Proof. rewrite count_all_from_empty, keys_of_counts. apply first_seen_nodup. Qed.

(** Ranking permutes a counter. *)
Lemma ranked_perm (c : list (string * Z)) :
  NoDup (Dict.keys c) -> Permutation c (ContentAnalyzer.ranked c).
Proof.
  intros Hnd. unfold ContentAnalyzer.ranked.
  assert (Hp : Permutation c (sort_by (fun a b : Z => b <? a) snd c)) by apply sort_by_perm.
  rewrite dict_of_pairs_nodup; [exact Hp|].
  eapply Permutation_NoDup; [|exact Hnd]. unfold Dict.keys. now apply Permutation_map.
Qed.

Lemma analyze_file_counted (data : list json) (recs : list (string * list string)) :
  Forall2 is_record data recs ->
  ContentAnalyzer.analyze_file (inr (JList data)) ContentAnalyzer.init
  = (Analysis.counted (contents recs) (factors recs), inr tt).
Proof.
  intros Hrecs. unfold ContentAnalyzer.analyze_file.
  unfold bind at 1. unfold ContentAnalyzer.echo at 1. unfold modify at 1.
  unfold bind at 1. unfold lift at 1. unfold bind at 1. unfold lift at 1. cbn [Py.iter].
  rewrite (thoughts_loop data recs Hrecs). reflexivity.
Qed.

Lemma save_results_counted (cs fs : list string) :
  ContentAnalyzer.save_results (Analysis.counted cs fs)
  = ({| ContentAnalyzer.console :=
          Analysis.summary (len (count_all cs [])) (len (count_all fs []));
        ContentAnalyzer.content_counter := count_all cs [];
        ContentAnalyzer.factor_counter := count_all fs [] |},
     inr (Analysis.report (ContentAnalyzer.ranked (count_all cs []))
                          (ContentAnalyzer.ranked (count_all fs [])))).
Proof. reflexivity. Qed.

(** On a Short Aggregate the counts of the report add up: the content
    counts sum to the number of records and the factor counts to the
    number of factors of all records, so nothing is counted twice or
    dropped by the ranking; and the two numbers printed in the summary
    are the numbers of keys of the two mappings written. *)
Theorem frequency_report_totals (data : list json) (recs : list (string * list string)) :
  Forall2 is_record data recs ->
  exists s content_counts factor_counts,
    ContentAnalyzer.run (inr (JList data))
    = (s, inr (JDict [("content_counts",
                       JDict (map (fun kv => (fst kv, JInt (snd kv))) content_counts));
                      ("factor_counts",
                       JDict (map (fun kv => (fst kv, JInt (snd kv))) factor_counts))])) /\
    Analysis.total content_counts = len data /\
    Analysis.total factor_counts = len (flat_map snd recs) /\
    ContentAnalyzer.console s = Analysis.summary (len content_counts) (len factor_counts).
Proof.
  intros Hrecs. unfold ContentAnalyzer.run. unfold bind at 1.
  rewrite (analyze_file_counted data recs Hrecs), save_results_counted.
  pose proof (ranked_perm _ (count_all_nodup (contents recs))) as Hc.
  pose proof (ranked_perm _ (count_all_nodup (factors recs))) as Hf.
  do 3 eexists. split; [reflexivity|]. split; [|split].
  - rewrite <- (total_perm _ _ Hc), total_count_all. simpl. unfold len, contents.
    rewrite length_map. f_equal. symmetry. exact (Forall2_length Hrecs).
  - rewrite <- (total_perm _ _ Hf), total_count_all. simpl. unfold len, factors. f_equal.
    clear. induction recs as [|r recs IH]; simpl; [reflexivity|].
    now rewrite !length_app, length_map, IH.
  - cbn [ContentAnalyzer.console]. unfold len.
    now rewrite (Permutation_length Hc), (Permutation_length Hf).
Qed.

Lemma frequency_report_totals_witness :
  exists s content_counts factor_counts,
    ContentAnalyzer.run
      (inr (JList [JDict [("c", JStr "hello"); ("r", JList (map JStr ["a"; "b"]))];
                   JDict [("c", JStr " x"); ("r", JList (map JStr ["b"; "b "]))];
                   JDict [("c", JStr "x "); ("r", JList (map JStr []))]]))
    = (s, inr (JDict [("content_counts",
                       JDict (map (fun kv => (fst kv, JInt (snd kv))) content_counts));
                      ("factor_counts",
                       JDict (map (fun kv => (fst kv, JInt (snd kv))) factor_counts))])) /\
    Analysis.total content_counts = 3 /\
    Analysis.total factor_counts = 4 /\
    ContentAnalyzer.console s = Analysis.summary (len content_counts) (len factor_counts).
Proof.
  apply (frequency_report_totals
           [JDict [("c", JStr "hello"); ("r", JList (map JStr ["a"; "b"]))];
            JDict [("c", JStr " x"); ("r", JList (map JStr ["b"; "b "]))];
            JDict [("c", JStr "x "); ("r", JList (map JStr []))]]
           [("hello", ["a"; "b"]); (" x", ["b"; "b "]); ("x ", [])]).
  repeat constructor.
Defined.

(** ** A record that the Analyzer cannot read *)

Lemma for_each_app {S A} (body : A -> M S unit) (a b : list A) (s s' : S) :
  for_each a body s = (s', inr tt) ->
  for_each (a ++ b) body s = for_each b body s'.
Proof.
  revert s. induction a as [|x a IH]; intros s; simpl.
  - unfold ret. intros H. now inversion H.
  - unfold bind. destruct (body x s) as [s1 [e|[]]]; [discriminate|]. apply IH.
Qed.

(** A record whose content cannot be read ends the run with the
    exception of that reading: no report is made and no summary is
    printed, whatever follows the record; the counters hold the records
    before it. *)
Theorem analyzer_stops_at_unreadable_content (data rest : list json) (bad : json)
    (recs : list (string * list string)) (e : exn) :
  Forall2 is_record data recs ->
  (c <~ Py.getitem bad "c" ;; Py.strip c) = inl e ->
  ContentAnalyzer.run (inr (JList (data ++ bad :: rest)))
  = (Analysis.counted (contents recs) (factors recs), inl e).
Proof.
  intros Hrecs Hbad. unfold ContentAnalyzer.run, ContentAnalyzer.analyze_file.
  unfold bind at 1. unfold bind at 1. unfold ContentAnalyzer.echo at 1. unfold modify at 1.
  unfold bind at 1. unfold lift at 1. unfold bind at 1. unfold lift at 1. cbn [Py.iter].
  rewrite (for_each_app _ data (bad :: rest) _ _ (thoughts_loop data recs Hrecs _)).
  cbn [for_each]. unfold bind at 1. unfold bind at 1. unfold lift at 1.
  rewrite Hbad. reflexivity.
Qed.

Lemma analyzer_stops_at_unreadable_content_witness :
  ContentAnalyzer.run
    (inr (JList ([JDict [("c", JStr "hello"); ("r", JList (map JStr ["a"; "b"]))]]
                 ++ JDict [("r", JList [])] :: [JDict [("c", JStr "x"); ("r", JList [])]])))
  = (Analysis.counted (contents [("hello", ["a"; "b"])]) (factors [("hello", ["a"; "b"])]),
     inl (KeyError "'c'")).
Proof.
  apply (analyzer_stops_at_unreadable_content _ _ _ [("hello", ["a"; "b"])]).
  - repeat constructor.
  - reflexivity.
Defined.

(** A record is not counted as a whole: when its content can be read
    and its factors cannot, the run ends with the exception of the
    factors, and the content counter already holds the content of the
    record. *)
Theorem analyzer_counts_content_before_factors (data rest : list json) (bad : json)
    (recs : list (string * list string)) (c : string) (e : exn) :
  Forall2 is_record data recs ->
  (c <~ Py.getitem bad "c" ;; Py.strip c) = inr c ->
  (r <~ Py.getitem bad "r" ;; Py.iter r) = inl e ->
  ContentAnalyzer.run (inr (JList (data ++ bad :: rest)))
  = (Analysis.counted (contents recs ++ [c]) (factors recs), inl e).
Proof.
  intros Hrecs Hc Hr. unfold ContentAnalyzer.run, ContentAnalyzer.analyze_file.
  unfold bind at 1. unfold bind at 1. unfold ContentAnalyzer.echo at 1. unfold modify at 1.
  unfold bind at 1. unfold lift at 1. unfold bind at 1. unfold lift at 1. cbn [Py.iter].
  rewrite (for_each_app _ data (bad :: rest) _ _ (thoughts_loop data recs Hrecs _)).
  cbn [for_each]. unfold bind at 1. unfold bind at 1. unfold lift at 1.
  rewrite Hc. unfold bind at 1. unfold ContentAnalyzer.count_content at 1. unfold modify at 1.
  unfold bind at 1. unfold lift at 1. rewrite Hr.
  unfold Analysis.counted. rewrite count_all_app. reflexivity.
Qed.

Lemma analyzer_counts_content_before_factors_witness :
  ContentAnalyzer.run
    (inr (JList ([JDict [("c", JStr "hello"); ("r", JList (map JStr ["a"; "b"]))]]
                 ++ JDict [("c", JStr " x "); ("r", JNull)] :: [])))
  = (Analysis.counted (contents [("hello", ["a"; "b"])] ++ ["x"])
                      (factors [("hello", ["a"; "b"])]),
     inl (TypeError "'NoneType' object is not iterable")).
Proof.
  apply (analyzer_counts_content_before_factors _ _ _ [("hello", ["a"; "b"])]).
  - repeat constructor.
  - reflexivity.
  - reflexivity.
Defined.

(** ** From the Collector to the Analyzer *)

Lemma forall_exists_forall2 {A B} (P : A -> B -> Prop) (l : list A) :
  Forall (fun x => exists y, P x y) l -> exists ys, Forall2 P l ys.
Proof.
  induction 1 as [|x l [y Hy] _ [ys IH]]; [exists []; constructor|].
  exists (y :: ys). now constructor.
Qed.

Lemma short_of_run_collected (fs : tree) (now : Datetime.t) :
  Report.short_of_run fs now = Outcome.shorts_of (fst (Outcome.collected fs)).
Proof.
  unfold Report.short_of_run. destruct (run_collected fs now) as (c & dp & ->). reflexivity.
Qed.

(** A record of the Short Aggregate carries a content that is stripped
    and not excluded. *)
Lemma short_record_content (fs : tree) (now : Datetime.t) (rec : json) :
  In rec (Report.short_of_run fs now) ->
  exists c f, rec = Survival.short_record c f /\
              PyStr.strip c = c /\ should_exclude_content c = false.
Proof.
  rewrite short_of_run_collected. intros Hin. apply shorts_of_in in Hin.
  destruct Hin as (dir & files & file & doc & Hd & Hf & Hin).
  destruct (stored_thoughts fs dir file files doc Hd Hf) as (pid & sorted & -> & Hall).
  rewrite shorts_of_plan_document in Hin. apply in_flat_map in Hin.
  destruct Hin as (t & Ht & Hin). destruct (Hall t Ht) as [Hfrom Hstrip].
  destruct Hfrom as (scan & d & fl & e & items & th & _ & _ & _ & _ & _ & _ & _ & _ & _ & _
                     & Hx1 & Hx2 & _).
  assert (Hx : should_exclude_content (content t) = false)
    by (apply not_excluded_iff; now split).
  rewrite (short_of_kept t Hstrip Hx) in Hin. destruct Hin as [<-|[]].
  exists (content t), (real_time_factors t). now repeat split.
Qed.

(** When the factors of every record of the Short Aggregate of a run
    are a list of strings, the Analyzer reads that aggregate to its end
    and writes a report; every key of its content counts is the content
    of a record of the aggregate, has no blank at either end and holds
    neither excluded text, and the counts sum to the number of
    records. *)
Theorem analyzer_accepts_the_short_aggregate (fs : tree) (now : Datetime.t) :
  Forall (fun rec => exists l, Py.getitem rec "r" = inr (JList (map JStr l)))
         (Report.short_of_run fs now) ->
  exists s content_counts factor_counts,
    ContentAnalyzer.run (inr (JList (Report.short_of_run fs now)))
    = (s, inr (JDict [("content_counts",
                       JDict (map (fun kv => (fst kv, JInt (snd kv))) content_counts));
                      ("factor_counts",
                       JDict (map (fun kv => (fst kv, JInt (snd kv))) factor_counts))])) /\
    Analysis.total content_counts = len (Report.short_of_run fs now) /\
    forall k, In k (Dict.keys content_counts) ->
              Counting.bare k /\
              (forall a b, k <> a ++ exploring ++ b /\ k <> a ++ "plan_" ++ b) /\
              exists f, In (JDict [("c", JStr k); ("r", f)]) (Report.short_of_run fs now).
Proof.
  intros Hr.
  assert (Hrecs : exists recs,
             Forall2 (fun v r => is_record v r /\ PyStr.strip (fst r) = fst r /\
                                 should_exclude_content (fst r) = false /\
                                 exists f, v = Survival.short_record (fst r) f)
                     (Report.short_of_run fs now) recs).
  { apply forall_exists_forall2. rewrite Forall_forall in *. intros rec Hin.
    destruct (Hr rec Hin) as [l Hl].
    destruct (short_record_content fs now rec Hin) as (c & f & -> & Hs & Hx).
    exists (c, l). split; [split; [reflexivity | exact Hl]|]. cbn [fst]. eauto. }
  destruct Hrecs as [recs Hrecs].
  assert (His : Forall2 is_record (Report.short_of_run fs now) recs).
  { eapply Forall2_impl; [|exact Hrecs]. now intros v r [H _]. }
  unfold ContentAnalyzer.run. unfold bind at 1.
  rewrite (analyze_file_counted _ recs His), save_results_counted.
  pose proof (ranked_perm _ (count_all_nodup (contents recs))) as Hc.
  do 3 eexists. split; [reflexivity|]. split.
  - rewrite <- (total_perm _ _ Hc), total_count_all. simpl. unfold len, contents.
    rewrite length_map. f_equal. symmetry. exact (Forall2_length His).
  - intros k Hk.
    assert (Hk' : In k (Dict.keys (count_all (contents recs) []))).
    { unfold Dict.keys in *. eapply Permutation_in; [|exact Hk].
      apply Permutation_map, Permutation_sym, Hc. }
    rewrite count_all_from_empty, keys_of_counts in Hk'.
    apply (proj1 (first_seen_in _ _)) in Hk'.
    unfold contents in Hk'. apply in_map_iff in Hk'. destruct Hk' as (r & <- & Hin).
    clear - Hrecs Hin. induction Hrecs as [|v r0 l recs (_ & Hs & Hx & f & Hv) _ IH].
    + destruct Hin.
    + destruct Hin as [->|Hin].
      * rewrite Hs. split; [now apply bare_of_stripped|]. split.
        -- intros a b. split; intros E.
           ++ assert (Hex : should_exclude_content (fst r) = true)
                by (apply should_exclude_content_iff; left; apply contains_iff; eauto).
              congruence.
           ++ assert (Hex : should_exclude_content (fst r) = true)
                by (apply should_exclude_content_iff; right; apply contains_iff; eauto).
              congruence.
        -- exists f. left. now symmetry.
      * destruct (IH Hin) as (H1 & H2 & f' & H3). split; [exact H1|]. split; [exact H2|].
        exists f'. now right.
Qed.

Lemma analyzer_accepts_the_short_aggregate_witness :
  exists s content_counts factor_counts,
    ContentAnalyzer.run
      (inr (JList (Report.short_of_run Examples.numbered_tree Examples.a_time)))
    = (s, inr (JDict [("content_counts",
                       JDict (map (fun kv => (fst kv, JInt (snd kv))) content_counts));
                      ("factor_counts",
                       JDict (map (fun kv => (fst kv, JInt (snd kv))) factor_counts))])) /\
    Analysis.total content_counts
    = len (Report.short_of_run Examples.numbered_tree Examples.a_time) /\
    forall k, In k (Dict.keys content_counts) ->
              Counting.bare k /\
              (forall a b, k <> a ++ exploring ++ b /\ k <> a ++ "plan_" ++ b) /\
              exists f, In (JDict [("c", JStr k); ("r", f)])
                           (Report.short_of_run Examples.numbered_tree Examples.a_time).
Proof.
  apply (analyzer_accepts_the_short_aggregate Examples.numbered_tree Examples.a_time).
  vm_compute. constructor; [exists ["a"]; reflexivity|].
  constructor; [exists ["a"]; reflexivity | constructor].
Defined.

(** The Analyzer does not read the Full Aggregate: given the first
    result of a run in place of the second, it takes the key
    [plans] for a record and ends with a [TypeError] before anything
    is counted. *)
Theorem analyzer_rejects_the_full_aggregate (fs : tree) (now : Datetime.t) :
  exists s full short,
    run fs now = (s, inr (full, short)) /\
    ContentAnalyzer.run (inr full)
    = (Analysis.counted [] [],
       inl (TypeError "string indices must be integers, not 'str'")).
Proof.
  destruct (run_collected fs now) as (c & dp & Hrun).
  eexists _, _, _. split; [exact Hrun|]. reflexivity.
Qed.

(** ** Numbers as [isoformat] writes them *)

Lemma string_app_assoc (a b c : string) : (a ++ b) ++ c = a ++ b ++ c.
Proof. induction a as [|x a IH]; simpl; [reflexivity | now rewrite IH]. Qed.

Lemma string_app_nil_r (a : string) : a ++ EmptyString = a.
Proof. induction a as [|x a IH]; simpl; [reflexivity | now rewrite IH]. Qed.

Lemma string_length_app (a b : string) :
  String.length (a ++ b) = (String.length a + String.length b)%nat.
Proof. induction a as [|x a IH]; simpl; [reflexivity | now rewrite IH]. Qed.

Lemma zeros_snoc (k : nat) :
  PyStr.zeros k ++ String "0" EmptyString = String "0" (PyStr.zeros k).
Proof. induction k as [|k IH]; simpl; [reflexivity | now rewrite IH]. Qed.

Lemma fixed_zero (w : nat) : Calendar.fixed w 0 = PyStr.zeros w.
Proof.
  induction w as [|w IH]; [reflexivity|].
  cbn [Calendar.fixed]. change (0 / 10) with 0. rewrite IH.
  change (PyStr.digit_char (0 mod 10)) with "0"%char. apply zeros_snoc.
Qed.

Lemma fixed_length (w : nat) : forall n, String.length (Calendar.fixed w n) = w.
Proof.
  induction w as [|w IH]; intros n; [reflexivity|].
  cbn [Calendar.fixed]. rewrite string_length_app, IH. simpl. lia.
Qed.

Lemma digits_fuel_acc (fuel : nat) :
  forall n acc, PyStr.digits_fuel fuel n acc = PyStr.digits_fuel fuel n EmptyString ++ acc.
Proof.
  induction fuel as [|fuel IH]; intros n acc; [reflexivity|].
  cbn [PyStr.digits_fuel]. cbv zeta. destruct (n / 10 =? 0); [reflexivity|].
  rewrite IH. rewrite (IH _ (String _ EmptyString)). now rewrite string_app_assoc.
Qed.

(** [str(n)] padded with zeros is [n] written with a fixed number of
    digits. *)
Lemma digits_fuel_fixed (w : nat) :
  forall fuel n,
  0 <= n < 10 ^ Z.of_nat (S w) -> n < 2 ^ Z.of_nat fuel ->
  PyStr.zeros (S w - String.length (PyStr.digits_fuel fuel n EmptyString))
  ++ PyStr.digits_fuel fuel n EmptyString
  = Calendar.fixed (S w) n.
Proof.
  induction w as [|w IH]; intros fuel n Hn Hf.
  - destruct fuel as [|fuel].
    { change (2 ^ Z.of_nat 0) with 1 in Hf. assert (n = 0) by lia. subst n.
      rewrite fixed_zero. cbn [PyStr.digits_fuel String.length].
      rewrite Nat.sub_0_r. apply string_app_nil_r. }
    cbn [PyStr.digits_fuel]. cbv zeta.
    assert (Hq : n / 10 = 0).
    { apply Z.div_small. change (10 ^ Z.of_nat 1) with 10 in Hn. lia. }
    rewrite Hq. reflexivity.
  - destruct fuel as [|fuel].
    { change (2 ^ Z.of_nat 0) with 1 in Hf. assert (n = 0) by lia. subst n.
      rewrite fixed_zero. cbn [PyStr.digits_fuel String.length].
      rewrite Nat.sub_0_r. apply string_app_nil_r. }
    cbn [PyStr.digits_fuel]. cbv zeta.
    destruct (n / 10 =? 0) eqn:Eq.
    + apply Z.eqb_eq in Eq. cbn [Calendar.fixed]. rewrite Eq.
      change (0 / 10) with 0. rewrite fixed_zero.
      change (String.length (String (PyStr.digit_char (n mod 10)) EmptyString)) with 1%nat.
      replace (S (S w) - 1)%nat with (S w) by lia.
      cbn [PyStr.zeros]. rewrite <- zeros_snoc. reflexivity.
    + apply Z.eqb_neq in Eq.
      rewrite digits_fuel_acc, string_length_app.
      change (String.length (String (PyStr.digit_char (n mod 10)) EmptyString)) with 1%nat.
      replace (S (S w) - (String.length (PyStr.digits_fuel fuel (n / 10) EmptyString) + 1))%nat
        with (S w - String.length (PyStr.digits_fuel fuel (n / 10) EmptyString))%nat by lia.
      rewrite <- string_app_assoc, IH; [reflexivity| |].
      * split; [apply Z.div_pos; lia|].
        apply Z.div_lt_upper_bound; [lia|].
        rewrite <- Z.pow_succ_r by lia. rewrite <- Nat2Z.inj_succ. lia.
      * apply Z.div_lt_upper_bound; [lia|].
        rewrite Nat2Z.inj_succ, Z.pow_succ_r in Hf by lia. lia.
Qed.

Lemma pad_fixed (w : nat) (n : Z) :
  0 <= n < 10 ^ Z.of_nat (S w) -> PyStr.pad (S w) n = Calendar.fixed (S w) n.
Proof.
  intros Hn. unfold PyStr.pad, PyStr.of_Z. cbv zeta.
  destruct (n <? 0) eqn:E; [apply Z.ltb_lt in E; lia|].
  apply digits_fuel_fixed; [exact Hn|].
  rewrite Nat2Z.inj_succ, Z2Nat.id by apply Z.log2_nonneg.
  destruct (Z.eq_dec n 0) as [->|Hne]; [reflexivity|].
  apply Z.log2_spec. lia.
Qed.

Lemma digit_char_cases (n : Z) :
  exists c, PyStr.digit_char (n mod 10) = c /\ PyStr.digit_val c = n mod 10 /\
            In c ["0"; "1"; "2"; "3"; "4"; "5"; "6"; "7"; "8"; "9"]%char.
Proof.
  assert (H : 0 <= n mod 10 < 10) by (apply Z.mod_pos_bound; lia).
  assert (Hc : n mod 10 = 0 \/ n mod 10 = 1 \/ n mod 10 = 2 \/ n mod 10 = 3 \/ n mod 10 = 4 \/
               n mod 10 = 5 \/ n mod 10 = 6 \/ n mod 10 = 7 \/ n mod 10 = 8 \/ n mod 10 = 9)
    by lia.
  eexists. split; [reflexivity|].
  repeat (destruct Hc as [Hc|Hc]; [rewrite Hc; split; [reflexivity | simpl; tauto]|]).
  rewrite Hc. split; [reflexivity | simpl; tauto].
Qed.

Lemma digit_facts (c : ascii) :
  In c ["0"; "1"; "2"; "3"; "4"; "5"; "6"; "7"; "8"; "9"]%char ->
  Datetime.digit c = true /\ PyStr.is_digit c = true /\
  Ascii.eqb "." c = false /\ Ascii.eqb c "Z" = false /\ Ascii.eqb c "_" = false /\
  Py.int_space c = false.
Proof.
  intros H. simpl in H.
  repeat (destruct H as [<-|H]; [repeat split; reflexivity|]). destruct H.
Qed.

Lemma match_pat_app (p q : list Datetime.cls) :
  forall s,
  Datetime.match_pat (p ++ q) s
  = match Datetime.match_pat p s with
    | Some (m, r) =>
        match Datetime.match_pat q r with
        | Some (m', r') => Some (m ++ m', r')
        | None => None
        end
    | None => None
    end.
Proof.
  induction p as [|c p IH]; intros s.
  - simpl. now destruct (Datetime.match_pat q s) as [[m' r']|].
  - simpl. destruct s as [|a rest]; [reflexivity|].
    destruct (c a); [|reflexivity]. rewrite IH.
    destruct (Datetime.match_pat p rest) as [[m r]|]; [|reflexivity].
    now destruct (Datetime.match_pat q r) as [[m' r']|].
Qed.

Lemma repeat_snoc {A} (x : A) (n : nat) : repeat x (S n) = (repeat x n ++ [x])%list.
Proof. induction n as [|n IH]; [reflexivity|]. simpl in *. now rewrite <- IH. Qed.

(** A fixed number of digits is matched by as many digit classes. *)
Lemma match_pat_fixed (w : nat) :
  forall n rest,
  Datetime.match_pat (repeat Datetime.digit w) (Calendar.fixed w n ++ rest)
  = Some (Calendar.fixed w n, rest).
Proof.
  induction w as [|w IH]; intros n rest; [reflexivity|].
  rewrite repeat_snoc, match_pat_app. cbn [Calendar.fixed].
  rewrite string_app_assoc, IH.
  destruct (digit_char_cases n) as (c & -> & _ & Hc).
  destruct (digit_facts c Hc) as (Hd & _).
  cbn [append Datetime.match_pat]. rewrite Hd. reflexivity.
Qed.

Lemma fixed_plain (w : nat) :
  forall n,
  PyStr.contains "." (Calendar.fixed w n) = false /\
  PyStr.remove_char "Z" (Calendar.fixed w n) = Calendar.fixed w n.
Proof.
  induction w as [|w IH]; intros n; [split; reflexivity|].
  cbn [Calendar.fixed]. rewrite contains_char_app, remove_char_app.
  destruct (IH (n / 10)) as [-> ->].
  destruct (digit_char_cases n) as (c & -> & _ & Hc).
  destruct (digit_facts c Hc) as (_ & _ & Hdot & Hz & _).
  rewrite contains_char_cons, Hdot. cbn [PyStr.remove_char]. rewrite Hz. split; reflexivity.
Qed.

Lemma int_digits_fixed (w : nat) :
  forall n acc s,
  0 <= n < 10 ^ Z.of_nat w ->
  Py.int_digits acc (Calendar.fixed w n ++ s) = Py.int_digits (10 ^ Z.of_nat w * acc + n) s.
Proof.
  induction w as [|w IH]; intros n acc s Hn.
  - change (10 ^ Z.of_nat 0) with 1 in *. cbn [Calendar.fixed append]. f_equal. lia.
  - cbn [Calendar.fixed]. rewrite string_app_assoc.
    rewrite Nat2Z.inj_succ, Z.pow_succ_r in * by lia.
    rewrite IH.
    + destruct (digit_char_cases n) as (c & -> & Hv & Hc).
      destruct (digit_facts c Hc) as (_ & Hd & _).
      cbn [append Py.int_digits]. rewrite Hd, Hv. f_equal.
      pose proof (Z.div_mod n 10). lia.
    + split; [apply Z.div_pos; lia | apply Z.div_lt_upper_bound; lia].
Qed.

Lemma fixed_head (w : nat) :
  forall n, exists c t,
    Calendar.fixed (S w) n = String c t /\
    In c ["0"; "1"; "2"; "3"; "4"; "5"; "6"; "7"; "8"; "9"]%char.
Proof.
  induction w as [|w IH]; intros n.
  - cbn [Calendar.fixed append]. destruct (digit_char_cases n) as (c & -> & _ & Hc). eauto.
  - destruct (IH (n / 10)) as (c & t & Hf & Hc).
    change (Calendar.fixed (S (S w)) n)
      with (Calendar.fixed (S w) (n / 10) ++ String (PyStr.digit_char (n mod 10)) EmptyString).
    rewrite Hf. cbn [append]. eauto.
Qed.

Lemma int_of_digits (c : ascii) (t : string) (v : Z) :
  In c ["0"; "1"; "2"; "3"; "4"; "5"; "6"; "7"; "8"; "9"]%char ->
  Py.int_digits 0 (String c t) = Some (v, EmptyString) ->
  Py.int (String c t) = inr v.
Proof.
  intros H Hd. simpl in H.
  repeat (destruct H as [<-|H];
          [unfold Py.int, Py.int_unsigned; cbn in *; rewrite Hd; reflexivity|]).
  destruct H.
Qed.

(** [int] reads back a number written with a fixed number of digits. *)
Lemma int_fixed (w : nat) (n : Z) :
  0 <= n < 10 ^ Z.of_nat (S w) -> Py.int (Calendar.fixed (S w) n) = inr n.
Proof.
  intros Hn. destruct (fixed_head w n) as (c & t & Hf & Hc).
  pose proof (int_digits_fixed (S w) n 0 EmptyString Hn) as Hd.
  rewrite string_app_nil_r in Hd. rewrite Hf in *.
  apply (int_of_digits c t n Hc). rewrite Hd. cbn [Py.int_digits]. do 2 f_equal. lia.
Qed.

(** ** The fields of the format *)

Lemma all_from_spec (check : Z -> bool) (fuel : nat) :
  forall lo, Calendar.all_from fuel lo check = true ->
  forall v, lo <= v < lo + Z.of_nat fuel -> check v = true.
Proof.
  induction fuel as [|fuel IH]; intros lo H v Hv; [lia|].
  cbn [Calendar.all_from] in H. destruct (check lo) eqn:E; [|discriminate].
  destruct (Z.eq_dec v lo) as [->|Hne]; [exact E|].
  apply (IH (lo + 1) H). lia.
Qed.

Lemma match_pat_longer (p : list Datetime.cls) :
  forall m rest,
  (List.length p <= String.length m)%nat ->
  Datetime.match_pat p (m ++ rest)
  = match Datetime.match_pat p m with
    | Some (x, r) => Some (x, r ++ rest)
    | None => None
    end.
Proof.
  induction p as [|c p IH]; intros m rest Hl; [reflexivity|].
  destruct m as [|a m]; [simpl in Hl; lia|].
  cbn [append Datetime.match_pat]. destruct (c a); [|reflexivity].
  rewrite IH by (simpl in Hl; lia).
  now destruct (Datetime.match_pat p m) as [[x r]|].
Qed.

(** A field whose first matching alternative takes all of [m] reads
    [m] and leaves the rest to the items that follow. *)
Lemma match_seq_field (alts : list (list Datetime.cls)) (fmt : list Datetime.item)
    (m rest : string) (ms : list string) (r' : string) :
  Calendar.first_full alts m = true ->
  Datetime.match_seq fmt rest = Some (ms, r') ->
  Datetime.match_seq (Datetime.Field alts :: fmt) (m ++ rest) = Some (m :: ms, r').
Proof.
  intros Hf Hs. cbn [Datetime.match_seq].
  induction alts as [|p alts IH]; [discriminate|].
  cbn [Calendar.first_full] in Hf. apply andb_true_iff in Hf. destruct Hf as [Hl Hf].
  apply Nat.leb_le in Hl. cbn [Datetime.first_some]. rewrite (match_pat_longer p m rest Hl).
  destruct (Datetime.match_pat p m) as [[x r]|] eqn:Ep.
  - destruct r as [|a r]; [|discriminate].
    apply match_pat_suffix in Ep. rewrite string_app_nil_r in Ep. subst x.
    cbn [append]. now rewrite Hs.
  - now apply IH.
Qed.

Lemma match_seq_lit (c : Datetime.cls) (a : ascii) (fmt : list Datetime.item)
    (rest : string) (res : option (list string * string)) :
  c a = true -> Datetime.match_seq fmt rest = res ->
  Datetime.match_seq (Datetime.Lit c :: fmt) (String a rest) = res.
Proof. intros Hc Hs. cbn [Datetime.match_seq]. now rewrite Hc. Qed.

Lemma first_full_digits (w : nat) (n : Z) (alts : list (list Datetime.cls)) :
  Calendar.first_full (repeat Datetime.digit w :: alts) (Calendar.fixed w n) = true.
Proof.
  cbn [Calendar.first_full]. rewrite repeat_length, fixed_length, Nat.leb_refl.
  pose proof (match_pat_fixed w n EmptyString) as H. rewrite string_app_nil_r in H.
  now rewrite H.
Qed.

Lemma first_full_month (v : Z) :
  1 <= v <= 12 ->
  Calendar.first_full (Calendar.alternatives Datetime.dir_m) (PyStr.pad 2 v) = true.
Proof.
  intros H.
  apply (all_from_spec
           (fun v => Calendar.first_full (Calendar.alternatives Datetime.dir_m) (PyStr.pad 2 v))
           12 1); [vm_compute; reflexivity | lia].
Qed.

Lemma first_full_day (v : Z) :
  1 <= v <= 31 ->
  Calendar.first_full (Calendar.alternatives Datetime.dir_d) (PyStr.pad 2 v) = true.
Proof.
  intros H.
  apply (all_from_spec
           (fun v => Calendar.first_full (Calendar.alternatives Datetime.dir_d) (PyStr.pad 2 v))
           31 1); [vm_compute; reflexivity | lia].
Qed.

Lemma first_full_hour (v : Z) :
  0 <= v <= 23 ->
  Calendar.first_full (Calendar.alternatives Datetime.dir_H) (PyStr.pad 2 v) = true.
Proof.
  intros H.
  apply (all_from_spec
           (fun v => Calendar.first_full (Calendar.alternatives Datetime.dir_H) (PyStr.pad 2 v))
           24 0); [vm_compute; reflexivity | lia].
Qed.

Lemma first_full_minute (v : Z) :
  0 <= v <= 59 ->
  Calendar.first_full (Calendar.alternatives Datetime.dir_M) (PyStr.pad 2 v) = true.
Proof.
  intros H.
  apply (all_from_spec
           (fun v => Calendar.first_full (Calendar.alternatives Datetime.dir_M) (PyStr.pad 2 v))
           60 0); [vm_compute; reflexivity | lia].
Qed.

Lemma first_full_second (v : Z) :
  0 <= v <= 59 ->
  Calendar.first_full (Calendar.alternatives Datetime.dir_S) (PyStr.pad 2 v) = true.
Proof.
  intros H.
  apply (all_from_spec
           (fun v => Calendar.first_full (Calendar.alternatives Datetime.dir_S) (PyStr.pad 2 v))
           60 0); [vm_compute; reflexivity | lia].
Qed.

Lemma days_in_month_bound (y m : Z) : Datetime.days_in_month y m <= 31.
Proof.
  unfold Datetime.days_in_month.
  destruct (m =? 2); [destruct (Datetime.is_leap y); lia|].
  destruct ((m =? 4) || (m =? 6) || (m =? 9) || (m =? 11)); lia.
Qed.

Lemma int_pad (w : nat) (n : Z) :
  0 <= n < 10 ^ Z.of_nat (S w) -> Py.int (PyStr.pad (S w) n) = inr n.
Proof. intros H. rewrite pad_fixed by exact H. now apply int_fixed. Qed.

(** [strptime] reads a timestamp written field by field with its
    fraction of six digits. *)
Lemma strptime_written (d : Datetime.t) :
  Calendar.valid d ->
  Datetime.strptime
    (PyStr.pad 4 (Datetime.year d) ++ "-" ++ PyStr.pad 2 (Datetime.month d) ++ "-"
     ++ PyStr.pad 2 (Datetime.day d) ++ "T" ++ PyStr.pad 2 (Datetime.hour d) ++ ":"
     ++ PyStr.pad 2 (Datetime.minute d) ++ ":" ++ PyStr.pad 2 (Datetime.second d) ++ "."
     ++ PyStr.pad 6 (Datetime.microsecond d) ++ "Z")
  = inr d.
Proof.
  intros (Hy & Hm & Hd & HH & HM & HS & Hu).
  destruct d as [y m dd H Mi S us]. cbn [Datetime.year Datetime.month Datetime.day
    Datetime.hour Datetime.minute Datetime.second Datetime.microsecond] in *.
  pose proof (days_in_month_bound y m) as Hdm.
  unfold Datetime.strptime.
  assert (Hseq : Datetime.match_seq Datetime.format
            (PyStr.pad 4 y ++ "-" ++ PyStr.pad 2 m ++ "-" ++ PyStr.pad 2 dd ++ "T"
             ++ PyStr.pad 2 H ++ ":" ++ PyStr.pad 2 Mi ++ ":" ++ PyStr.pad 2 S ++ "."
             ++ PyStr.pad 6 us ++ "Z")
          = Some ([PyStr.pad 4 y; PyStr.pad 2 m; PyStr.pad 2 dd; PyStr.pad 2 H;
                   PyStr.pad 2 Mi; PyStr.pad 2 S; PyStr.pad 6 us], EmptyString)).
  { unfold Datetime.format.
    apply (match_seq_field (Calendar.alternatives Datetime.dir_Y)).
    { rewrite (pad_fixed 3) by (change (10 ^ Z.of_nat 4) with 10000; lia).
      apply (first_full_digits 4). }
    apply match_seq_lit; [reflexivity|].
    apply (match_seq_field (Calendar.alternatives Datetime.dir_m));
      [apply first_full_month; lia|].
    apply match_seq_lit; [reflexivity|].
    apply (match_seq_field (Calendar.alternatives Datetime.dir_d));
      [apply first_full_day; lia|].
    apply match_seq_lit; [reflexivity|].
    apply (match_seq_field (Calendar.alternatives Datetime.dir_H));
      [apply first_full_hour; lia|].
    apply match_seq_lit; [reflexivity|].
    apply (match_seq_field (Calendar.alternatives Datetime.dir_M));
      [apply first_full_minute; lia|].
    apply match_seq_lit; [reflexivity|].
    apply (match_seq_field (Calendar.alternatives Datetime.dir_S));
      [apply first_full_second; lia|].
    apply match_seq_lit; [reflexivity|].
    apply (match_seq_field (Calendar.alternatives Datetime.dir_f)).
    { rewrite (pad_fixed 5) by (change (10 ^ Z.of_nat 6) with 1000000; lia).
      apply (first_full_digits 6). }
    reflexivity. }
  rewrite Hseq.
  assert (Hlen : String.length (PyStr.pad 6 us) = 6%nat).
  { rewrite (pad_fixed 5) by (change (10 ^ Z.of_nat 6) with 1000000; lia).
    apply fixed_length. }
  rewrite Hlen. cbn [Nat.sub PyStr.zeros]. rewrite string_app_nil_r.
  rewrite (int_pad 3) by (change (10 ^ Z.of_nat 4) with 10000; lia).
  rewrite !(int_pad 1) by (change (10 ^ Z.of_nat 2) with 100; lia).
  rewrite (int_pad 5) by (change (10 ^ Z.of_nat 6) with 1000000; lia).
  cbn [rbind]. unfold Datetime.make_checked.
  destruct (y <? 1) eqn:E1; [apply Z.ltb_lt in E1; lia|].
  destruct (Datetime.days_in_month y m <? dd) eqn:E2; [apply Z.ltb_lt in E2; lia|].
  destruct (59 <? S) eqn:E3; [apply Z.ltb_lt in E3; lia|].
  reflexivity.
Qed.

Lemma pad_plain (w : nat) (n : Z) :
  0 <= n < 10 ^ Z.of_nat (S w) ->
  PyStr.contains "." (PyStr.pad (S w) n) = false /\
  PyStr.remove_char "Z" (PyStr.pad (S w) n) = PyStr.pad (S w) n /\
  String.length (PyStr.pad (S w) n) = S w.
Proof.
  intros H. rewrite pad_fixed by exact H.
  destruct (fixed_plain (S w) n) as [H1 H2].
  split; [exact H1|]. split; [exact H2 | apply fixed_length].
Qed.

(** With no ["."] before the fraction and a fraction of six plain
    characters, [parse_timestamp] hands the string to [strptime] as it
    is. *)
Lemma parse_timestamp_strptime (main six : string) :
  PyStr.contains "." main = false ->
  String.length six = 6%nat ->
  PyStr.remove_char "Z" six = six ->
  PyStr.contains "." six = false ->
  parse_timestamp (JStr (main ++ "." ++ six ++ "Z"))
  = Datetime.strptime (main ++ "." ++ six ++ "Z").
Proof.
  intros Hm Hlen Hz Hd.
  unfold parse_timestamp. cbn [Py.contains Py.split rbind].
  change (main ++ "." ++ six ++ "Z") with (main ++ String "." (six ++ "Z")).
  rewrite (contains_char_app "." main), contains_char_cons, Ascii.eqb_refl.
  rewrite orb_true_l, orb_true_r. cbn [rbind]. rewrite split_app.
  rewrite (split_without "." main Hm), (split_without "." (six ++ "Z")).
  - cbn [app]. rewrite remove_char_app, Hz. cbn [PyStr.remove_char Ascii.eqb Bool.eqb].
    rewrite string_app_nil_r. rewrite <- Hlen at 1.
    pose proof (take_app six EmptyString) as Ht. rewrite string_app_nil_r in Ht.
    rewrite Ht. reflexivity.
  - rewrite contains_char_app, Hd. reflexivity.
Qed.

(** [parse_timestamp] reads what [isoformat()] writes: for every
    [datetime] whose microsecond is not zero, the text of [isoformat()]
    followed by ["Z"], with or without further characters of the
    fraction before the ["Z"], is read as that [datetime]. A [datetime]
    on a full second is written by [isoformat()] without a fraction, and
    [parse_timestamp] then raises the [ValueError] of [strptime]. *)
Theorem parse_timestamp_reads_isoformat (d : Datetime.t) (more : string) :
  Calendar.valid d ->
  PyStr.contains "." more = false ->
  parse_timestamp (JStr (Datetime.isoformat "T" d ++ more ++ "Z"))
  = if Datetime.microsecond d =? 0
    then inl (Calendar.no_match (Datetime.isoformat "T" d ++ more ++ "Z"))
    else inr d.
Proof.
  intros Hv Hmore. pose proof Hv as (Hy & Hm & Hd & HH & HM & HS & Hu).
  pose proof (days_in_month_bound (Datetime.year d) (Datetime.month d)) as Hdm.
  destruct (pad_plain 3 (Datetime.year d)) as (Py1 & _ & _);
    [change (10 ^ Z.of_nat 4) with 10000; lia|].
  destruct (pad_plain 1 (Datetime.month d)) as (Pm1 & _ & _);
    [change (10 ^ Z.of_nat 2) with 100; lia|].
  destruct (pad_plain 1 (Datetime.day d)) as (Pd1 & _ & _);
    [change (10 ^ Z.of_nat 2) with 100; lia|].
  destruct (pad_plain 1 (Datetime.hour d)) as (PH1 & _ & _);
    [change (10 ^ Z.of_nat 2) with 100; lia|].
  destruct (pad_plain 1 (Datetime.minute d)) as (PM1 & _ & _);
    [change (10 ^ Z.of_nat 2) with 100; lia|].
  destruct (pad_plain 1 (Datetime.second d)) as (PS1 & _ & _);
    [change (10 ^ Z.of_nat 2) with 100; lia|].
  destruct (pad_plain 5 (Datetime.microsecond d)) as (Pu1 & Pu2 & Pu3);
    [change (10 ^ Z.of_nat 6) with 1000000; lia|].
  set (main := PyStr.pad 4 (Datetime.year d) ++ "-" ++ PyStr.pad 2 (Datetime.month d) ++ "-"
               ++ PyStr.pad 2 (Datetime.day d) ++ "T" ++ PyStr.pad 2 (Datetime.hour d) ++ ":"
               ++ PyStr.pad 2 (Datetime.minute d) ++ ":" ++ PyStr.pad 2 (Datetime.second d)).
  assert (Hmain : PyStr.contains "." main = false).
  { unfold main. rewrite !contains_char_app, Py1, Pm1, Pd1, PH1, PM1, PS1. reflexivity. }
  assert (Hiso : Datetime.isoformat "T" d
                 = main ++ (if Datetime.microsecond d =? 0 then EmptyString
                            else "." ++ PyStr.pad 6 (Datetime.microsecond d))).
  { unfold Datetime.isoformat, main. now rewrite !string_app_assoc. }
  destruct (Datetime.microsecond d =? 0) eqn:E.
  - unfold parse_timestamp. cbn [Py.contains rbind].
    assert (Hno : PyStr.contains "." (Datetime.isoformat "T" d ++ more ++ "Z") = false).
    { rewrite Hiso, string_app_nil_r, !contains_char_app, Hmain, Hmore. reflexivity. }
    rewrite Hno. cbn [rbind]. now apply strptime_needs_fraction.
  - rewrite Hiso, !string_app_assoc.
    rewrite (parse_timestamp_truncates main (PyStr.pad 6 (Datetime.microsecond d)) more
               Pu3 Pu2 Pu1 Hmore).
    rewrite (parse_timestamp_strptime main _ Hmain Pu3 Pu2 Pu1).
    unfold main. rewrite !string_app_assoc. now apply strptime_written.
Qed.

Lemma parse_timestamp_reads_isoformat_witness :
  parse_timestamp (JStr (Datetime.isoformat "T" (Datetime.make 2024 2 29 23 59 59 123456)
                         ++ "789" ++ "Z"))
  = inr (Datetime.make 2024 2 29 23 59 59 123456).
Proof.
  apply (parse_timestamp_reads_isoformat (Datetime.make 2024 2 29 23 59 59 123456) "789").
  - unfold Calendar.valid. cbn. lia.
  - reflexivity.
Defined.

(** ** The errors of a run *)

Lemma aggregate_app (root : Path) (before : list folder) :
  Forall (fun d => exists files, glob_json d = inr files) before ->
  forall rest plans,
  Outcome.aggregate root (before ++ rest) plans
  = Outcome.aggregate root rest (fst (Outcome.aggregate root before plans)).
Proof.
  induction 1 as [|d before [files Hd] _ IH]; intros rest plans; [reflexivity|].
  cbn [app Outcome.aggregate]. rewrite Hd. apply IH.
Qed.

Lemma aggregate_no_error (root : Path) (ds : list folder) :
  Forall (fun d => exists files, glob_json d = inr files) ds ->
  forall plans, snd (Outcome.aggregate root ds plans) = None.
Proof.
  induction 1 as [|d ds [files Hd] _ IH]; intros plans; [reflexivity|].
  cbn [Outcome.aggregate]. rewrite Hd. apply IH.
Qed.

(** The loop over the directories ends at the first one that cannot be
    scanned. *)
Lemma aggregate_outcome (root : Path) (ds : list folder) :
  forall plans,
  (snd (Outcome.aggregate root ds plans) = None /\
   Forall (fun d => exists files, glob_json d = inr files) ds) \/
  exists e before d after,
    snd (Outcome.aggregate root ds plans) = Some e /\
    ds = (before ++ d :: after)%list /\
    Forall (fun d' => exists files, glob_json d' = inr files) before /\
    glob_json d = inl e.
Proof.
  induction ds as [|d ds IH]; intros plans; [left; split; [reflexivity | constructor]|].
  cbn [Outcome.aggregate]. destruct (glob_json d) as [e|files] eqn:Ed.
  - right. exists e, [], d, ds. repeat split; [constructor | exact Ed].
  - destruct (IH (Outcome.add_directory root plans d files))
      as [[Hn Hall]|(e & before & d' & after & He & -> & Hall & Hd')].
    + left. split; [exact Hn|]. constructor; [eauto | exact Hall].
    + right. exists e, (d :: before), d', after. split; [exact He|].
      split; [reflexivity|]. split; [constructor; eauto | exact Hd'].
Qed.

Lemma errors_of_full (root : Path) (now : Datetime.t) plans (errs : list string) :
  Report.errors_of (Aggregate.full root now plans errs) = map JStr errs.
Proof. reflexivity. Qed.

(** On the console that takes every line, [errors] is empty when every
    directory was scanned, and holds otherwise the one entry of the
    failure that stopped the directories. *)
Lemma errors_on_the_accepting_console (fs : tree) (now : Datetime.t) :
  exists s full short,
    run fs now = (s, inr (full, short)) /\
    ((Report.errors_of full = [] /\
      exists ds, Outcome.directories fs = inr ds /\
                 Forall (fun d => exists files, glob_json d = inr files) ds) \/
     (exists e, Report.errors_of full = [JStr ("Directory error: " ++ exn_str e)] /\
                Report.directory_failure fs e)).
Proof.
  destruct (run_collected fs now) as (c & dp & Hrun).
  eexists _, _, _. split; [exact Hrun|]. rewrite errors_of_full.
  unfold Outcome.collected, Report.directory_failure.
  destruct (Outcome.directories fs) as [e|ds] eqn:Ed.
  - right. exists e. split; [reflexivity | now left].
  - destruct (aggregate_outcome (plans_directory fs) ds [])
      as [[Hn Hall]|(e & before & d & after & He & -> & Hall & Hd)].
    + left. destruct (Outcome.aggregate (plans_directory fs) ds []) as [plans [e|]];
        [discriminate|]. split; [reflexivity | eauto].
    + right. exists e.
      destruct (Outcome.aggregate (plans_directory fs) (before ++ d :: after) [])
        as [plans [e'|]]; [|discriminate].
      simpl in He. inversion He. subst e'. split; [reflexivity|].
      right. exists before, d, after. now repeat split.
Qed.

(** When a directory cannot be scanned, the run keeps what it collected
    from the directories before it and looks at none after it: the
    [plans] mapping is the one of the earlier directories alone, and the
    error is the only entry of [errors]. *)
Theorem directory_error_keeps_earlier_directories (fs : tree) (now : Datetime.t)
    (before after : list folder) (d : folder) (e : exn) :
  Outcome.directories fs = inr (before ++ d :: after)%list ->
  Forall (fun d' => exists files, glob_json d' = inr files) before ->
  glob_json d = inl e ->
  exists s full short,
    run fs now = (s, inr (full, short)) /\
    Outcome.plans_in full
    = map (fun kv => (fst kv, JDict (snd kv)))
          (fst (Outcome.aggregate (plans_directory fs) before [])) /\
    short = Outcome.shorts_of (fst (Outcome.aggregate (plans_directory fs) before [])) /\
    Report.errors_of full = [JStr ("Directory error: " ++ exn_str e)].
Proof.
  intros Hds Hall Hd. destruct (run_collected fs now) as (c & dp & Hrun).
  assert (Hc : Outcome.collected fs
               = (fst (Outcome.aggregate (plans_directory fs) before []),
                  ["Directory error: " ++ exn_str e])).
  { unfold Outcome.collected. rewrite Hds, (aggregate_app _ before Hall).
    cbn [Outcome.aggregate]. rewrite Hd. reflexivity. }
  rewrite Hc in Hrun. eexists _, _, _. split; [exact Hrun|].
  cbn [fst snd]. rewrite plans_in_full, errors_of_full. repeat split.
Qed.

Lemma directory_error_keeps_earlier_directories_witness :
  exists s full short,
    run Examples.unreadable_tree Examples.a_time = (s, inr (full, short)) /\
    Dict.keys (Outcome.plans_in full) = ["1"] /\
    short = [Survival.short_record "fine" (JList [JStr "a"])] /\
    Report.errors_of full
    = [JStr "Directory error: [Errno 5] Input/output error: 'data/plans/2'"].
Proof.
  destruct (directory_error_keeps_earlier_directories
              Examples.unreadable_tree Examples.a_time
              [{| folder_name := "1"; folder_is_dir := true;
                  folder_scan := inr [{| entry_name := "p.json";
                                         entry_load := inr (JDict [("thoughts",
                                                              JList [Examples.sound])]) |}] |}]
              [{| folder_name := "3"; folder_is_dir := true;
                  folder_scan := inr [{| entry_name := "r.json";
                                         entry_load := inr (JDict [("thoughts",
                                                              JList [Examples.sound])]) |}] |}]
              {| folder_name := "2"; folder_is_dir := true;
                 folder_scan := inl (OSError "[Errno 5] Input/output error: 'data/plans/2'") |}
              (OSError "[Errno 5] Input/output error: 'data/plans/2'"))
    as (s & full & short & Hrun & Hp & Hs & He).
  - vm_compute. reflexivity.
  - constructor; [eexists; vm_compute; reflexivity | constructor].
  - reflexivity.
  - exists s, full, short. split; [exact Hrun|]. split; [rewrite Hp; reflexivity|].
    split; [rewrite Hs; vm_compute; reflexivity | exact He].
Defined.

(** ** The order of the listing *)

Lemma permutation_filter {A} (p : A -> bool) (l l' : list A) :
  Permutation l l' -> Permutation (filter p l) (filter p l').
Proof.
  induction 1 as [|x l l' _ IH|x y l|l l' l'' _ IH1 _ IH2]; simpl.
  - constructor.
  - destruct (p x); [now constructor | exact IH].
  - destruct (p x), (p y); try apply Permutation_refl. apply perm_swap.
  - eapply perm_trans; eassumption.
Qed.

(** A list has one arrangement in the order of distinct keys. *)
Lemma sorted_perm_unique {A} (key : A -> Z) (l : list A) :
  forall l',
  StronglySorted (fun a b => key a <= key b) l ->
  StronglySorted (fun a b => key a <= key b) l' ->
  Permutation l l' -> NoDup (map key l) -> l = l'.
Proof.
  induction l as [|a l IH]; intros l' Hs Hs' Hp Hnd.
  - apply Permutation_nil in Hp. now subst.
  - destruct l' as [|b l']; [apply Permutation_sym, Permutation_nil in Hp; discriminate|].
    inversion Hs as [|? ? Hs1 Ha]; subst. inversion Hs' as [|? ? Hs1' Hb]; subst.
    inversion Hnd as [|? ? Hnotin Hnd1]; subst.
    rewrite Forall_forall in Ha, Hb.
    assert (Hab : a = b).
    { assert (Hina : In a (b :: l')) by (eapply Permutation_in; [exact Hp | now left]).
      assert (Hinb : In b (a :: l))
        by (eapply Permutation_in; [apply Permutation_sym; exact Hp | now left]).
      destruct Hina as [Hina|Hina]; [now symmetry|].
      destruct Hinb as [Hinb|Hinb]; [exact Hinb|].
      exfalso. apply Hnotin.
      assert (Hk : key a = key b) by (pose proof (Ha b Hinb); pose proof (Hb a Hina); lia).
      rewrite Hk. now apply in_map. }
    subst b. f_equal. apply IH; try assumption.
    now apply Permutation_cons_inv in Hp.
Qed.

(** In a sound tree whose directories carry distinct numbers, the
    results of a run do not depend on the order in which the system
    lists the root: relisting the same directories in another order
    gives the same Full Aggregate and the same Short Aggregate. *)
Theorem listing_order_does_not_matter (fs fs' : tree) (now : Datetime.t)
    (scan scan' : list folder) :
  Tree.sound fs scan ->
  NoDup (map (fun d => Report.number (folder_name d)) (filter folder_is_dir scan)) ->
  plans_directory fs' = plans_directory fs ->
  root_scan fs' = inr scan' ->
  Permutation scan scan' ->
  snd (run fs' now) = snd (run fs now).
Proof.
  intros Hsound Hnum Hroot Hscan' Hperm.
  assert (Hpf : Permutation (filter folder_is_dir scan) (filter folder_is_dir scan'))
    by now apply permutation_filter.
  assert (Hsound' : Tree.sound fs' scan').
  { destruct Hsound as (_ & Hnd & Hall). split; [exact Hscan'|]. split.
    - eapply Permutation_NoDup; [|exact Hnd]. now apply Permutation_map.
    - eapply Permutation_Forall; [exact Hpf | exact Hall]. }
  destruct (sound_collected fs scan Hsound) as (ds & _ & Hp & Hs & Hc).
  destruct (sound_collected fs' scan' Hsound') as (ds' & _ & Hp' & Hs' & Hc').
  assert (Heq : ds = ds').
  { apply (sorted_perm_unique (fun d => Report.number (folder_name d))); try assumption.
    - eapply perm_trans; [apply Permutation_sym; exact Hp|].
      eapply perm_trans; [exact Hpf | exact Hp'].
    - eapply Permutation_NoDup; [|exact Hnum]. now apply Permutation_map. }
  subst ds'.
  destruct (run_collected fs now) as (c & dp & ->).
  destruct (run_collected fs' now) as (c' & dp' & ->).
  cbn [snd]. now rewrite Hc, Hc', Hroot.
Qed.

Lemma listing_order_does_not_matter_witness :
  snd (run Examples.numbered_tree_relisted Examples.a_time)
  = snd (run Examples.numbered_tree Examples.a_time).
Proof.
  apply (listing_order_does_not_matter Examples.numbered_tree Examples.numbered_tree_relisted
           Examples.a_time
           (match root_scan Examples.numbered_tree with inr scan => scan | inl _ => [] end)
           (rev (match root_scan Examples.numbered_tree with inr scan => scan | inl _ => [] end))).
  - exact numbered_tree_sound.
  - vm_compute. constructor; [intros [H|[]]; discriminate|].
    constructor; [intros []|constructor].
  - reflexivity.
  - reflexivity.
  - apply Permutation_rev.
Defined.

(** ** The Collector on any console *)

Lemma accepting_parse_single_plan (p : Path) (loaded : result json) (out : list string) :
  AnyConsole.parse_single_plan Console.accepting p loaded out = parse_single_plan p loaded out.
Proof. reflexivity. Qed.

Lemma accepting_process_file_try (p : Path) (loaded : result json) (s : frame) :
  AnyConsole.process_file_try Console.accepting p loaded s = process_file_try p loaded s.
Proof. reflexivity. Qed.

(** On the console that takes every line, the Collector on any console
    is the Collector of [CreaturePlanParser]. *)
Lemma accepting_run (fs : tree) (now : Datetime.t) :
  AnyConsole.run Console.accepting fs now = run fs now.
Proof. reflexivity. Qed.

Lemma no_console_error (e : exn) : ~ Refusal.console_error Console.accepting e.
Proof. intros (out & line & H). discriminate. Qed.

Section Keeping.

Context {S : Type}.
Variable I : S -> Prop.

Lemma keeps_ret {A} (Q : exn -> Prop) (P : A -> Prop) (x : A) :
  P x -> Refusal.keeps I Q P (ret x).
Proof. intros H s Hs. split; [exact Hs | exact H]. Qed.

Lemma keeps_lift {A} (Q : exn -> Prop) (P : A -> Prop) (r : result A) :
  match r with inl e => Q e | inr x => P x end -> Refusal.keeps I Q P (lift r).
Proof. intros H s Hs. split; [exact Hs | exact H]. Qed.

Lemma keeps_get (Q : exn -> Prop) : Refusal.keeps I Q I get.
Proof. intros s Hs. split; exact Hs. Qed.

Lemma keeps_modify (Q : exn -> Prop) (f : S -> S) :
  (forall s, I s -> I (f s)) -> Refusal.keeps I Q (fun _ => True) (modify f).
Proof. intros H s Hs. split; [now apply H | exact Logic.I]. Qed.

Lemma keeps_bind {A B} (Q : exn -> Prop) (P : A -> Prop) (P' : B -> Prop)
    (m : M S A) (k : A -> M S B) :
  Refusal.keeps I Q P m -> (forall x, P x -> Refusal.keeps I Q P' (k x)) ->
  Refusal.keeps I Q P' (bind m k).
Proof.
  intros Hm Hk s Hs. unfold bind. destruct (Hm s Hs) as [H1 H2].
  destruct (m s) as [s' [e|x]]; cbn [fst snd] in *.
  - split; assumption.
  - now apply Hk.
Qed.

Lemma keeps_try {A} (Q Q' : exn -> Prop) (P : A -> Prop) (m : M S A) (h : exn -> M S A) :
  Refusal.keeps I Q' P m -> (forall e, Q' e -> Refusal.keeps I Q P (h e)) ->
  Refusal.keeps I Q P (try_except m h).
Proof.
  intros Hm Hh s Hs. unfold try_except. destruct (Hm s Hs) as [H1 H2].
  destruct (m s) as [s' [e|x]]; cbn [fst snd] in *.
  - now apply Hh.
  - split; assumption.
Qed.

Lemma keeps_for_each {A} (Q : exn -> Prop) (body : A -> M S unit) (l : list A) :
  (forall x, Refusal.keeps I Q (fun _ => True) (body x)) ->
  Refusal.keeps I Q (fun _ => True) (for_each l body).
Proof.
  intros Hb. induction l as [|x l IH]; cbn [for_each].
  - now apply keeps_ret.
  - eapply keeps_bind; [apply Hb | intros _ _; exact IH].
Qed.

Lemma keeps_weaken {A} (Q Q' : exn -> Prop) (P P' : A -> Prop) (m : M S A) :
  (forall e, Q e -> Q' e) -> (forall x, P x -> P' x) ->
  Refusal.keeps I Q P m -> Refusal.keeps I Q' P' m.
Proof.
  intros HQ HP Hm s Hs. destruct (Hm s Hs) as [H1 H2]. split; [exact H1|].
  destruct (snd (m s)); auto.
Qed.

End Keeping.

Section OnAnyConsole.

Variable dev : Console.t.

Lemma print_outcome (line : string) (out : list string) :
  (dev out line = inr tt /\ Console.print dev line out = (list_append out line, inr tt)) \/
  exists e, dev out line = inl e /\ Console.print dev line out = (out, inl e).
Proof.
  unfold Console.print. destruct (dev out line) as [e|[]]; [right; eauto | left; auto].
Qed.

(** [parse_single_plan] raises what the [print] of its handler raises,
    and nothing else. *)
Lemma parse_single_plan_raises (p : Path) (loaded : result json) (out out' : list string)
    (e : exn) :
  AnyConsole.parse_single_plan dev p loaded out = (out', inl e) ->
  exists e0, dev out' ("Error processing file " ++ path_str p ++ ": " ++ exn_str e0) = inl e.
Proof.
  unfold AnyConsole.parse_single_plan, try_except.
  match goal with |- context [let (_, _) := ?body out in _] =>
    destruct (body out) as [s1 [e0|x]] end; [|discriminate].
  unfold bind.
  destruct (print_outcome ("Error processing file " ++ path_str p ++ ": " ++ exn_str e0) s1)
    as [[_ ->]|(e1 & He1 & ->)]; [discriminate|].
  intros H. inversion H. subst. eauto.
Qed.

Ltac handler_returns_none :=
  unfold bind, Console.print, ret;
  match goal with
  | |- context [dev ?o ?l] => destruct (dev o l) as [?|[]]
  end; discriminate.

(** What it returns is [None] or a Plan Document. *)
Lemma parse_single_plan_returns (p : Path) (loaded : result json) (out out' : list string)
    (doc : json) :
  AnyConsole.parse_single_plan dev p loaded out = (out', inr (Some doc)) ->
  Aggregate.is_plan_document doc.
Proof.
  unfold AnyConsole.parse_single_plan, try_except, bind at 1, lift at 1.
  destruct loaded as [e|plan_data].
  { handler_returns_none. }
  unfold bind at 1, lift at 1.
  destruct (rbind (Py.get plan_data "thoughts" (JList [])) _) as [e|items].
  { handler_returns_none. }
  unfold bind at 1.
  destruct (fold_m (AnyConsole.process_thought dev p) items [] out) as [s1 [e|ths]].
  { handler_returns_none. }
  cbv zeta. destruct (sort_by Datetime.ltb timestamp ths) as [|t ts]; [discriminate|].
  unfold bind, lift, ret. destruct (Py.get plan_data "id" JNull) as [e|pid].
  { handler_returns_none. }
  intros H. inversion H. subst doc. now exists pid, p, (t :: ts).
Qed.

Lemma collecting_console (c : list string) (s : frame) :
  Refusal.collecting dev s -> Refusal.collecting dev (set_console c s).
Proof. intros H. exact H. Qed.

Lemma keeps_on_console {A} (I : frame -> Prop) (Q : exn -> Prop) (P : A -> Prop)
    (m : M (list string) A) :
  (forall c s, I s -> I (set_console c s)) ->
  (forall out, match snd (m out) with inl e => Q e | inr x => P x end) ->
  Refusal.keeps I Q P (on_console m).
Proof.
  intros HI Hm s Hs. unfold on_console. specialize (Hm (console s)).
  destruct (m (console s)) as [c r]. cbn [fst snd] in *. split; [now apply HI | exact Hm].
Qed.

Lemma keeps_echo (I : frame -> Prop) (line : string) :
  (forall c s, I s -> I (set_console c s)) ->
  Refusal.keeps I (Refusal.console_error dev) (fun _ => True) (AnyConsole.echo dev line).
Proof.
  intros HI. apply keeps_on_console; [exact HI|].
  intros out. destruct (print_outcome line out) as [[_ ->]|(e & He & ->)]; cbn [snd].
  - exact Logic.I.
  - now exists out, line.
Qed.

Lemma keeps_parse_single_plan (I : frame -> Prop) (p : Path) (loaded : result json) :
  (forall c s, I s -> I (set_console c s)) ->
  Refusal.keeps I (Refusal.console_error dev)
    (fun r => match r with Some d => Aggregate.is_plan_document d | None => True end)
    (on_console (AnyConsole.parse_single_plan dev p loaded)).
Proof.
  intros HI. apply keeps_on_console; [exact HI|].
  intros out.
  destruct (AnyConsole.parse_single_plan dev p loaded out) as [out' [e|[doc|]]] eqn:E;
    cbn [snd].
  - destruct (parse_single_plan_raises p loaded out out' e E) as [e0 He0].
    now exists out', ("Error processing file " ++ path_str p ++ ": " ++ exn_str e0).
  - exact (parse_single_plan_returns p loaded out out' doc E).
  - exact Logic.I.
Qed.

(** The body of the [try] around a file raises only an exception of
    the console, whatever the locals are. *)
Lemma process_file_try_raises (p : Path) (loaded : result json) (s s' : frame) (e : exn) :
  AnyConsole.process_file_try dev p loaded s = (s', inl e) -> Refusal.console_error dev e.
Proof.
  intros H.
  assert (K : Refusal.keeps (fun _ : frame => True) (Refusal.console_error dev)
                (fun _ : unit => True) (AnyConsole.process_file_try dev p loaded)).
  { unfold AnyConsole.process_file_try.
    eapply keeps_bind with (P := fun _ => True); [apply keeps_echo; auto|]. intros _ _.
    eapply keeps_bind; [apply keeps_parse_single_plan; auto|]. intros [doc|] _.
    - apply keeps_modify. auto.
    - now apply keeps_ret. }
  destruct (K s Logic.I) as [_ K']. rewrite H in K'. exact K'.
Qed.

(** The body of the [try] around a file raises only an exception of the
    console. *)
Lemma keeps_process_file_try (p : Path) (loaded : result json) :
  Refusal.keeps (Refusal.collecting dev) (Refusal.console_error dev) (fun _ => True)
    (AnyConsole.process_file_try dev p loaded).
Proof.
  unfold AnyConsole.process_file_try.
  eapply keeps_bind with (P := fun _ => True);
    [apply keeps_echo; intros c s H; exact H|]. intros _ _.
  eapply keeps_bind; [apply keeps_parse_single_plan; intros c s H; exact H|].
  intros [doc|] Hdoc.
  - apply keeps_modify. intros s (H1 & H2 & H3). split; [exact H1|]. split; [|exact H3].
    cbn [dir_plans set_dir_plans]. now apply dict_values_set.
  - now apply keeps_ret.
Qed.

Lemma keeps_process_file (dir : Path) (file : entry) :
  Refusal.keeps (Refusal.collecting dev) (Refusal.console_error dev) (fun _ => True)
    (AnyConsole.process_file dev dir file).
Proof.
  unfold AnyConsole.process_file. cbv zeta.
  eapply keeps_try; [apply keeps_process_file_try|]. intros e He.
  eapply keeps_bind with (P := fun _ => True);
    [apply keeps_echo; intros c s H; exact H|]. intros _ _.
  apply keeps_modify. intros s (H1 & H2 & H3). split; [exact H1|]. split; [exact H2|].
  cbn [errors set_errors]. unfold list_append. apply Forall_app. split; [exact H3|].
  constructor; [|constructor]. now exists (path_child dir (entry_name file)), e.
Qed.

Lemma keeps_process_directory (root : Path) (d : folder) :
  Refusal.keeps (Refusal.collecting dev) (fun _ => True) (fun _ => True)
    (AnyConsole.process_directory dev root d).
Proof.
  unfold AnyConsole.process_directory. cbv zeta.
  eapply keeps_bind with (P := fun _ => True);
    [eapply keeps_weaken; [| |apply keeps_echo; intros c s H; exact H]; auto|]. intros _ _.
  eapply keeps_bind with (P := fun _ => True).
  { apply keeps_modify. intros s (H1 & H2 & H3). split; [exact H1|]. split; [constructor|].
    exact H3. }
  intros _ _.
  eapply keeps_bind with (P := fun _ => True); [apply keeps_lift; now destruct (glob_json d)|].
  intros files _.
  eapply keeps_bind with (P := fun _ => True);
    [eapply keeps_weaken; [| |apply keeps_echo; intros c s H; exact H]; auto|]. intros _ _.
  eapply keeps_bind with (P := fun _ => True).
  { apply keeps_for_each. intros f.
    eapply keeps_weaken; [| |apply keeps_process_file]; auto. }
  intros _ _.
  eapply keeps_bind; [apply keeps_get|]. intros s (Hs1 & Hs2 & Hs3).
  destruct (dir_plans s) as [|x l] eqn:E; [now apply keeps_ret|].
  apply keeps_modify. intros s' (H1 & H2 & H3). split; [|split; [exact H2 | exact H3]].
  cbn [all_plans set_all_plans]. unfold Aggregate.well_formed.
  apply dict_values_set; [exact Hs1 | exact Hs2].
Qed.

(** A run on any console returns the Full Aggregate and the Short
    Aggregate of its locals; [errors] holds the entries of files, each
    for an exception of the console, and after them at most one entry
    of the directories. *)
Lemma any_console_run (fs : tree) (now : Datetime.t) :
  exists s files dirs,
    AnyConsole.run dev fs now
    = (s, inr (Aggregate.full (plans_directory fs) now (all_plans s) (errors s),
               Outcome.shorts_of (all_plans s))) /\
    errors s = (files ++ dirs)%list /\
    Forall (Refusal.file_error dev) files /\
    (dirs = [] \/ exists e, dirs = ["Directory error: " ++ exn_str e]).
Proof.
  unfold AnyConsole.run, AnyConsole.parse_all_plans. cbv zeta.
  unfold bind at 1. unfold modify at 1. unfold bind at 1. unfold modify at 1.
  set (s0 := set_errors [] (set_all_plans [] empty_frame)).
  assert (H0 : Refusal.collecting dev s0) by (repeat split; constructor).
  set (body := (scan <- lift (root_scan fs) ;;
                directories <- lift (sort_directories (plans_directory fs)
                                       (filter folder_is_dir scan)) ;;
                AnyConsole.echo dev ("Found " ++ PyStr.of_Z (len directories) ++ " directories") ;;
                for_each directories (AnyConsole.process_directory dev (plans_directory fs)))%py).
  assert (Hbody : Refusal.keeps (Refusal.collecting dev) (fun _ => True) (fun _ => True) body).
  { unfold body.
    eapply keeps_bind with (P := fun _ => True);
      [apply keeps_lift; now destruct (root_scan fs)|]. intros scan _.
    eapply keeps_bind with (P := fun _ => True);
      [apply keeps_lift; now destruct (sort_directories _ _)|]. intros ds _.
    eapply keeps_bind with (P := fun _ => True);
    [eapply keeps_weaken; [| |apply keeps_echo; intros c s H; exact H]; auto|]. intros _ _.
    apply keeps_for_each. intros d. apply keeps_process_directory. }
  destruct (Hbody s0 H0) as [H1 _].
  unfold bind at 1. unfold try_except at 1. fold body.
  destruct (body s0) as [s1 [e|[]]]; cbn [fst] in H1; destruct H1 as (Hw & _ & Hf).
  - unfold modify at 1. unfold bind at 1. unfold get at 1.
    unfold bind, lift, ret. rewrite results_of_full.
    cbn [all_plans errors set_errors].
    rewrite (create_condensed_output_full _ _ _ _ Hw).
    exists (set_errors (list_append (errors s1) ("Directory error: " ++ exn_str e)) s1),
      (errors s1), ["Directory error: " ++ exn_str e].
    split; [reflexivity|]. split; [reflexivity|]. split; [exact Hf | right; eauto].
  - unfold bind at 1. unfold get at 1. unfold bind, lift, ret. rewrite results_of_full.
    rewrite (create_condensed_output_full _ _ _ _ Hw).
    exists s1, (errors s1), []. split; [reflexivity|]. split; [now rewrite app_nil_r|].
    split; [exact Hf | now left].
Qed.

End OnAnyConsole.

(** ** What [parse_single_plan] raises *)

(** C9 (amended). [parse_single_plan] returns a Plan Document or [None],
    and raises only what the [print] of its own handler raises: an
    exception of the console, on the line about the file. The body of
    the [try] around a file in [parse_all_plans] raises only exceptions
    of the console, a run always returns, and every entry of [errors] is
    an entry of the directories or the entry of a file for an exception
    of the console. On the console that takes every line,
    [parse_single_plan] never raises, the handler of a file is never
    entered and [errors] holds entries of the directories only. *)
Theorem parse_single_plan_raises_only_with_its_console (dev : Console.t) :
  (forall p loaded out out' e,
      AnyConsole.parse_single_plan dev p loaded out = (out', inl e) ->
      exists e0,
        dev out' ("Error processing file " ++ path_str p ++ ": " ++ exn_str e0) = inl e) /\
  (forall p loaded out out' doc,
      AnyConsole.parse_single_plan dev p loaded out = (out', inr (Some doc)) ->
      Aggregate.is_plan_document doc) /\
  (forall p loaded s s' e,
      AnyConsole.process_file_try dev p loaded s = (s', inl e) ->
      Refusal.console_error dev e) /\
  (forall fs now,
      exists s full short,
        AnyConsole.run dev fs now = (s, inr (full, short)) /\
        Py.getitem full "errors" = inr (JList (map JStr (errors s))) /\
        Forall (fun msg => Refusal.directory_error msg \/ Refusal.file_error dev msg)
               (errors s)) /\
  (forall p loaded out,
      exists out' doc,
        AnyConsole.parse_single_plan Console.accepting p loaded out = (out', inr doc)) /\
  (forall p loaded s,
      exists s', AnyConsole.process_file_try Console.accepting p loaded s = (s', inr tt)) /\
  (forall fs now,
      exists s full short,
        AnyConsole.run Console.accepting fs now = (s, inr (full, short)) /\
        Py.getitem full "errors" = inr (JList (map JStr (errors s))) /\
        Forall Refusal.directory_error (errors s)).
Proof.
  assert (Hrun : forall dev' fs now,
             exists s full short,
               AnyConsole.run dev' fs now = (s, inr (full, short)) /\
               Py.getitem full "errors" = inr (JList (map JStr (errors s))) /\
               Forall (fun msg => Refusal.directory_error msg \/ Refusal.file_error dev' msg)
                      (errors s)).
  { intros dev' fs now.
    destruct (any_console_run dev' fs now) as (s & files & dirs & H & He & Hf & Hd).
    eexists s, _, _. split; [exact H|]. split; [reflexivity|].
    rewrite He. apply Forall_app. split.
    - eapply Forall_impl; [|exact Hf]. intros msg Hm. now right.
    - destruct Hd as [->|[e ->]]; [constructor|].
      constructor; [left; now exists e | constructor]. }
  split; [intros p loaded out out' e; apply parse_single_plan_raises|].
  split; [intros p loaded out out' doc; apply parse_single_plan_returns|].
  split; [intros p loaded s s' e; apply process_file_try_raises|].
  split; [apply Hrun|].
  split; [|split].
  - intros p loaded out. rewrite accepting_parse_single_plan.
    destruct (parse_single_plan_result p loaded out) as [out' H]. eauto.
  - intros p loaded s. rewrite accepting_process_file_try.
    destruct (process_file_try_spec p loaded s) as [c H]. eauto.
  - intros fs now. destruct (Hrun Console.accepting fs now) as (s & full & short & H & Hg & Hf).
    exists s, full, short. split; [exact H|]. split; [exact Hg|].
    eapply Forall_impl; [|exact Hf]. intros msg [Hm|(path & e & He & _)]; [exact Hm|].
    now apply no_console_error in He.
Qed.

(** C9 as stated. That [parse_single_plan] never raises fails on a
    console whose encoding is ASCII. For a file that is not JSON, with an accent in
    its name, the handler of [parse_single_plan] prints the path and
    [parse_single_plan] raises. In a run over a sound file of that
    name, the line ["Processing file: ..."] is refused inside the [try]
    around the file, the handler of the file is entered, its own line
    is refused in turn (position 31 is that of the accent in it), and
    the run records a directory error. *)
Lemma parse_single_plan_raises_on_an_ascii_console :
  AnyConsole.parse_single_plan Examples.ascii_console
    [Examples.e_acute ++ ".json"; "1"; "plans"; "data"] (inl Examples.decode_error) []
  = ([], inl (ValueError "'ascii' codec can't encode character '\xe9' in position 36: ordinal not in range(128)")) /\
  fst (AnyConsole.run Examples.ascii_console Examples.accented_tree Examples.a_time)
  = {| console := ["Found 1 directories";
                   PyStr.newline ++ "Processing directory: 1";
                   "Found 1 JSON files"];
       all_plans := [];
       errors := ["Directory error: 'ascii' codec can't encode character '\xe9' in position 31: ordinal not in range(128)"];
       dir_plans := [] |}.
Proof. split; vm_compute; reflexivity. Qed.

(** ** The errors of a run *)

(** On any console a run returns, and its [errors] list is the entries
    of files, each written by the handler of a file for an exception
    that the console raised, followed by at most one entry of the
    directories. On the console that takes every line there is no
    entry of a file: [errors] is empty exactly when the root was
    listed, every directory name was read by [int] and every directory
    was scanned, and holds otherwise the one entry of the failure that
    stopped the directories. *)
Theorem errors_of_a_run (dev : Console.t) (fs : tree) (now : Datetime.t) :
  (exists s full short files dirs,
      AnyConsole.run dev fs now = (s, inr (full, short)) /\
      Report.errors_of full = map JStr (files ++ dirs) /\
      Forall (Refusal.file_error dev) files /\
      (dirs = [] \/ exists e, dirs = ["Directory error: " ++ exn_str e])) /\
  (exists s full short,
      AnyConsole.run Console.accepting fs now = (s, inr (full, short)) /\
      ((Report.errors_of full = [] /\
        exists ds, Outcome.directories fs = inr ds /\
                   Forall (fun d => exists files, glob_json d = inr files) ds) \/
       (exists e, Report.errors_of full = [JStr ("Directory error: " ++ exn_str e)] /\
                  Report.directory_failure fs e))).
Proof.
  split.
  - destruct (any_console_run dev fs now) as (s & files & dirs & H & He & Hf & Hd).
    eexists s, _, _, files, dirs. split; [exact H|].
    split; [rewrite errors_of_full; now rewrite He|]. split; [exact Hf | exact Hd].
  - rewrite accepting_run. apply errors_on_the_accepting_console.
Qed.

(** A sound tree on a console whose encoding is ASCII: the root is
    listed, the name of the directory is a number and the directory is
    scanned, and yet [errors] is not empty, because the console refuses
    the lines that hold the name of the file. *)
Lemma errors_of_a_run_on_an_ascii_console :
  Tree.sound Examples.accented_tree
    (match root_scan Examples.accented_tree with inr scan => scan | inl _ => [] end) /\
  errors (fst (AnyConsole.run Examples.ascii_console Examples.accented_tree Examples.a_time))
  = ["Directory error: 'ascii' codec can't encode character '\xe9' in position 31: ordinal not in range(128)"].
Proof.
  split; [|vm_compute; reflexivity].
  split; [reflexivity|]. split.
  - cbn. constructor; [intros []|constructor].
  - cbn. constructor; [|constructor].
    split; [exists 1; vm_compute; reflexivity|].
    eexists. split; [vm_compute; reflexivity|]. cbn.
    constructor; [intros []|constructor].
Qed.

(** ** An observation that the inner [try] gives up *)

Lemma rfold_app {A B} (body : A -> B -> result B) (a b : list A) :
  forall acc, rfold body (a ++ b) acc = (acc' <~ rfold body a acc ;; rfold body b acc').
Proof.
  induction a as [|x a IH]; intros acc; cbn [app rfold]; [reflexivity|].
  destruct (body x acc) as [e|acc1]; cbn [rbind]; [reflexivity | apply IH].
Qed.

Lemma survivors_without (before after : list json) (bad : json) (c : string) (e : exn) :
  Survival.stripped_content bad = inr c ->
  should_exclude_content c = false ->
  thought_data bad = inl e ->
  Outcome.survivors (before ++ bad :: after) = Outcome.survivors (before ++ after).
Proof.
  intros Hc Hx He. unfold Outcome.survivors. rewrite !rfold_app.
  destruct (rfold Outcome.keep before []) as [e0|kept]; cbn [rbind]; [reflexivity|].
  cbn [rfold]. unfold Outcome.keep at 1, Outcome.verdict.
  unfold Survival.stripped_content in Hc. rewrite Hc. cbn [rbind]. rewrite Hx, He.
  reflexivity.
Qed.

(** On the console that takes every line, an observation that the
    inner [try] gives up costs itself only: the file gives the Plan
    Document, or [None], that it would give without that observation,
    wherever the observation stands in the file. *)
Theorem failing_observation_costs_itself_only (p : Path) (plan_data plan_data' : json)
    (before after : list json) (bad : json) (c : string) (e : exn) (out : list string) :
  Survival.items_of (inr plan_data) = inr (before ++ bad :: after)%list ->
  Survival.items_of (inr plan_data') = inr (before ++ after)%list ->
  Py.get plan_data "id" JNull = Py.get plan_data' "id" JNull ->
  Survival.stripped_content bad = inr c ->
  should_exclude_content c = false ->
  thought_data bad = inl e ->
  snd (AnyConsole.parse_single_plan Console.accepting p (inr plan_data) out)
  = snd (AnyConsole.parse_single_plan Console.accepting p (inr plan_data') out).
Proof.
  intros Hi Hi' Hid Hc Hx He.
  rewrite (accepting_parse_single_plan p (inr plan_data) out),
    (accepting_parse_single_plan p (inr plan_data') out).
  destruct (parse_single_plan_result p (inr plan_data) out) as [o1 H1].
  destruct (parse_single_plan_result p (inr plan_data') out) as [o2 H2].
  rewrite H1, H2.
  cbn [snd]. f_equal. unfold Outcome.plan_of, Outcome.plan_result.
  unfold Survival.items_of in Hi, Hi'. cbn [rbind] in *. rewrite Hi, Hi'. cbn [rbind].
  rewrite (survivors_without before after bad c e Hc Hx He), Hid. reflexivity.
Qed.

Lemma failing_observation_costs_itself_only_witness :
  snd (AnyConsole.parse_single_plan Console.accepting ["f.json"; "1"; "plans"; "data"]
         (inr Examples.file_no_timestamp) [])
  = snd (AnyConsole.parse_single_plan Console.accepting ["f.json"; "1"; "plans"; "data"]
           (inr (JDict [("thoughts", JList [Examples.sound])])) []).
Proof.
  apply (failing_observation_costs_itself_only ["f.json"; "1"; "plans"; "data"]
           Examples.file_no_timestamp (JDict [("thoughts", JList [Examples.sound])])
           [] [Examples.sound] Examples.no_timestamp "early" (KeyError "'timestamp'") []).
  - reflexivity.
  - reflexivity.
  - reflexivity.
  - reflexivity.
  - vm_compute. reflexivity.
  - vm_compute. reflexivity.
Defined.
